(** * MOSFET-Simulator: the device physics evaluation engine

    A shallow embedding of the closed-form evaluators of the simulator and
    the properties its specification states about them.

    Sources embedded here:
    - [mosfet_simulator/modules/physics_engine.py], class [MOSFETPhysics]
      (the same [calculate_drain_current] is repeated verbatim in
      [app_enhanced.py]);
    - [modules/advanced_physics.py], class [AdvancedMOSFETPhysics]
      (the velocity-saturation variant of the extended evaluator);
    - [app_enhanced.py], class [AdvancedMOSFETPhysics]
      (the simple variant of the extended evaluator).

    Numbers: Python floats are idealised as exact rationals [Q]; every
    operation the evaluators use ([+ - * /], [** 2], comparisons) is a
    field or order operation, so the model is executable.  Rounding,
    overflow, infinities and NaN are outside the model.  The partial
    operations are division, which raises [ZeroDivisionError] on a zero
    divisor, and [d[key]], which raises [KeyError] on a missing entry.

    On doubles two more things can happen that exact arithmetic does not
    show: [x ** 2] raises [OverflowError] when the square leaves the range
    of the doubles, and a computed divisor can be rounded to zero.  A
    statement that says that an evaluator returns, or how it fails, is
    therefore made on inputs for which the operands of [**] and the
    divisors are bounded ([Binary64]), where neither can occur. *)

From Stdlib Require Import QArith Qabs Qminmax Lqa Lia.
From stdpp Require Import gmap strings pretty.

Local Open Scope Q_scope.
Local Open Scope string_scope.

(** ** A small model of the Python runtime *)

Module Py.

(** The exceptions the evaluators can raise in exact arithmetic.  The
    [OverflowError] of [**] on doubles is not among them: it is kept away
    by the bounds of [Binary64] wherever a statement depends on it. *)
Inductive exn : Type :=
| KeyError (key : string)
| ZeroDivisionError
| UnboundLocalError (name : string).

Inductive result (A : Type) : Type :=
| Ok (a : A)
| Raise (e : exn).
Arguments Ok {A} a.
Arguments Raise {A} e.

Definition bind {A B} (m : result A) (k : A -> result B) : result B :=
  match m with
  | Ok a => k a
  | Raise e => Raise e
  end.

Definition returns {A} (m : result A) : Prop :=
  match m with Ok _ => True | Raise _ => False end.

(** [x < y] on floats, as a boolean. *)
Definition Qlt_bool (x y : Q) : bool :=
  (Qnum x * QDen y <? Qnum y * QDen x)%Z.

(** [x / y]: true division raises on a zero divisor. *)
Definition div (x y : Q) : result Q :=
  if Qeq_bool y 0 then Raise ZeroDivisionError else Ok (x / y).

(** [max(a, b)]: the first argument is kept unless the second is
    strictly greater. *)
Definition max (a b : Q) : Q := if Qlt_bool a b then b else a.

(** [d.get(key, default)] *)
Definition get (d : gmap string Q) (key : string) (dflt : Q) : Q :=
  default dflt (d !! key).

(** [d[key]] *)
Definition item (d : gmap string Q) (key : string) : result Q :=
  match d !! key with
  | Some v => Ok v
  | None => Raise (KeyError key)
  end.

End Py.

Import Py.

Notation "'let*' x ':=' e 'in' k" := (Py.bind e (fun x => k))
  (at level 10, x name, e at level 100, k at level 200,
   format "'[v' 'let*'  x  :=  e  'in'  '/' k ']'").
Notation "'let*' ' p ':=' e 'in' k" :=
  (Py.bind e (fun x => match x with p => k end))
  (at level 10, p pattern, e at level 100, k at level 200,
   format "'[v' 'let*'  ' p  :=  e  'in'  '/' k ']'").

(** Dictionaries ([material], [geometry], the diagnostics) are finite maps
    from keys to numbers; the entries of a material that hold text
    (explanations, application notes) are never read by the evaluators and
    are left out. *)
Abbreviation dict := (gmap string Q).

(** The operating region; the source returns the strings of [region_name]. *)
Inductive region : Type := Cut_off | Linear | Saturation.

Definition region_name (r : region) : string :=
  match r with
  | Cut_off => "Cut-off"
  | Linear => "Linear"
  | Saturation => "Saturation"
  end.

(** ** The material table ([MATERIAL_PROPERTIES], numeric entries) *)

Module MaterialDatabase.

Definition Silicon : dict :=
  {[ "bandgap_value" := 1.12;
     "electron_mobility_value" := 1400;
     "thermal_conductivity_value" := 150;
     "breakdown_field_value" := 0.3;
     "dielectric_constant" := 11.7;
     "saturation_velocity" := 1e7 ]}.

Definition GalliumNitride : dict :=
  {[ "bandgap_value" := 3.4;
     "electron_mobility_value" := 2000;
     "thermal_conductivity_value" := 130;
     "breakdown_field_value" := 3.3;
     "dielectric_constant" := 9.0;
     "saturation_velocity" := 2.5e7 ]}.

Definition SiliconCarbide : dict :=
  {[ "bandgap_value" := 3.26;
     "electron_mobility_value" := 950;
     "thermal_conductivity_value" := 490;
     "breakdown_field_value" := 2.8;
     "dielectric_constant" := 9.7;
     "saturation_velocity" := 2.0e7 ]}.

End MaterialDatabase.

(** ** The basic evaluator ([physics_engine.py]) *)

Module MOSFETPhysics.

(** [calculate_drain_current(self, V_gs, V_ds, material, geometry)].
    The explanation texts stored in [self.explanations] are display
    decoration and are not part of the returned value. *)
Definition calculate_drain_current
    (V_gs V_ds : Q) (material geometry : dict) : result (Q * region) :=
  let mu_n := get material "electron_mobility_value" 1400 in
  let C_ox := get geometry "C_ox" 3.45e-3 in
  let W := get geometry "width" 10e-6 in
  let L := get geometry "length" 1e-6 in
  let V_th := get geometry "V_th" 0.7 in
  let mu_n_si := mu_n * 1e-4 in
  let V_ds_sat := max (V_gs - V_th) 0 in
  if Qle_bool V_gs V_th then
    Ok (0, Cut_off)
  else if Qlt_bool V_ds V_ds_sat then
    let* W_L := div W L in
    Ok (mu_n_si * C_ox * W_L * ((V_gs - V_th) * V_ds - 0.5 * V_ds ^ 2),
        Linear)
  else
    let* W_L := div W L in
    Ok (0.5 * mu_n_si * C_ox * W_L * (V_gs - V_th) ^ 2, Saturation).

(** [calculate_breakdown_voltage(self, material, thickness)] *)
Definition calculate_breakdown_voltage (material : dict) (thickness : Q) : Q :=
  let E_br := get material "breakdown_field_value" 0.3 * 1e6 in
  let V_br := E_br * thickness * 1e-4 in
  V_br.

End MOSFETPhysics.

(** ** The extended evaluator, velocity-saturation variant
       ([modules/advanced_physics.py]) *)

Module AdvancedPhysics.
Module AdvancedMOSFETPhysics.

Definition epsilon_0 : Q := 8.854e-12.
Definition q : Q := 1.6e-19.
Definition k : Q := 1.38e-23.

Definition _temperature_dependent_mobility (material : dict) (T : Q)
    : result Q :=
  let* mu_300 := item material "electron_mobility_value" in
  let* r := div 300 T in
  Ok (mu_300 * r ^ 2).

Definition _temperature_dependent_vth (V_th0 T : Q) : Q :=
  V_th0 - 0.002 * (T - 300).

Definition _dibl_effect (V_th V_ds L : Q) : result Q :=
  let* eta := div 0.1 (L * 1e6) in
  Ok (V_th - eta * V_ds).

Definition _channel_length_modulation (L V_ds : Q) : result Q :=
  div 0.1 (L * 1e6).

(** [calculate_with_short_channel_effects(self, V_gs, V_ds, material,
    geometry, temperature=300)]; [temperature = None] is the call that
    leaves the argument out.  [V_ds_sat] is a local bound only on the
    conducting path, hence the [option]. *)
Definition calculate_with_short_channel_effects
    (V_gs V_ds : Q) (material geometry : dict) (temperature : option Q)
    : result (Q * region * dict) :=
  let temperature := default 300 temperature in
  let* L := item geometry "length" in
  let* W := item geometry "width" in
  let t_ox := get geometry "oxide_thickness" 2e-9 in
  let V_th0 := get geometry "V_th" 0.7 in
  let T := temperature + 273.15 in
  let* mu_n := _temperature_dependent_mobility material T in
  let V_th := _temperature_dependent_vth V_th0 T in
  let* V_th_sc := _dibl_effect V_th V_ds L in
  let* lambda_clm := _channel_length_modulation L V_ds in
  let* C_ox := div (get material "dielectric_constant" 3.9 * epsilon_0) t_ox in
  let v_sat := get material "saturation_velocity" 1e7 * 1e-2 in
  let* E_c := div v_sat mu_n in
  let* '(I_d, region, V_ds_sat) :=
    if Qle_bool V_gs V_th_sc then
      Ok (0, Cut_off, None)
    else
      let V_gt := V_gs - V_th_sc in
      let* g_c := div V_gt (E_c * L) in
      let* V_ds_sat := div V_gt (1 + g_c) in
      if Qlt_bool V_ds V_ds_sat then
        let* b := div (mu_n * C_ox * W) L in
        let* d_c := div V_ds (E_c * L) in
        let* I_d := div (b * (V_gt * V_ds - 0.5 * V_ds ^ 2)) (1 + d_c) in
        Ok (I_d, Linear, Some V_ds_sat)
      else
        let* b := div (0.5 * mu_n * C_ox * W) L in
        let* g_c' := div V_gt (E_c * L) in
        let* I_d_sat := div (b * V_gt ^ 2) (1 + g_c') in
        let I_d := I_d_sat * (1 + lambda_clm * (V_ds - V_ds_sat)) in
        Ok (I_d, Saturation, Some V_ds_sat)
  in
  let* factor :=
    if Qlt_bool V_th_sc V_gs then
      match V_ds_sat with
      | Some V_ds_sat => div V_ds_sat (V_gs - V_th_sc)
      | None => Raise (UnboundLocalError "V_ds_sat")
      end
    else Ok 0
  in
  Ok (I_d, region,
      {[ "effective_vth" := V_th_sc;
         "dibl_effect" := V_th_sc - V_th0;
         "velocity_saturation_factor" := factor ]}).

End AdvancedMOSFETPhysics.
End AdvancedPhysics.

(** ** The extended evaluator, simple variant ([app_enhanced.py]) *)

Module AppEnhanced.
Module AdvancedMOSFETPhysics.

Definition epsilon_0 : Q := 8.854e-12.
Definition q : Q := 1.6e-19.
Definition k : Q := 1.38e-23.

Definition _temperature_dependent_mobility (material : dict) (T : Q)
    : result Q :=
  let* mu_300 := item material "electron_mobility_value" in
  let* r := div 300 T in
  Ok (mu_300 * r ^ 2).

Definition _temperature_dependent_vth (V_th0 T : Q) : Q :=
  V_th0 - 0.002 * (T - 300).

Definition _dibl_effect (V_th V_ds L : Q) : result Q :=
  let* eta := div 0.1 (L * 1e6) in
  Ok (V_th - eta * V_ds).

Definition _channel_length_modulation (L V_ds : Q) : result Q :=
  div 0.1 (L * 1e6).

(** [calculate_with_short_channel_effects(self, V_gs, V_ds, material,
    geometry, temperature=300)] *)
Definition calculate_with_short_channel_effects
    (V_gs V_ds : Q) (material geometry : dict) (temperature : option Q)
    : result (Q * region * dict) :=
  let temperature := default 300 temperature in
  let* L := item geometry "length" in
  let* W := item geometry "width" in
  let t_ox := get geometry "oxide_thickness" 2e-9 in
  let V_th0 := get geometry "V_th" 0.7 in
  let T := temperature + 273.15 in
  let* mu_n := _temperature_dependent_mobility material T in
  let V_th := _temperature_dependent_vth V_th0 T in
  let* V_th_sc := _dibl_effect V_th V_ds L in
  let* lambda_clm := _channel_length_modulation L V_ds in
  let* C_ox := div (get material "dielectric_constant" 3.9 * epsilon_0) t_ox in
  let* '(I_d, region) :=
    if Qle_bool V_gs V_th_sc then
      Ok (0, Cut_off)
    else
      let V_gt := V_gs - V_th_sc in
      let V_ds_sat := V_gt in
      if Qlt_bool V_ds V_ds_sat then
        let* W_L := div W L in
        Ok (mu_n * C_ox * W_L * ((V_gs - V_th_sc) * V_ds - 0.5 * V_ds ^ 2),
            Linear)
      else
        let* W_L := div W L in
        let I_d_sat := 0.5 * mu_n * C_ox * W_L * (V_gs - V_th_sc) ^ 2 in
        Ok (I_d_sat * (1 + lambda_clm * (V_ds - V_ds_sat)), Saturation)
  in
  Ok (I_d, region,
      {[ "effective_vth" := V_th_sc;
         "dibl_effect" := V_th_sc - V_th0;
         "velocity_saturation_factor" := 0.8 ]}).

(** [calculate_quantum_effects(self, material, t_ox, E_field)]; the field
    argument is not read. *)
Definition calculate_quantum_effects (material : dict) (t_ox E_field : Q)
    : result dict :=
  let tunneling_probability := if Qlt_bool t_ox 3e-9 then 1e-6 else 1e-9 in
  let* quantum_capacitance :=
    div (get material "dielectric_constant" 3.9 * epsilon_0) (t_ox + 0.3e-9) in
  Ok {[ "tunneling_probability" := tunneling_probability;
        "quantum_capacitance" := quantum_capacitance ]}.

End AdvancedMOSFETPhysics.
End AppEnhanced.

Module Basic := MOSFETPhysics.
Module VSat := AdvancedPhysics.AdvancedMOSFETPhysics.
Module Simple := AppEnhanced.AdvancedMOSFETPhysics.

(** Projections of an extended-evaluator result. *)
Definition drain_current (r : result (Q * region * dict)) : option Q :=
  match r with Ok res => Some (fst (fst res)) | Raise _ => None end.

Definition operating_region (r : result (Q * region * dict)) : option region :=
  match r with Ok res => Some (snd (fst res)) | Raise _ => None end.

Definition diagnostic (key : string) (r : result (Q * region * dict))
    : option Q :=
  match r with Ok res => snd res !! key | Raise _ => None end.

(** ** The quantities of the specification

    The preprocessing steps and current formulas of the extended evaluator
    as the specification words them (section 4.2), kept apart from the
    code above so that the two can be compared. *)

Module Spec.

(** Step 1: Celsius to Kelvin. *)
Definition kelvin (temperature_celsius : Q) : Q :=
  temperature_celsius + 273.15.

(** Step 2: temperature-corrected mobility, still in cm^2/V.s. *)
Definition mobility (mu_300 T : Q) : Q := mu_300 * (300 / T) ^ 2.

(** The same mobility converted to m^2/V.s. *)
Definition mobility_SI (mu_300 T : Q) : Q := mobility mu_300 T * 1e-4.

(** Step 3: temperature-corrected threshold. *)
Definition threshold (V_th0 T : Q) : Q := V_th0 - 0.002 * (T - 300).

(** Step 4: DIBL coefficient and effective threshold; [L * 1e6] is the
    channel length in micrometres. *)
Definition eta (L : Q) : Q := 0.1 / (L * 1e6).

Definition V_th_eff (V_th0 T L V_ds : Q) : Q :=
  threshold V_th0 T - eta L * V_ds.

(** Step 5: channel-length-modulation coefficient. *)
Definition lambda (L : Q) : Q := 0.1 / (L * 1e6).

(** Step 6: oxide capacitance per unit area. *)
Definition C_ox (eps_r t_ox : Q) : Q := eps_r * 8.854e-12 / t_ox.

(** Simple variant. *)
Definition linear_current (mu C W L V_gt V_ds : Q) : Q :=
  mu * C * (W / L) * (V_gt * V_ds - 0.5 * V_ds ^ 2).

Definition saturation_current (mu C W L lam V_gt V_ds : Q) : Q :=
  0.5 * mu * C * (W / L) * V_gt ^ 2 * (1 + lam * (V_ds - V_gt)).

(** Velocity-saturation variant; [v_sat] in cm/s. *)
Definition critical_field (v_sat mu : Q) : Q := v_sat * 1e-2 / mu.

Definition V_ds_sat (E_c L V_gt : Q) : Q := V_gt / (1 + V_gt / (E_c * L)).


Definition vsat_saturation_current (mu C W L E_c lam V_gt V_ds : Q) : Q :=
  0.5 * mu * C * (W / L) * V_gt ^ 2 / (1 + V_gt / (E_c * L))
  * (1 + lam * (V_ds - V_ds_sat E_c L V_gt)).

End Spec.

(** Agreement to within one percent: the reading of "approximately" taken
    for the worked examples, which quote three or four significant
    digits. *)
Definition approx (x y : Q) : Prop := Qabs (x - y) <= 0.01 * Qabs y.

(** ** The square-law profile

    The current of the evaluators as a function of the drain voltage [x],
    up to the non-negative gain factor: [a] is the gate overdrive at zero
    drain bias and [eta] the DIBL coefficient ([eta = 0] for the basic
    evaluator).  Used to reason about the shape of the curve. *)

Module SquareLaw.

Definition overdrive (a eta x : Q) : Q := a + eta * x.

Definition triode (a eta x : Q) : Q :=
  overdrive a eta x * x - 0.5 * x ^ 2.

Definition pinch_off (a eta x : Q) : Q :=
  0.5 * overdrive a eta x ^ 2 * (1 + eta * (x - overdrive a eta x)).

Definition profile (a eta x : Q) : Q :=
  if Qle_bool (overdrive a eta x) 0 then 0
  else if Qlt_bool x (overdrive a eta x) then triode a eta x
  else pinch_off a eta x.

End SquareLaw.

(** ** Concrete inputs *)

(** The geometry the dashboard builds at its slider defaults
    (gate length 100 nm, oxide 2 nm). *)
Definition geometry_100nm : dict :=
  {[ "length" := 1e-7; "width" := 1e-6;
     "oxide_thickness" := 2e-9; "V_th" := 0.7 ]}.

(** A one-micrometre device. *)
Definition geometry_1um : dict :=
  {[ "length" := 1e-6; "width" := 10e-6;
     "oxide_thickness" := 2e-9; "V_th" := 0.7 ]}.

(** Silicon with every entry but the mobility replaced. *)
Definition Silicon_scrambled : dict :=
  {[ "bandgap_value" := 9;
     "electron_mobility_value" := 1400;
     "thermal_conductivity_value" := -1;
     "breakdown_field_value" := 42;
     "dielectric_constant" := 0;
     "saturation_velocity" := 3 ]}.

(** ** Closed forms of the extended evaluators

    What each variant returns when no lookup and no division fails, with
    the intermediate quantities named as in the specification. *)

Module ClosedForm.
Section ClosedForm.

Variables (V_gs V_ds : Q) (material geometry : dict) (temperature : option Q).
Variables (L W mu_300 : Q).

Definition T : Q := Spec.kelvin (default 300 temperature).
Definition t_ox : Q := get geometry "oxide_thickness" 2e-9.
Definition V_th0 : Q := get geometry "V_th" 0.7.
Definition mu_n : Q := Spec.mobility mu_300 T.
Definition V_th_sc : Q := Spec.V_th_eff V_th0 T L V_ds.
Definition C_ox : Q :=
  Spec.C_ox (get material "dielectric_constant" 3.9) t_ox.
Definition V_gt : Q := V_gs - V_th_sc.
Definition E_c : Q :=
  Spec.critical_field (get material "saturation_velocity" 1e7) mu_n.
Definition V_ds_sat : Q := Spec.V_ds_sat E_c L V_gt.

Definition simple_value : Q * region * dict :=
  (if Qle_bool V_gs V_th_sc then (0, Cut_off)
   else if Qlt_bool V_ds V_gt then
     (Spec.linear_current mu_n C_ox W L V_gt V_ds, Linear)
   else
     (Spec.saturation_current mu_n C_ox W L (Spec.lambda L) V_gt V_ds,
      Saturation),
   {[ "effective_vth" := V_th_sc;
      "dibl_effect" := V_th_sc - V_th0;
      "velocity_saturation_factor" := 0.8 ]}).

Definition simple_defined : Prop :=
  ~ T == 0 /\ ~ L == 0 /\ ~ t_ox == 0.

Definition vsat_value : Q * region * dict :=
  (if Qle_bool V_gs V_th_sc then (0, Cut_off)
   else if Qlt_bool V_ds V_ds_sat then
     (mu_n * C_ox * W / L * (V_gt * V_ds - 0.5 * V_ds ^ 2)
        / (1 + V_ds / (E_c * L)), Linear)
   else
     (0.5 * mu_n * C_ox * W / L * V_gt ^ 2 / (1 + V_gt / (E_c * L))
        * (1 + Spec.lambda L * (V_ds - V_ds_sat)), Saturation),
   {[ "effective_vth" := V_th_sc;
      "dibl_effect" := V_th_sc - V_th0;
      "velocity_saturation_factor" :=
        if Qlt_bool V_th_sc V_gs then V_ds_sat / (V_gs - V_th_sc) else 0 ]}).

(** The divisors met on the path the velocity-saturation variant takes. *)
Definition vsat_defined : Prop :=
  ~ T == 0 /\ ~ L == 0 /\ ~ t_ox == 0 /\ ~ mu_n == 0
  /\ (V_th_sc < V_gs ->
      ~ E_c * L == 0
      /\ ~ 1 + V_gt / (E_c * L) == 0
      /\ (V_ds < V_ds_sat -> ~ 1 + V_ds / (E_c * L) == 0)).

End ClosedForm.
End ClosedForm.

(** ** Input invariants (specification, section 3) *)

(** Channel length, width, oxide thickness, mobility, dielectric constant
    and saturation velocity are strictly positive; an entry that is left
    out counts with the default the evaluators substitute for it. *)
Definition positivity_invariants (material geometry : dict) : Prop :=
  0 < get geometry "length" 1e-6
  /\ 0 < get geometry "width" 10e-6
  /\ 0 < get geometry "oxide_thickness" 2e-9
  /\ 0 < get material "electron_mobility_value" 1400
  /\ 0 < get material "dielectric_constant" 3.9
  /\ 0 < get material "saturation_velocity" 1e7.

(** The entries the extended evaluator reads with [d[key]]. *)
Definition required_keys (material geometry : dict) : Prop :=
  is_Some (geometry !! "length")
  /\ is_Some (geometry !! "width")
  /\ is_Some (material !! "electron_mobility_value").

(** No arithmetic exception: the call returns or fails for another reason. *)
Definition arithmetic_safe {A} (m : result A) : Prop :=
  m <> Raise ZeroDivisionError.

(** An optional number is present and equal, as a rational, to [v]. *)
Definition yields (o : option Q) (v : Q) : Prop :=
  match o with Some x => x == v | None => False end.

(** ** Binary64 *)

Module Binary64.

(** The largest finite double, [(2^53 - 1) * 2^971], about 1.797e308. *)
Definition max_double : Q := inject_Z ((2 ^ 53 - 1) * 2 ^ 971).

(** A magnitude within the range of the finite doubles. *)
Definition finite (x : Q) : Prop := Qabs x <= max_double.

(** An operand that [** 2] takes without [OverflowError]: up to 1e150 in
    magnitude the square is at most 1e300. *)
Definition squares_safely (x : Q) : Prop := Qabs x <= 1e150.

(** A divisor that rounding cannot turn into zero: at least 1e-60 in
    magnitude, far above the smallest positive double (about 4.9e-324). *)
Definition divides_safely (d : Q) : Prop := 1e-60 <= Qabs d.

End Binary64.

(** [lo <= x <= hi] *)
Definition in_range (lo hi x : Q) : Prop := lo <= x /\ x <= hi.

(** The positivity invariants with room on both sides: each of the six
    quantities lies in_range 1e-12 and 1e12 in the unit the evaluators read
    it in, and the threshold and the two voltages are at most 1e12 in
    magnitude. *)
Definition operating_range (V_gs V_ds : Q) (material geometry : dict) : Prop :=
  in_range 1e-12 1e12 (get geometry "length" 1e-6)
  /\ in_range 1e-12 1e12 (get geometry "width" 10e-6)
  /\ in_range 1e-12 1e12 (get geometry "oxide_thickness" 2e-9)
  /\ in_range 1e-12 1e12 (get material "electron_mobility_value" 1400)
  /\ in_range 1e-12 1e12 (get material "dielectric_constant" 3.9)
  /\ in_range 1e-12 1e12 (get material "saturation_velocity" 1e7)
  /\ Qabs (get geometry "V_th" 0.7) <= 1e12
  /\ Qabs V_gs <= 1e12
  /\ Qabs V_ds <= 1e12.

(** * The rest of the program *)

(** ** numpy *)

Module Numpy.

(** [numpy.linspace(start, stop, num)] with the end point included: [num]
    evenly spaced samples, the last one set to [stop]. *)
Definition linspace (start stop : Q) (num : nat) : list Q :=
  match num with
  | O => []
  | S O => [start]
  | S div =>
      let step := (stop - start) / inject_Z (Z.of_nat div) in
      map (fun i => inject_Z (Z.of_nat i) * step + start) (seq 0 div)
        ++ [stop]
  end.

End Numpy.

(** ** The chart of the I-V characteristics ([visualization_engine.py],
       repeated in [app_enhanced.py]) *)

Module VisualizationEngine.

(** One [go.Scatter] trace added to the figure. *)
Record trace : Type := Scatter {
  x : list Q;
  y : list Q;
  name : string;
  line_dash : string
}.

Definition V_ds_range : list Q := Numpy.linspace 0 10 50.

Definition V_gs_values : list Z := [2; 3; 4; 5]%Z.

(** The samples of one curve: the inner loop with its [try]/[except],
    which puts 0 where the evaluator raises. *)
Definition I_d_values (V_gs : Q) (material_data geometry : dict) : list Q :=
  map (fun V_ds =>
         match Basic.calculate_drain_current V_gs V_ds material_data geometry
         with
         | Ok (I_d, _) => I_d * 1000
         | Raise _ => 0
         end)
      V_ds_range.

(** [create_iv_characteristics(self, materials_data, geometry)]: the traces
    of the returned figure, in the order they are added.  [materials_data]
    is a dict iterated in insertion order, hence a list of items; the
    constant layout of the figure is left out. *)
Definition create_iv_characteristics
    (materials_data : list (string * dict)) (geometry : dict) : list trace :=
  flat_map
    (fun '(material_name, material_data) =>
       map (fun V_gs : Z =>
              {| x := V_ds_range;
                 y := I_d_values (inject_Z V_gs) material_data geometry;
                 name := material_name ++ " V_gs=" ++ pretty V_gs ++ "V";
                 line_dash := if (V_gs =? 5)%Z then "dash" else "solid" |})
           V_gs_values)
    materials_data.

(** One [go.Scatterpolar] trace of the radar chart. *)
Record polar_trace : Type := Scatterpolar {
  r : list Q;
  theta : list string;
  polar_name : string
}.

Definition categories : list string :=
  ["Bandgap"; "Mobility"; "Thermal Conductivity"; "Breakdown Field"].

(** [create_material_radar_chart(self, materials_data)]: the traces of the
    figure; the radial axis of its layout shows the range from 0 to 1. *)
Fixpoint create_material_radar_chart (materials_data : list (string * dict))
    : result (list polar_trace) :=
  match materials_data with
  | [] => Ok []
  | (material_name, properties) :: rest =>
      let* bandgap := item properties "bandgap_value" in
      let* mobility := item properties "electron_mobility_value" in
      let* thermal := item properties "thermal_conductivity_value" in
      let* breakdown := item properties "breakdown_field_value" in
      let values :=
        [bandgap / 3.5; mobility / 2000; thermal / 500; breakdown / 3.5] in
      let trace := {| r := values ++ [nth 0 values 0];
                      theta := categories ++ [nth 0 categories EmptyString];
                      polar_name := material_name |} in
      let* traces := create_material_radar_chart rest in
      Ok (trace :: traces)
  end.

(** The entries the radar chart reads, and the scale it divides each by. *)
Definition radar_scale : list (string * Q) :=
  [("bandgap_value", 3.5); ("electron_mobility_value", 2000);
   ("thermal_conductivity_value", 500); ("breakdown_field_value", 3.5)].

(** Every entry the radar chart reads is present and lies between 0 and
    its scale. *)
Definition within_radar_scale (properties : dict) : Prop :=
  Forall (fun entry =>
            exists v, properties !! fst entry = Some v
                      /\ 0 <= v /\ v <= snd entry)
         radar_scale.

(** An entry of [st.session_state.app_results]. *)
Record comparison_entry : Type := ComparisonEntry {
  entry_material : string;
  entry_results : dict;
  entry_analysis : string
}.

(** The two list comprehensions of [create_application_comparison]: the
    materials, then the efficiencies. *)
Fixpoint efficiencies_of (comparison_data : list comparison_entry)
    : result (list Q) :=
  match comparison_data with
  | [] => Ok []
  | data :: rest =>
      let* efficiency := item (entry_results data) "efficiency" in
      let* efficiencies := efficiencies_of rest in
      Ok (efficiency :: efficiencies)
  end.

(** [create_application_comparison(self, comparison_data)]: the [x] and
    [y] of the bar trace. *)
Definition create_application_comparison
    (comparison_data : list comparison_entry)
    : result (list string * list Q) :=
  let materials := map entry_material comparison_data in
  let* efficiencies := efficiencies_of comparison_data in
  Ok (materials, efficiencies).

End VisualizationEngine.

(** ** Dictionaries with other values *)

(** A number or a text, for dictionaries that hold both. *)
Inductive value : Type :=
| Num (q : Q)
| Str (s : string).

(** [d[key]] for any value type. *)
Definition getitem {V} (d : gmap string V) (key : string) : result V :=
  match d !! key with
  | Some v => Ok v
  | None => Raise (KeyError key)
  end.

(** ** The layer-by-layer builder ([mosfet_builder.py], repeated in
       [app_enhanced.py]) *)

Module MOSFETBuilder.

(** A layer dict: ['type'], ['material'], ['thickness'], ['properties']. *)
Record layer : Type := Layer {
  layer_type : string;
  layer_material : string;
  layer_thickness : Q;
  layer_properties_of : gmap string value
}.

(** The attributes [self.layers] and [self.layer_properties]. *)
Record builder : Type := Builder {
  layers : list layer;
  layer_properties : gmap string string
}.

Definition __init__ : builder :=
  {| layers := []; layer_properties := ∅ |}.

Section Explanation.

(** The text [_generate_layer_explanation] renders for a layer; formatting
    numbers into text is outside the model, so the text is a parameter. *)
Variable _generate_layer_explanation : layer -> string.

(** [add_layer(self, layer_type, material, thickness, properties=None)];
    [properties or {}] is the given dict unless it is missing or empty. *)
Definition add_layer (self : builder) (layer_type material : string)
    (thickness : Q) (properties : option (gmap string value)) : builder :=
  let layer := {| layer_type := layer_type;
                  layer_material := material;
                  layer_thickness := thickness;
                  layer_properties_of := default ∅ properties |} in
  let explanation := _generate_layer_explanation layer in
  {| layers := layers self ++ [layer];
     layer_properties := <[layer_type := explanation]> (layer_properties self) |}.

(** What the builder page of the dashboard ([show_custom_builder]) does to
    the builder: add a layer, remove the layer shown at position [i] of the
    reversed stack ([layers.pop(len(layers) - 1 - i)], offered for
    [i < len(layers)] only), or clear the stack ([layers.clear()] and
    [layer_properties.clear()]). *)
Inductive action : Type :=
| AddLayer (layer_type material : string) (thickness : Q)
           (properties : gmap string value)
| RemoveLayer (i : nat)
| ClearAllLayers.

Definition perform (self : builder) (a : action) : builder :=
  match a with
  | AddLayer layer_type material thickness properties =>
      add_layer self layer_type material thickness (Some properties)
  | RemoveLayer i =>
      if decide (i < length (layers self))%nat then
        {| layers := delete (length (layers self) - 1 - i)%nat (layers self);
           layer_properties := layer_properties self |}
      else self
  | ClearAllLayers =>
      {| layers := []; layer_properties := ∅ |}
  end.

Definition session (actions : list action) : builder :=
  foldl perform __init__ actions.

(** The explanations the page shows, one [layer_properties[layer['type']]]
    per layer of the reversed stack. *)
Fixpoint shown_explanations_of (properties : gmap string string)
    (stack : list layer) : result (list string) :=
  match stack with
  | [] => Ok []
  | layer :: rest =>
      let* text := getitem properties (layer_type layer) in
      let* texts := shown_explanations_of properties rest in
      Ok (text :: texts)
  end.

Definition shown_explanations (self : builder) : result (list string) :=
  shown_explanations_of (layer_properties self) (reverse (layers self)).

End Explanation.

(** The invariant of the builder page: every layer of the stack has an
    explanation stored under its type. *)
Definition explained (self : builder) : Prop :=
  Forall (fun layer => is_Some (layer_properties self !! layer_type layer))
         (layers self).

(** An action that leaves the explanation stored under [layer_type]
    alone: removing a layer, or adding a layer of another type. *)
Definition keeps_explanation (layer_type : string) (a : action) : Prop :=
  match a with
  | AddLayer layer_type' _ _ _ => layer_type' <> layer_type
  | RemoveLayer _ => True
  | ClearAllLayers => False
  end.

(** One [<rect>] of the cross-section drawing with the two labels written
    into it. *)
Record rect : Type := Rect {
  rect_y : Q;
  rect_height : Q;
  rect_fill : string;
  rect_type : string;
  rect_material : string
}.

Definition colors : gmap string string :=
  {[ "gate_metal" := "#FFD700";
     "gate_oxide" := "#87CEEB";
     "channel" := "#98FB98";
     "source_drain" := "#FFB6C1";
     "substrate" := "#D2B48C" ]}.

(** The loop of [get_cross_section_svg]: one rectangle per layer, each
    below the one before. *)
Fixpoint layers_svg (y_position layer_height : Q) (stack : list layer)
    : list rect :=
  match stack with
  | [] => []
  | layer :: rest =>
      {| rect_y := y_position;
         rect_height := layer_height;
         rect_fill := default "#CCCCCC" (colors !! layer_type layer);
         rect_type := layer_type layer;
         rect_material := layer_material layer |}
      :: layers_svg (y_position + layer_height) layer_height rest
  end.

(** [get_cross_section_svg(self)]: the rectangles of the drawing, or [None]
    for the drawing that says that no layers are defined.  The fixed text
    of the SVG template is left out. *)
Definition get_cross_section_svg (self : builder)
    : result (option (list rect)) :=
  match layers self with
  | [] => Ok None
  | _ =>
      let* layer_height :=
        div 200 (inject_Z (Z.of_nat (length (layers self)))) in
      Ok (Some (layers_svg 50 layer_height (layers self)))
  end.

End MOSFETBuilder.

(** ** The application simulator ([application_simulator.py], repeated in
       [app_enhanced.py]) *)

Module ApplicationSimulator.

(** An application entry; of its fields the simulator reads ['type'] and
    ['description']. *)
Record application : Type := Application {
  app_type : string;
  app_description : string
}.

Definition _load_applications : gmap string application :=
  {[ "Buck Converter" :=
       {| app_type := "Power Electronics";
          app_description := "DC-DC step-down converter" |};
     "RF Power Amplifier" :=
       {| app_type := "RF Applications";
          app_description := "Amplifies RF signals for transmission" |};
     "CMOS Inverter" :=
       {| app_type := "Digital Circuits";
          app_description := "Basic digital logic gate" |} ]}.

Definition _calculate_efficiency (material app_type : string) : Q :=
  let efficiencies : gmap string dict :=
    {[ "Silicon (Si)" :=
         {[ "Power Electronics" := 85; "RF Applications" := 40;
            "Digital Circuits" := 95 ]};
       "Gallium Nitride (GaN)" :=
         {[ "Power Electronics" := 95; "RF Applications" := 60;
            "Digital Circuits" := 92 ]};
       "Silicon Carbide (SiC)" :=
         {[ "Power Electronics" := 92; "RF Applications" := 45;
            "Digital Circuits" := 90 ]} ]} in
  default 80 (default ∅ (efficiencies !! material) !! app_type).

Definition _calculate_power_loss (material : string) : Q :=
  let losses : dict :=
    {[ "Silicon (Si)" := 2.0; "Gallium Nitride (GaN)" := 0.5;
       "Silicon Carbide (SiC)" := 1.0 ]} in
  default 1.5 (losses !! material).

Definition _calculate_switching_speed (material : string) : Q :=
  let speeds : dict :=
    {[ "Silicon (Si)" := 1e6; "Gallium Nitride (GaN)" := 5e6;
       "Silicon Carbide (SiC)" := 2e6 ]} in
  default 1e6 (speeds !! material).

Definition _calculate_thermal_rise (material : string) : Q :=
  let rises : dict :=
    {[ "Silicon (Si)" := 25; "Gallium Nitride (GaN)" := 15;
       "Silicon Carbide (SiC)" := 10 ]} in
  default 20 (rises !! material).

Section Analysis.

(** The text [_generate_analysis] renders; a parameter, as number
    formatting is outside the model. *)
Variable _generate_analysis : string -> application -> dict -> string.

(** [simulate_application(self, mosfet_params, application_name)] *)
Definition simulate_application (mosfet_params : gmap string string)
    (application_name : string) : result (dict * string) :=
  let* app := getitem _load_applications application_name in
  let* material := getitem mosfet_params "channel_material" in
  let results : dict :=
    {[ "efficiency" := _calculate_efficiency material (app_type app);
       "power_loss" := _calculate_power_loss material;
       "switching_speed" := _calculate_switching_speed material;
       "thermal_rise" := _calculate_thermal_rise material ]} in
  let analysis := _generate_analysis material app results in
  Ok (results, analysis).

End Analysis.

End ApplicationSimulator.

(** ** The advanced application simulator: [modules/advanced_applications.py]
       and its copy in [app_enhanced.py] *)

(** An advanced application entry (['type'], ['description'], ['circuit'];
    the simulator only looks the entry up). *)
Record advanced_application : Type := AdvancedApplication {
  adv_type : string;
  adv_description : string;
  adv_circuit : string
}.

Definition _load_advanced_applications : gmap string advanced_application :=
  {[ "Electric Vehicle Motor Drive" :=
       {| adv_type := "High-Power Automotive";
          adv_description := "3-phase inverter for EV traction motor";
          adv_circuit := "3-phase inverter with 6 MOSFETs" |};
     "5G Base Station PA" :=
       {| adv_type := "RF Communications";
          adv_description := "Power amplifier for 5G millimeter-wave";
          adv_circuit := "Class-AB power amplifier" |};
     "Server CPU Power Delivery" :=
       {| adv_type := "High-Frequency Power Conversion";
          adv_description := "Multi-phase buck converter for CPU VRM";
          adv_circuit := "Multi-phase interleaved buck converter" |};
     "Solar Microinverter" :=
       {| adv_type := "Renewable Energy";
          adv_description := "Grid-tied inverter for solar panels";
          adv_circuit := "H-bridge inverter with MPPT" |} ]}.

(** [table.get(material, default)] on a literal table of the three
    materials. *)
Definition by_material {V} (Si GaN SiC : V) : gmap string V :=
  {[ "Silicon (Si)" := Si; "Gallium Nitride (GaN)" := GaN;
     "Silicon Carbide (SiC)" := SiC ]}.

Module AdvancedApplications.
Module AdvancedApplicationSimulator.

Definition applications := _load_advanced_applications.

Definition _calculate_system_weight (material : string) : value :=
  default (Num 100) (by_material (Num 100) (Num 85) (Num 90) !! material).

Definition _calculate_cooling_needs (material : string) : value :=
  default (Str "Liquid cooling")
    (by_material (Str "Liquid cooling") (Str "Forced air")
       (Str "Natural convection") !! material).

Definition _calculate_system_cost (material : string) : value :=
  default (Str "Medium")
    (by_material (Str "Low") (Str "Medium") (Str "Medium-High") !! material).

Definition _calculate_linearity (material : string) : value :=
  default (Str "Good")
    (by_material (Str "Good") (Str "Excellent") (Str "Very Good") !! material).

Definition _calculate_thermal_stability (material : string) : value :=
  default (Str "Good")
    (by_material (Str "Good") (Str "Very Good") (Str "Excellent") !! material).

Definition _calculate_power_density (material : string) : value :=
  default (Num 100) (by_material (Num 100) (Num 150) (Num 120) !! material).

Definition _calculate_lifetime (material : string) : value :=
  default (Str "15+ years")
    (by_material (Str "15+ years") (Str "20+ years") (Str "25+ years")
       !! material).

Definition _get_ev_advantage (material : string) : value :=
  default (Str "Balanced performance")
    (by_material (Str "Cost-effective, mature technology")
       (Str "Highest efficiency, smallest size")
       (Str "Best thermal performance, high reliability") !! material).

Definition _get_rf_advantage (material : string) : value :=
  default (Str "Standard performance")
    (by_material (Str "Integrated solutions, cost-effective")
       (Str "Highest frequency capability, best efficiency")
       (Str "Good thermal handling for high power") !! material).

Definition _get_vrm_advantage (material : string) : value :=
  default (Str "Balanced performance")
    (by_material (Str "Cost-effective for high volume")
       (Str "Fastest switching, highest power density")
       (Str "Robust thermal performance") !! material).

Definition _get_solar_advantage (material : string) : value :=
  default (Str "Reliable performance")
    (by_material (Str "Proven reliability, low cost")
       (Str "Highest efficiency, compact size")
       (Str "Longest lifetime, best high-temperature performance")
       !! material).

Definition _simulate_ev_drive (material : string)
    (conditions : gmap string value) : gmap string value :=
  let base_efficiency := by_material (Num 96) (Num 98.5) (Num 97.5) in
  let power_loss_reduction := by_material (Num 0) (Num 60) (Num 40) in
  {[ "efficiency" := default (Num 95) (base_efficiency !! material);
     "power_loss_reduction" :=
       default (Num 0) (power_loss_reduction !! material);
     "system_weight" := _calculate_system_weight material;
     "cooling_requirements" := _calculate_cooling_needs material;
     "cost_analysis" := _calculate_system_cost material;
     "key_advantage" := _get_ev_advantage material ]}.

Definition _simulate_5g_pa (material : string)
    (conditions : gmap string value) : gmap string value :=
  let pae := by_material (Num 35) (Num 45) (Num 38) in
  {[ "power_added_efficiency" := default (Num 30) (pae !! material);
     "output_power" := Num 10;
     "linearity" := _calculate_linearity material;
     "thermal_stability" := _calculate_thermal_stability material;
     "key_advantage" := _get_rf_advantage material ]}.

Definition _simulate_cpu_vrm (material : string)
    (conditions : gmap string value) : gmap string value :=
  let efficiency := by_material (Num 88) (Num 94) (Num 91) in
  let transient_response :=
    by_material (Str "Good") (Str "Excellent") (Str "Very Good") in
  {[ "efficiency" := default (Num 85) (efficiency !! material);
     "transient_response" :=
       default (Str "Good") (transient_response !! material);
     "power_density" := _calculate_power_density material;
     "cost_analysis" := _calculate_system_cost material;
     "key_advantage" := _get_vrm_advantage material ]}.

Definition _simulate_solar_inverter (material : string)
    (conditions : gmap string value) : gmap string value :=
  let efficiency := by_material (Num 95) (Num 97.5) (Num 96.5) in
  let reliability :=
    by_material (Str "Good") (Str "Very Good") (Str "Excellent") in
  {[ "efficiency" := default (Num 94) (efficiency !! material);
     "reliability" := default (Str "Good") (reliability !! material);
     "lifetime" := _calculate_lifetime material;
     "cost_analysis" := _calculate_system_cost material;
     "key_advantage" := _get_solar_advantage material ]}.

Definition _simulate_general_application (material : string)
    (conditions : gmap string value) : gmap string value :=
  {[ "efficiency" := Num 90;
     "performance" := Str "Standard";
     "cost_analysis" := Str "Medium";
     "key_advantage" := Str "Balanced performance" ]}.

(** [simulate_advanced_application(self, mosfet_params, application_name,
    operating_conditions)]; [mosfet_params] is modelled by its text entries
    (the ['geometry'] entry is fetched with [.get] and never read). *)
Definition simulate_advanced_application
    (mosfet_params : gmap string string) (application_name : string)
    (operating_conditions : gmap string value)
    : result (gmap string value) :=
  let* app := getitem applications application_name in
  let* material := getitem mosfet_params "channel_material" in
  if String.eqb application_name "Electric Vehicle Motor Drive" then
    Ok (_simulate_ev_drive material operating_conditions)
  else if String.eqb application_name "5G Base Station PA" then
    Ok (_simulate_5g_pa material operating_conditions)
  else if String.eqb application_name "Server CPU Power Delivery" then
    Ok (_simulate_cpu_vrm material operating_conditions)
  else if String.eqb application_name "Solar Microinverter" then
    Ok (_simulate_solar_inverter material operating_conditions)
  else
    Ok (_simulate_general_application material operating_conditions).

End AdvancedApplicationSimulator.
End AdvancedApplications.

Module AppEnhancedApplications.
Module AdvancedApplicationSimulator.

Definition applications := _load_advanced_applications.

(** [a if material == 'Gallium Nitride (GaN)' else b if material ==
    'Silicon Carbide (SiC)' else c] *)
Definition GaN_SiC_else {V} (material : string) (a b c : V) : V :=
  if String.eqb material "Gallium Nitride (GaN)" then a
  else if String.eqb material "Silicon Carbide (SiC)" then b
  else c.

Definition _simulate_ev_drive (material : string)
    (conditions : gmap string value) : gmap string value :=
  let base_efficiency := by_material (Num 96) (Num 98.5) (Num 97.5) in
  {[ "efficiency" := default (Num 95) (base_efficiency !! material);
     "power_loss_reduction" :=
       GaN_SiC_else material (Num 60) (Num 40) (Num 0);
     "system_weight" := GaN_SiC_else material (Num 85) (Num 90) (Num 100);
     "cooling_requirements" :=
       GaN_SiC_else material (Str "Forced air") (Str "Natural convection")
         (Str "Liquid cooling");
     "cost_analysis" :=
       GaN_SiC_else material (Str "Medium") (Str "Medium-High") (Str "Low");
     "key_advantage" :=
       GaN_SiC_else material (Str "Highest efficiency, smallest size")
         (Str "Best thermal performance") (Str "Cost-effective") ]}.

Definition _simulate_5g_pa (material : string)
    (conditions : gmap string value) : gmap string value :=
  let pae := by_material (Num 35) (Num 45) (Num 38) in
  {[ "power_added_efficiency" := default (Num 30) (pae !! material);
     "output_power" := Num 10;
     "linearity" :=
       GaN_SiC_else material (Str "Excellent") (Str "Very Good") (Str "Good");
     "thermal_stability" :=
       GaN_SiC_else material (Str "Very Good") (Str "Excellent") (Str "Good");
     "key_advantage" :=
       GaN_SiC_else material (Str "Highest frequency capability")
         (Str "Good thermal handling") (Str "Cost-effective") ]}.

Definition _simulate_cpu_vrm (material : string)
    (conditions : gmap string value) : gmap string value :=
  let efficiency := by_material (Num 88) (Num 94) (Num 91) in
  {[ "efficiency" := default (Num 85) (efficiency !! material);
     "transient_response" :=
       GaN_SiC_else material (Str "Excellent") (Str "Very Good") (Str "Good");
     "power_density" := GaN_SiC_else material (Num 150) (Num 120) (Num 100);
     "cost_analysis" :=
       GaN_SiC_else material (Str "Medium") (Str "Medium-High") (Str "Low");
     "key_advantage" :=
       GaN_SiC_else material (Str "Fastest switching")
         (Str "Robust thermal performance") (Str "Cost-effective") ]}.

Definition _simulate_solar_inverter (material : string)
    (conditions : gmap string value) : gmap string value :=
  let efficiency := by_material (Num 95) (Num 97.5) (Num 96.5) in
  {[ "efficiency" := default (Num 94) (efficiency !! material);
     "reliability" :=
       GaN_SiC_else material (Str "Very Good") (Str "Excellent") (Str "Good");
     "lifetime" :=
       GaN_SiC_else material (Str "20+ years") (Str "25+ years")
         (Str "15+ years");
     "cost_analysis" :=
       GaN_SiC_else material (Str "Medium") (Str "Medium-High") (Str "Low");
     "key_advantage" :=
       GaN_SiC_else material (Str "Highest efficiency")
         (Str "Longest lifetime") (Str "Proven reliability") ]}.

Definition _simulate_general_application (material : string)
    (conditions : gmap string value) : gmap string value :=
  {[ "efficiency" := Num 90;
     "performance" := Str "Standard";
     "cost_analysis" := Str "Medium";
     "key_advantage" := Str "Balanced performance" ]}.

(** [simulate_advanced_application(self, mosfet_params, application_name,
    operating_conditions)] *)
Definition simulate_advanced_application
    (mosfet_params : gmap string string) (application_name : string)
    (operating_conditions : gmap string value)
    : result (gmap string value) :=
  let* app := getitem applications application_name in
  let* material := getitem mosfet_params "channel_material" in
  if String.eqb application_name "Electric Vehicle Motor Drive" then
    Ok (_simulate_ev_drive material operating_conditions)
  else if String.eqb application_name "5G Base Station PA" then
    Ok (_simulate_5g_pa material operating_conditions)
  else if String.eqb application_name "Server CPU Power Delivery" then
    Ok (_simulate_cpu_vrm material operating_conditions)
  else if String.eqb application_name "Solar Microinverter" then
    Ok (_simulate_solar_inverter material operating_conditions)
  else
    Ok (_simulate_general_application material operating_conditions).

End AdvancedApplicationSimulator.
End AppEnhancedApplications.

Module ModuleSimulator := AdvancedApplications.AdvancedApplicationSimulator.
Module DashboardSimulator := AppEnhancedApplications.AdvancedApplicationSimulator.

(** ** The pages of the dashboard ([app_enhanced.py])

    Of each page the computation inside its [try] block is kept: the
    geometry built from the slider values, the calls, and the numbers that
    are then formatted for display. *)

Module Dashboard.

(** [MATERIAL_PROPERTIES] in insertion order. *)
Definition MATERIAL_PROPERTIES : list (string * dict) :=
  [("Silicon (Si)", MaterialDatabase.Silicon);
   ("Gallium Nitride (GaN)", MaterialDatabase.GalliumNitride);
   ("Silicon Carbide (SiC)", MaterialDatabase.SiliconCarbide)].

(** The ranges of the sliders of [show_simulator]. *)
Definition simulator_sliders (V_gs V_ds gate_length gate_width : Q) : Prop :=
  (0 <= V_gs /\ V_gs <= 10) /\ (0 <= V_ds /\ V_ds <= 20)
  /\ (0.1 <= gate_length /\ gate_length <= 10)
  /\ (1 <= gate_width /\ gate_width <= 100).

Definition simulator_geometry (gate_length gate_width : Q) : dict :=
  {[ "length" := gate_length * 1e-6;
     "width" := gate_width * 1e-6;
     "C_ox" := 3.45e-3;
     "V_th" := 0.7 ]}.

(** The four metrics of [show_simulator]: drain current in mA, region,
    power in W, current density in mA/mm. *)
Record simulator_metrics : Type := SimulatorMetrics {
  metric_drain_current : Q;
  metric_region : region;
  metric_power : Q;
  metric_current_density : Q
}.

Definition show_simulator (material : dict)
    (V_gs V_ds gate_length gate_width : Q) : result simulator_metrics :=
  let geometry := simulator_geometry gate_length gate_width in
  let* '(I_d, region) :=
    Basic.calculate_drain_current V_gs V_ds material geometry in
  let* density := div (I_d * 1000) gate_width in
  Ok {| metric_drain_current := I_d * 1000;
        metric_region := region;
        metric_power := I_d * V_ds;
        metric_current_density := density |}.

(** The ranges of the sliders of [show_advanced_physics]; the gate length
    is in nm, the oxide thickness in nm, the temperature in Celsius. *)
Definition advanced_sliders
    (V_gs V_ds gate_length oxide_thickness temperature : Q) : Prop :=
  (0 <= V_gs /\ V_gs <= 5) /\ (0 <= V_ds /\ V_ds <= 10)
  /\ (10 <= gate_length /\ gate_length <= 1000)
  /\ (0.5 <= oxide_thickness /\ oxide_thickness <= 10)
  /\ (-55 <= temperature /\ temperature <= 200).

Definition advanced_geometry (gate_length oxide_thickness : Q) : dict :=
  {[ "length" := gate_length * 1e-9;
     "width" := 1e-6;
     "oxide_thickness" := oxide_thickness * 1e-9;
     "V_th" := 0.7 ]}.

(** [show_advanced_physics] up to the quantum effects: the evaluator's
    result and the dict of quantum effects. *)
Definition show_advanced_physics (material : dict)
    (V_gs V_ds gate_length oxide_thickness temperature : Q)
    : result (Q * region * dict * dict) :=
  let geometry := advanced_geometry gate_length oxide_thickness in
  let* '(I_d, region, effects) :=
    Simple.calculate_with_short_channel_effects
      V_gs V_ds material geometry (Some temperature) in
  let* t_ox := item geometry "oxide_thickness" in
  let* t_ox' := item geometry "oxide_thickness" in
  let* E_field := div V_gs t_ox' in
  let* quantum_effects := Simple.calculate_quantum_effects material t_ox E_field in
  Ok (I_d, region, effects, quantum_effects).

Section RunSimulation.

Variable _generate_analysis :
  string -> ApplicationSimulator.application -> dict -> string.

(** The loop behind the Run Simulation button of [show_applications]:
    the new [st.session_state.app_results]. *)
Fixpoint run_simulation (application : string)
    (materials_to_compare : list string)
    : result (list VisualizationEngine.comparison_entry) :=
  match materials_to_compare with
  | [] => Ok []
  | material :: rest =>
      let mosfet_params : gmap string string :=
        {[ "channel_material" := material ]} in
      let* '(results, analysis) :=
        ApplicationSimulator.simulate_application
          _generate_analysis mosfet_params application in
      let* app_results := run_simulation application rest in
      Ok ({| VisualizationEngine.entry_material := material;
             VisualizationEngine.entry_results := results;
             VisualizationEngine.entry_analysis := analysis |}
          :: app_results)
  end.

(** The button pressed, then the bar chart of the results drawn. *)
Definition show_applications (application : string)
    (materials_to_compare : list string)
    : result (list string * list Q) :=
  let* app_results := run_simulation application materials_to_compare in
  VisualizationEngine.create_application_comparison app_results.

End RunSimulation.

End Dashboard.

(** ** Outcomes of a call *)

(** [post m Q E]: a returned value satisfies [Q], a raised exception [E]. *)
Definition post {A} (m : result A) (Q : A -> Prop) (E : exn -> Prop) : Prop :=
  match m with
  | Ok a => Q a
  | Raise e => E e
  end.

(** The failures the extended evaluator is written to have: a division by
    zero, or one of the entries it reads with [d[key]] missing. *)
Definition expected_failure (e : exn) : Prop :=
  e = ZeroDivisionError
  \/ e = KeyError "length"
  \/ e = KeyError "width"
  \/ e = KeyError "electron_mobility_value".

(** * Supporting lemmas *)

(** ** Facts about the runtime model *)

(** Exponent literals are products and quotients of powers of ten; the
    arithmetic deciders want them as plain fractions. *)
Ltac plain_literals :=
  change 1e6 with 1000000 in *;
  change 1e7 with 10000000 in *;
  change 1e-2 with 0.01 in *;
  change 1e-4 with 0.0001 in *;
  change 1e-6 with 0.000001 in *;
  change 10e-6 with (10 # 1000000) in *;
  change 2e-9 with 0.000000002 in *;
  change 3.45e-3 with 0.00345 in *;
  change 8.854e-12 with 0.000000000008854 in *.

(** Split a goal along its conjunctions only. *)
Ltac split_conj := repeat match goal with |- _ /\ _ => split end.

Section PyFacts.

Lemma Qlt_bool_iff (x y : Q) : Qlt_bool x y = true <-> x < y.
Proof. unfold Qlt_bool, Qlt. apply Z.ltb_lt. Qed.

Lemma Qlt_bool_false (x y : Q) : Qlt_bool x y = false <-> y <= x.
Proof. unfold Qlt_bool, Qle. rewrite Z.ltb_ge. reflexivity. Qed.

Lemma Qle_bool_false (x y : Q) : Qle_bool x y = false <-> y < x.
Proof.
  split; intros H.
  - apply Qnot_le_lt. intros Hle. apply Qle_bool_iff in Hle. congruence.
  - destruct (Qle_bool x y) eqn:E; [|reflexivity].
    apply Qle_bool_iff in E. exfalso. apply (Qlt_not_le _ _ H E).
Qed.

Lemma div_ok (x y : Q) : ~ y == 0 -> div x y = Ok (x / y).
Proof.
  intros Hy. unfold div. destruct (Qeq_bool y 0) eqn:E; [|reflexivity].
  apply Qeq_bool_iff in E. contradiction.
Qed.

Lemma div_raise (x y : Q) : y == 0 -> div x y = Raise ZeroDivisionError.
Proof. intros Hy. unfold div. apply Qeq_bool_iff in Hy. now rewrite Hy. Qed.

Lemma div_Ok_inv (x y v : Q) : div x y = Ok v -> ~ y == 0 /\ v = x / y.
Proof.
  unfold div. destruct (Qeq_bool y 0) eqn:E; [discriminate|].
  intros [= <-]. split; [|reflexivity].
  intros Hy. apply Qeq_bool_iff in Hy. congruence.
Qed.

Lemma bind_Ok_inv {A B} (m : result A) (k : A -> result B) (b : B) :
  bind m k = Ok b -> exists a, m = Ok a /\ k a = Ok b.
Proof. destruct m as [a|e]; [|discriminate]. intros H. now exists a. Qed.

Lemma item_Some (d : dict) (key : string) (v : Q) :
  d !! key = Some v -> item d key = Ok v.
Proof. intros H. unfold item. now rewrite H. Qed.

Lemma item_Ok_inv (d : dict) (key : string) (v : Q) :
  item d key = Ok v -> d !! key = Some v.
Proof. unfold item. destruct (d !! key); [now intros [= ->] | discriminate]. Qed.

Lemma get_Some (d : dict) (key : string) (v dflt : Q) :
  d !! key = Some v -> get d key dflt = v.
Proof. intros H. unfold get. now rewrite H. Qed.

Lemma max_eq_Qmax (a b : Q) : max a b == Qmax a b.
Proof.
  unfold max. destruct (Qlt_bool a b) eqn:E.
  - apply Qlt_bool_iff in E. symmetry. apply Q.max_r. now apply Qlt_le_weak.
  - apply Qlt_bool_false in E. symmetry. now apply Q.max_l.
Qed.


Lemma Qdiv_nonneg (a b : Q) : 0 <= a -> 0 < b -> 0 <= a / b.
Proof. intros Ha Hb. apply Qle_shift_div_l; [exact Hb | lra]. Qed.

Lemma Qdiv_pos (a b : Q) : 0 < a -> 0 < b -> 0 < a / b.
Proof. intros Ha Hb. apply Qlt_shift_div_l; [exact Hb | lra]. Qed.

Lemma micrometres_nonzero (L : Q) : ~ L == 0 -> ~ L * 1e6 == 0.
Proof. intros HL H. apply HL. plain_literals. lra. Qed.

Lemma micrometres_nonzero_inv (L : Q) : ~ L * 1e6 == 0 -> ~ L == 0.
Proof. intros HL H. apply HL. rewrite H. reflexivity. Qed.

End PyFacts.

Ltac bool_facts :=
  repeat match goal with
    | H : Qlt_bool _ _ = true |- _ => apply Qlt_bool_iff in H
    | H : Qlt_bool _ _ = false |- _ => apply Qlt_bool_false in H
    | H : Qle_bool _ _ = true |- _ => apply Qle_bool_iff in H
    | H : Qle_bool _ _ = false |- _ => apply Qle_bool_false in H
    end.

(** ** The simple variant of the extended evaluator *)

Section SimpleFacts.
Import ClosedForm.

Variables (V_gs V_ds : Q) (material geometry : dict) (temperature : option Q).

Lemma simple_eval (L W mu_300 : Q) :
  geometry !! "length" = Some L ->
  geometry !! "width" = Some W ->
  material !! "electron_mobility_value" = Some mu_300 ->
  simple_defined geometry temperature L ->
  Simple.calculate_with_short_channel_effects
    V_gs V_ds material geometry temperature
  = Ok (simple_value V_gs V_ds material geometry temperature L W mu_300).
Proof.
  intros HL HW Hmu (HT & HL0 & Ht).
  pose proof (micrometres_nonzero _ HL0) as HL6.
  unfold Simple.calculate_with_short_channel_effects,
    Simple._temperature_dependent_mobility, Simple._dibl_effect,
    Simple._channel_length_modulation, Simple._temperature_dependent_vth.
  rewrite (item_Some _ _ _ HL), (item_Some _ _ _ HW), (item_Some _ _ _ Hmu).
  cbn [bind].
  change (default 300 temperature + 273.15) with (T temperature) in *.
  rewrite (div_ok _ _ HT). cbn [bind].
  rewrite (div_ok _ _ HL6). cbn [bind].
  change (get geometry "oxide_thickness" 2e-9) with (t_ox geometry).
  rewrite (div_ok _ _ Ht). cbn [bind].
  unfold simple_value.
  change (get geometry "V_th" 0.7 - 0.002 * (T temperature - 300)
          - 0.1 / (L * 1e6) * V_ds)
    with (V_th_sc V_ds geometry temperature L).
  destruct (Qle_bool V_gs (V_th_sc V_ds geometry temperature L));
    [reflexivity|].
  rewrite (div_ok _ _ HL0).
  change (V_gs - V_th_sc V_ds geometry temperature L)
    with (V_gt V_gs V_ds geometry temperature L).
  destruct (Qlt_bool V_ds (V_gt V_gs V_ds geometry temperature L));
    reflexivity.
Qed.

Lemma simple_inv (res : Q * region * dict) :
  Simple.calculate_with_short_channel_effects
    V_gs V_ds material geometry temperature = Ok res ->
  exists L W mu_300,
    geometry !! "length" = Some L
    /\ geometry !! "width" = Some W
    /\ material !! "electron_mobility_value" = Some mu_300
    /\ simple_defined geometry temperature L.
Proof.
  unfold Simple.calculate_with_short_channel_effects,
    Simple._temperature_dependent_mobility, Simple._dibl_effect,
    Simple._channel_length_modulation.
  intros H.
  apply bind_Ok_inv in H as (L & HL & H). apply item_Ok_inv in HL.
  apply bind_Ok_inv in H as (W & HW & H). apply item_Ok_inv in HW.
  apply bind_Ok_inv in H as (mu & Hm & H).
  apply bind_Ok_inv in Hm as (mu_300 & Hmu & Hm). apply item_Ok_inv in Hmu.
  apply bind_Ok_inv in Hm as (r & Hr & _). apply div_Ok_inv in Hr as [HT _].
  apply bind_Ok_inv in H as (vth & Hv & H).
  apply bind_Ok_inv in Hv as (eta & He & _). apply div_Ok_inv in He as [HL6 _].
  apply bind_Ok_inv in H as (lam & _ & H).
  apply bind_Ok_inv in H as (C & HC & _). apply div_Ok_inv in HC as [Ht _].
  exists L, W, mu_300.
  split; [exact HL|]. split; [exact HW|]. split; [exact Hmu|].
  split; [exact HT|]. split; [now apply micrometres_nonzero_inv | exact Ht].
Qed.

End SimpleFacts.

Section VSatFacts.
Import ClosedForm.

Variables (V_gs V_ds : Q) (material geometry : dict) (temperature : option Q).

Lemma vsat_eval (L W mu_300 : Q) :
  geometry !! "length" = Some L ->
  geometry !! "width" = Some W ->
  material !! "electron_mobility_value" = Some mu_300 ->
  vsat_defined V_gs V_ds material geometry temperature L mu_300 ->
  VSat.calculate_with_short_channel_effects
    V_gs V_ds material geometry temperature
  = Ok (vsat_value V_gs V_ds material geometry temperature L W mu_300).
Proof.
  intros HL HW Hmu (HT & HL0 & Ht & Hmun & Hcond).
  pose proof (micrometres_nonzero _ HL0) as HL6.
  unfold VSat.calculate_with_short_channel_effects,
    VSat._temperature_dependent_mobility, VSat._dibl_effect,
    VSat._channel_length_modulation, VSat._temperature_dependent_vth.
  rewrite (item_Some _ _ _ HL), (item_Some _ _ _ HW), (item_Some _ _ _ Hmu).
  cbn [bind].
  change (default 300 temperature + 273.15) with (T temperature) in *.
  rewrite (div_ok _ _ HT). cbn [bind].
  rewrite (div_ok _ _ HL6). cbn [bind].
  change (get geometry "oxide_thickness" 2e-9) with (t_ox geometry).
  rewrite (div_ok _ _ Ht). cbn [bind].
  change (mu_300 * (300 / T temperature) ^ 2) with (mu_n temperature mu_300).
  rewrite (div_ok _ _ Hmun). cbn [bind].
  change (get geometry "V_th" 0.7) with (V_th0 geometry).
  change (V_th0 geometry - 0.002 * (T temperature - 300) - 0.1 / (L * 1e6) * V_ds)
    with (V_th_sc V_ds geometry temperature L).
  change (get material "saturation_velocity" 1e7 * 1e-2 / mu_n temperature mu_300)
    with (E_c material temperature mu_300).
  unfold vsat_value.
  destruct (Qle_bool V_gs (V_th_sc V_ds geometry temperature L)) eqn:Ecut.
  - cbn [bind]. apply Qle_bool_iff in Ecut.
    assert (Hf : Qlt_bool (V_th_sc V_ds geometry temperature L) V_gs = false)
      by now apply Qlt_bool_false.
    rewrite Hf. reflexivity.
  - apply Qle_bool_false in Ecut.
    destruct (Hcond Ecut) as (HEL & Hg & Hlin).
    assert (Hf : Qlt_bool (V_th_sc V_ds geometry temperature L) V_gs = true)
      by now apply Qlt_bool_iff.
    assert (Hgt : ~ V_gs - V_th_sc V_ds geometry temperature L == 0) by lra.
    rewrite (div_ok _ _ HEL). cbn [bind].
    rewrite (div_ok _ _ Hg). cbn [bind].
    change (V_gs - V_th_sc V_ds geometry temperature L)
      with (V_gt V_gs V_ds geometry temperature L) in *.
    change (V_gt V_gs V_ds geometry temperature L
            / (1 + V_gt V_gs V_ds geometry temperature L
                   / (E_c material temperature mu_300 * L)))
      with (V_ds_sat V_gs V_ds material geometry temperature L mu_300).
    destruct (Qlt_bool V_ds
                (V_ds_sat V_gs V_ds material geometry temperature L mu_300))
      eqn:Elin.
    + apply Qlt_bool_iff in Elin. specialize (Hlin Elin).
      rewrite (div_ok _ _ HL0). cbn [bind].
      rewrite (div_ok _ _ HEL). cbn [bind].
      rewrite (div_ok _ _ Hlin). cbn [bind].
      rewrite Hf, (div_ok _ _ Hgt). reflexivity.
    + rewrite (div_ok _ _ HL0). cbn [bind].
      rewrite (div_ok _ _ Hg). cbn [bind].
      rewrite Hf, (div_ok _ _ Hgt). reflexivity.
Qed.

Lemma vsat_inv (res : Q * region * dict) :
  VSat.calculate_with_short_channel_effects
    V_gs V_ds material geometry temperature = Ok res ->
  exists L W mu_300,
    geometry !! "length" = Some L
    /\ geometry !! "width" = Some W
    /\ material !! "electron_mobility_value" = Some mu_300
    /\ vsat_defined V_gs V_ds material geometry temperature L mu_300.
Proof.
  unfold VSat.calculate_with_short_channel_effects,
    VSat._temperature_dependent_mobility, VSat._dibl_effect,
    VSat._channel_length_modulation, VSat._temperature_dependent_vth.
  intros H.
  apply bind_Ok_inv in H as (L & HL & H). apply item_Ok_inv in HL.
  apply bind_Ok_inv in H as (W & HW & H). apply item_Ok_inv in HW.
  apply bind_Ok_inv in H as (mu & Hm & H).
  apply bind_Ok_inv in Hm as (mu_300 & Hmu & Hm). apply item_Ok_inv in Hmu.
  apply bind_Ok_inv in Hm as (r & Hr & Hm).
  apply div_Ok_inv in Hr as [HT ->]. injection Hm as <-.
  apply bind_Ok_inv in H as (vth & Hv & H).
  apply bind_Ok_inv in Hv as (eta & He & Hv).
  apply div_Ok_inv in He as [HL6 ->]. injection Hv as <-.
  apply bind_Ok_inv in H as (lam & _ & H).
  apply bind_Ok_inv in H as (C & HC & H). apply div_Ok_inv in HC as [Ht _].
  apply bind_Ok_inv in H as (Ec & HE & H).
  apply div_Ok_inv in HE as [Hmun ->].
  apply bind_Ok_inv in H as ([[I_d reg] sat] & Hbr & _).
  exists L, W, mu_300.
  split; [exact HL|]. split; [exact HW|]. split; [exact Hmu|].
  split; [exact HT|]. split; [now apply micrometres_nonzero_inv|].
  split; [exact Ht|]. split; [exact Hmun|].
  intros Hon. apply Qle_bool_false in Hon.
  match type of Hbr with
  | context [Qle_bool V_gs ?v] => change (Qle_bool V_gs v = false) in Hon
  end.
  rewrite Hon in Hbr.
  apply bind_Ok_inv in Hbr as (g_c & Hg & Hbr).
  apply div_Ok_inv in Hg as [HEL ->].
  apply bind_Ok_inv in Hbr as (s & Hs & Hbr).
  apply div_Ok_inv in Hs as [Hs ->].
  split; [exact HEL|]. split; [exact Hs|].
  intros Hlin. apply Qlt_bool_iff in Hlin.
  match type of Hbr with
  | context [Qlt_bool V_ds ?s] => change (Qlt_bool V_ds s = true) in Hlin
  end.
  rewrite Hlin in Hbr.
  apply bind_Ok_inv in Hbr as (b & _ & Hbr).
  apply bind_Ok_inv in Hbr as (d_c & Hd & Hbr).
  apply div_Ok_inv in Hd as [_ ->].
  apply bind_Ok_inv in Hbr as (I & HI & _).
  apply div_Ok_inv in HI as [HI _]. exact HI.
Qed.

End VSatFacts.

(** ** The shape of the square-law profile *)

Section SquareLawFacts.
Import SquareLaw.

Variables (a eta : Q).

Lemma profile_cut_off x : overdrive a eta x <= 0 -> profile a eta x = 0.
Proof. intros H. unfold profile. apply Qle_bool_iff in H. now rewrite H. Qed.

Lemma profile_triode x :
  0 < overdrive a eta x -> x < overdrive a eta x ->
  profile a eta x = triode a eta x.
Proof.
  intros H1 H2. unfold profile.
  apply Qle_bool_false in H1. apply Qlt_bool_iff in H2. now rewrite H1, H2.
Qed.

Lemma profile_pinch_off x :
  0 < overdrive a eta x -> overdrive a eta x <= x ->
  profile a eta x = pinch_off a eta x.
Proof.
  intros H1 H2. unfold profile.
  apply Qle_bool_false in H1. apply Qlt_bool_false in H2. now rewrite H1, H2.
Qed.

Lemma boundary_agree x :
  x == overdrive a eta x -> triode a eta x == pinch_off a eta x.
Proof. intros Hx. unfold triode, pinch_off. rewrite <- Hx. ring. Qed.

Hypothesis Heta : 0 <= eta.

Lemma overdrive_mono x1 x2 :
  x1 <= x2 -> overdrive a eta x1 <= overdrive a eta x2.
Proof. unfold overdrive. intros. nra. Qed.

Lemma triode_nonneg x : 0 <= x -> x <= overdrive a eta x -> 0 <= triode a eta x.
Proof. unfold triode. generalize (overdrive a eta x). intros. nra. Qed.

Lemma pinch_off_nonneg x : overdrive a eta x <= x -> 0 <= pinch_off a eta x.
Proof.
  unfold pinch_off. generalize (overdrive a eta x). intros v Hv.
  assert (0 <= v ^ 2) by nra.
  assert (0 <= 1 + eta * (x - v)) by nra. nra.
Qed.

Lemma profile_nonneg x : 0 <= x -> 0 <= profile a eta x.
Proof.
  intros Hx. unfold profile.
  destruct (Qle_bool (overdrive a eta x) 0) eqn:Ec; [lra|].
  destruct (Qlt_bool x (overdrive a eta x)) eqn:El; bool_facts.
  - apply triode_nonneg; lra.
  - now apply pinch_off_nonneg.
Qed.

(** Within the linear region the current rises. *)
Lemma triode_mono x1 x2 :
  0 <= x1 -> x1 <= x2 ->
  x1 <= overdrive a eta x1 -> x2 <= overdrive a eta x2 ->
  triode a eta x1 <= triode a eta x2.
Proof.
  intros H0 H12 H1 H2.
  assert (E : triode a eta x2 - triode a eta x1
              == (x2 - x1) * (a + (eta - 0.5) * (x1 + x2)))
    by (unfold triode, overdrive; ring).
  assert (F : 0 <= a + (eta - 0.5) * (x1 + x2))
    by (unfold overdrive in H1, H2; nra).
  assert (0 <= (x2 - x1) * (a + (eta - 0.5) * (x1 + x2)))
    by (apply Qmult_le_0_compat; lra).
  lra.
Qed.

(** A zero-bias overdrive above -2 V keeps the saturation branch from
    falling when the DIBL coefficient exceeds one. *)
Hypothesis Ha : -2 <= a.

Lemma pinch_off_mono x1 x2 :
  0 <= x1 -> x1 <= x2 -> 0 <= overdrive a eta x1 ->
  overdrive a eta x1 <= x1 -> overdrive a eta x2 <= x2 ->
  pinch_off a eta x1 <= pinch_off a eta x2.
Proof.
  intros H0 H12 Hg1 H1 H2.
  pose proof (overdrive_mono _ _ H12) as Hg.
  set (g1 := overdrive a eta x1) in *. set (g2 := overdrive a eta x2) in *.
  assert (E : 2 * (pinch_off a eta x2 - pinch_off a eta x1)
              == eta * (x2 - x1)
                 * ((g1 + g2) * (1 + eta * (x2 - g2)) + g1 ^ 2 * (1 - eta)))
    by (unfold pinch_off, g1, g2, overdrive; ring).
  assert (F : 0 <= (g1 + g2) * (1 + eta * (x2 - g2)) + g1 ^ 2 * (1 - eta)).
  { assert (U : 0 <= eta * (x2 - g2)) by (apply Qmult_le_0_compat; lra).
    destruct (Qlt_le_dec 1 eta) as [Hbig | Hsmall].
    - assert (B2 : g2 * (eta - 1) <= 2) by (unfold g2, overdrive in *; nra).
      assert (B1 : g1 * (g1 * (eta - 1)) <= g1 * 2).
      { assert (g1 * (eta - 1) <= g2 * (eta - 1)) by nra. nra. }
      assert (B3 : g1 + g2 <= (g1 + g2) * (1 + eta * (x2 - g2))) by nra.
      nra.
    - assert (0 <= g1 ^ 2 * (1 - eta)) by nra.
      assert (0 <= (g1 + g2) * (1 + eta * (x2 - g2))) by nra.
      lra. }
  assert (0 <= eta * (x2 - x1)
               * ((g1 + g2) * (1 + eta * (x2 - g2)) + g1 ^ 2 * (1 - eta))).
  { apply Qmult_le_0_compat; [apply Qmult_le_0_compat; lra | exact F]. }
  lra.
Qed.

(** Between a point of the linear region and a later point of the
    saturation region lies the boundary, and likewise the other way
    round. *)
Lemma crossing_up x1 x2 :
  x1 <= x2 -> x1 < overdrive a eta x1 -> overdrive a eta x2 <= x2 ->
  exists x, x1 <= x /\ x <= x2 /\ x == overdrive a eta x.
Proof.
  intros H12 H1 H2. unfold overdrive in *.
  assert (Hpos : 0 < 1 - eta) by nra.
  exists (a / (1 - eta)).
  assert (E : a / (1 - eta) * (1 - eta) == a) by (field; lra).
  repeat split.
  - apply Qle_shift_div_l; [exact Hpos | nra].
  - apply Qle_shift_div_r; [exact Hpos | nra].
  - nra.
Qed.

Lemma crossing_down x1 x2 :
  x1 <= x2 -> overdrive a eta x1 <= x1 -> x2 < overdrive a eta x2 ->
  exists x, x1 <= x /\ x <= x2 /\ x == overdrive a eta x.
Proof.
  intros H12 H1 H2. unfold overdrive in *.
  assert (Hpos : 0 < eta - 1) by nra.
  exists (- a / (eta - 1)).
  assert (E : - a / (eta - 1) * (eta - 1) == - a) by (field; lra).
  repeat split.
  - apply Qle_shift_div_l; [exact Hpos | nra].
  - apply Qle_shift_div_r; [exact Hpos | nra].
  - nra.
Qed.

Lemma profile_mono x1 x2 :
  0 <= x1 -> x1 <= x2 -> profile a eta x1 <= profile a eta x2.
Proof.
  intros H0 H12.
  pose proof (overdrive_mono _ _ H12) as Hg.
  assert (H02 : 0 <= x2) by lra.
  pose proof (profile_nonneg _ H02) as Hnn. revert Hnn.
  unfold profile.
  destruct (Qle_bool (overdrive a eta x1) 0) eqn:Ec1; [tauto|]. intros _.
  destruct (Qle_bool (overdrive a eta x2) 0) eqn:Ec2; [bool_facts; lra|].
  destruct (Qlt_bool x1 (overdrive a eta x1)) eqn:El1,
           (Qlt_bool x2 (overdrive a eta x2)) eqn:El2; bool_facts.
  - apply triode_mono; lra.
  - destruct (crossing_up x1 x2) as (x & Hx1 & Hx2 & Hx); try assumption.
    apply Qle_trans with (triode a eta x).
    + apply triode_mono; lra.
    + rewrite (boundary_agree _ Hx). apply pinch_off_mono; lra.
  - destruct (crossing_down x1 x2) as (x & Hx1 & Hx2 & Hx); try assumption.
    apply Qle_trans with (pinch_off a eta x).
    + apply pinch_off_mono; lra.
    + rewrite <- (boundary_agree _ Hx). apply triode_mono; lra.
  - apply pinch_off_mono; lra.
Qed.

End SquareLawFacts.

Lemma gain_monotone (k p1 p2 I1 I2 : Q) :
  0 <= k -> p1 <= p2 -> I1 == k * p1 -> I2 == k * p2 -> I1 <= I2.
Proof. intros Hk Hp E1 E2. rewrite E1, E2. nra. Qed.

(** ** The basic evaluator *)

Section BasicFacts.

Variables (V_gs V_ds : Q) (material geometry : dict).

Let mu := get material "electron_mobility_value" 1400.
Let C_ox := get geometry "C_ox" 3.45e-3.
Let W := get geometry "width" 10e-6.
Let L := get geometry "length" 1e-6.
Let V_th := get geometry "V_th" 0.7.

(** The three branches of [calculate_drain_current], one lemma each. *)

Lemma basic_cut_off :
  V_gs <= V_th ->
  Basic.calculate_drain_current V_gs V_ds material geometry = Ok (0, Cut_off).
Proof.
  intros H. unfold Basic.calculate_drain_current.
  apply Qle_bool_iff in H. fold V_th. now rewrite H.
Qed.

Lemma basic_linear :
  V_th < V_gs -> V_ds < V_gs - V_th -> ~ L == 0 ->
  Basic.calculate_drain_current V_gs V_ds material geometry =
    Ok (mu * 1e-4 * C_ox * (W / L)
        * ((V_gs - V_th) * V_ds - 0.5 * V_ds ^ 2), Linear).
Proof.
  intros Hon Hlin HL. unfold Basic.calculate_drain_current.
  fold V_th. fold L.
  apply Qle_bool_false in Hon. rewrite Hon.
  assert (Hm : Qlt_bool V_ds (max (V_gs - V_th) 0) = true).
  { apply Qlt_bool_iff. rewrite max_eq_Qmax.
    eapply Qlt_le_trans; [exact Hlin | apply Q.le_max_l]. }
  rewrite Hm, (div_ok _ _ HL). reflexivity.
Qed.

Lemma basic_saturation :
  V_th < V_gs -> V_gs - V_th <= V_ds -> ~ L == 0 ->
  Basic.calculate_drain_current V_gs V_ds material geometry =
    Ok (0.5 * (mu * 1e-4) * C_ox * (W / L) * (V_gs - V_th) ^ 2, Saturation).
Proof.
  intros Hon Hsat HL. unfold Basic.calculate_drain_current.
  fold V_th. fold L.
  assert (Hpos : 0 <= V_gs - V_th) by lra.
  apply Qle_bool_false in Hon. rewrite Hon.
  assert (Hm : Qlt_bool V_ds (max (V_gs - V_th) 0) = false).
  { apply Qlt_bool_false. rewrite max_eq_Qmax, (Q.max_l _ _ Hpos).
    exact Hsat. }
  rewrite Hm, (div_ok _ _ HL). reflexivity.
Qed.

(** The current is the gain times the profile without DIBL. *)
Lemma basic_profile :
  ~ L == 0 ->
  exists I_d reg,
    Basic.calculate_drain_current V_gs V_ds material geometry
      = Ok (I_d, reg)
    /\ I_d == mu * 1e-4 * C_ox * (W / L)
              * SquareLaw.profile (V_gs - V_th) 0 V_ds.
Proof.
  intros HL.
  assert (Hov : forall x, SquareLaw.overdrive (V_gs - V_th) 0 x == V_gs - V_th)
    by (intros x; unfold SquareLaw.overdrive; ring).
  destruct (Qlt_le_dec V_th V_gs) as [Hon | Hoff].
  - destruct (Qlt_le_dec V_ds (V_gs - V_th)) as [Hlin | Hsat].
    + eexists _, _. split; [now apply basic_linear|].
      rewrite profile_triode by (rewrite Hov; lra).
      unfold SquareLaw.triode, SquareLaw.overdrive. ring.
    + eexists _, _. split; [now apply basic_saturation|].
      rewrite profile_pinch_off by (rewrite Hov; lra).
      unfold SquareLaw.pinch_off, SquareLaw.overdrive. ring.
  - eexists _, _. split; [now apply basic_cut_off|].
    rewrite profile_cut_off by (rewrite Hov; lra). ring.
Qed.

End BasicFacts.

(** ** Signs of the derived quantities *)

Section Signs.
Import ClosedForm.

Variables (material geometry : dict) (temperature : option Q).
Variables (L W mu_300 : Q).

Lemma eta_pos : 0 < L -> 0 < Spec.eta L.
Proof.
  intros HL. unfold Spec.eta. apply Qdiv_pos; [reflexivity|].
  plain_literals. lra.
Qed.

Lemma mobility_nonneg : 0 <= mu_300 -> 0 <= mu_n temperature mu_300.
Proof.
  intros Hmu. unfold mu_n, Spec.mobility.
  generalize (300 / T temperature). intros r. nra.
Qed.

Lemma mobility_pos :
  0 < mu_300 -> ~ T temperature == 0 -> 0 < mu_n temperature mu_300.
Proof.
  intros Hmu HT. unfold mu_n, Spec.mobility.
  assert (Hr : ~ 300 / T temperature == 0).
  { intros H. apply HT.
    assert (E : 300 / T temperature * T temperature == 300) by (field; exact HT).
    rewrite H in E. lra. }
  revert Hr. generalize (300 / T temperature). intros r Hr.
  assert (0 < r ^ 2) by nra. nra.
Qed.

Lemma C_ox_nonneg :
  0 <= get material "dielectric_constant" 3.9 -> 0 < t_ox geometry ->
  0 <= C_ox material geometry.
Proof.
  intros He Ht. unfold C_ox, Spec.C_ox. apply Qdiv_nonneg; [|exact Ht].
  plain_literals. lra.
Qed.

Lemma gain_nonneg :
  0 <= mu_300 -> 0 <= get material "dielectric_constant" 3.9 ->
  0 < t_ox geometry -> 0 <= W -> 0 < L ->
  0 <= mu_n temperature mu_300 * C_ox material geometry * (W / L).
Proof.
  intros Hmu He Ht HW HL.
  pose proof (mobility_nonneg Hmu). pose proof (C_ox_nonneg He Ht).
  pose proof (Qdiv_nonneg _ _ HW HL).
  apply Qmult_le_0_compat; [apply Qmult_le_0_compat|]; assumption.
Qed.

Lemma critical_field_pos :
  0 < mu_300 -> ~ T temperature == 0 ->
  0 < get material "saturation_velocity" 1e7 ->
  0 < E_c material temperature mu_300.
Proof.
  intros Hmu HT Hv. unfold E_c, Spec.critical_field.
  apply Qdiv_pos; [plain_literals; lra | now apply mobility_pos].
Qed.

(** Under the positivity invariants the only divisors that can vanish
    are the Kelvin temperature and [1 + V_ds/(E_c*L)]. *)
Lemma vsat_defined_of_positive (V_gs V_ds : Q) :
  0 < L -> 0 < t_ox geometry -> 0 < mu_300 ->
  0 < get material "saturation_velocity" 1e7 ->
  ~ T temperature == 0 ->
  ~ V_ds == - (E_c material temperature mu_300 * L) ->
  vsat_defined V_gs V_ds material geometry temperature L mu_300.
Proof.
  intros HL Ht Hmu Hv HT Hds.
  pose proof (mobility_pos Hmu HT) as Hmun.
  pose proof (critical_field_pos Hmu HT Hv) as HE.
  assert (Hc : 0 < E_c material temperature mu_300 * L) by nra.
  unfold vsat_defined.
  split; [exact HT|]. split; [lra|]. split; [lra|]. split; [lra|].
  intros Hon. split; [lra|]. split.
  - assert (0 < V_gt V_gs V_ds geometry temperature L
                / (E_c material temperature mu_300 * L)).
    { apply Qdiv_pos; [unfold V_gt; lra | exact Hc]. }
    lra.
  - intros _ Hz. apply Hds.
    assert (E : V_ds / (E_c material temperature mu_300 * L)
                * (E_c material temperature mu_300 * L) == V_ds)
      by (field; lra).
    rewrite <- E.
    assert (E' : V_ds / (E_c material temperature mu_300 * L) == -1) by lra.
    rewrite E'. ring.
Qed.

End Signs.

(** ** The simple variant as gain times profile *)

Section SimpleProfile.
Import ClosedForm.

Variables (V_gs V_ds : Q) (material geometry : dict) (temperature : option Q).
Variables (L W mu_300 : Q).

Lemma simple_profile :
  geometry !! "length" = Some L ->
  geometry !! "width" = Some W ->
  material !! "electron_mobility_value" = Some mu_300 ->
  simple_defined geometry temperature L ->
  exists I_d reg d,
    Simple.calculate_with_short_channel_effects
      V_gs V_ds material geometry temperature = Ok (I_d, reg, d)
    /\ I_d == mu_n temperature mu_300 * C_ox material geometry * (W / L)
              * SquareLaw.profile
                  (V_gs - Spec.threshold (V_th0 geometry) (T temperature))
                  (Spec.eta L) V_ds.
Proof.
  intros HL HW Hmu Hdef.
  rewrite (simple_eval V_gs V_ds _ _ _ _ _ _ HL HW Hmu Hdef).
  unfold simple_value.
  set (a := V_gs - Spec.threshold (V_th0 geometry) (T temperature)).
  assert (Hov : SquareLaw.overdrive a (Spec.eta L) V_ds
                == V_gs - V_th_sc V_ds geometry temperature L)
    by (unfold SquareLaw.overdrive, a, V_th_sc, Spec.V_th_eff; ring).
  destruct (Qle_bool V_gs (V_th_sc V_ds geometry temperature L)) eqn:Ecut;
    bool_facts.
  - eexists _, _, _. split; [reflexivity|].
    rewrite profile_cut_off by (rewrite Hov; lra). ring.
  - destruct (Qlt_bool V_ds (V_gt V_gs V_ds geometry temperature L)) eqn:Elin;
      bool_facts; unfold V_gt in Elin; eexists _, _, _;
      (split; [reflexivity|]).
    + rewrite profile_triode by (rewrite Hov; lra).
      unfold Spec.linear_current, SquareLaw.triode. rewrite Hov.
      unfold V_gt. ring.
    + rewrite profile_pinch_off by (rewrite Hov; lra).
      unfold Spec.saturation_current, SquareLaw.pinch_off. rewrite Hov.
      unfold V_gt, Spec.lambda, Spec.eta. ring.
Qed.

End SimpleProfile.

(** ** Which calls can fail *)

Section Failures.

Variables (V_gs V_ds : Q) (material geometry : dict) (temperature : option Q).

(** A missing entry surfaces as [KeyError] before any division is tried. *)
Lemma simple_keys :
  (exists L W mu_300,
     geometry !! "length" = Some L
     /\ geometry !! "width" = Some W
     /\ material !! "electron_mobility_value" = Some mu_300)
  \/ exists key,
       Simple.calculate_with_short_channel_effects
         V_gs V_ds material geometry temperature = Raise (KeyError key).
Proof.
  unfold Simple.calculate_with_short_channel_effects,
    Simple._temperature_dependent_mobility, item.
  destruct (geometry !! "length") as [L|]; [|right; now eexists].
  destruct (geometry !! "width") as [W|]; [|right; now eexists].
  destruct (material !! "electron_mobility_value") as [mu|];
    [|right; now eexists].
  left. now exists L, W, mu.
Qed.

Lemma vsat_keys :
  (exists L W mu_300,
     geometry !! "length" = Some L
     /\ geometry !! "width" = Some W
     /\ material !! "electron_mobility_value" = Some mu_300)
  \/ exists key,
       VSat.calculate_with_short_channel_effects
         V_gs V_ds material geometry temperature = Raise (KeyError key).
Proof.
  unfold VSat.calculate_with_short_channel_effects,
    VSat._temperature_dependent_mobility, item.
  destruct (geometry !! "length") as [L|]; [|right; now eexists].
  destruct (geometry !! "width") as [W|]; [|right; now eexists].
  destruct (material !! "electron_mobility_value") as [mu|];
    [|right; now eexists].
  left. now exists L, W, mu.
Qed.

End Failures.

Lemma returns_Ok_inv {A} (m : result A) : returns m -> exists a, m = Ok a.
Proof. destruct m as [a|e]; [now exists a | contradiction]. Qed.

(** ** Magnitudes within the operating range *)

Lemma squares_safely_finite (x : Q) :
  Binary64.squares_safely x -> Binary64.finite (x ^ 2).
Proof.
  unfold Binary64.squares_safely, Binary64.finite. intros H.
  assert (Hc : 1e150 * 1e150 <= Binary64.max_double)
    by (vm_compute; discriminate).
  assert (H0 : (0:Q) <= 1e150) by (vm_compute; discriminate).
  revert H Hc H0. generalize 1e150 Binary64.max_double. intros c m H Hc H0.
  assert (E : Qabs (x ^ 2) == Qabs x * Qabs x).
  { rewrite <- Qabs_Qmult. apply Qabs_wd. ring. }
  rewrite E. pose proof (Qabs_nonneg x) as Hx.
  revert H Hx. generalize (Qabs x). intros a H Hx.
  assert (a * a <= c * c) by nra. lra.
Qed.

Section Intervals.

Lemma in_range_weaken (l u l' u' x : Q) :
  in_range l u x -> l' <= l -> u <= u' -> in_range l' u' x.
Proof. unfold in_range. intros [H1 H2] Hl Hu. split; lra. Qed.

Lemma in_range_mult (la ua lb ub a b : Q) :
  0 <= la -> 0 <= lb -> in_range la ua a -> in_range lb ub b ->
  in_range (la * lb) (ua * ub) (a * b).
Proof. unfold in_range. intros Ha Hb [A1 A2] [B1 B2]. split; nra. Qed.

Lemma in_range_div (la ua lb ub a b : Q) :
  0 <= la -> 0 < lb -> in_range la ua a -> in_range lb ub b ->
  in_range (la / ub) (ua / lb) (a / b).
Proof.
  unfold in_range. intros Ha Hb [A1 A2] [B1 B2].
  assert (Hb' : 0 < b) by lra. assert (Hub : 0 < ub) by lra.
  split.
  - apply Qle_shift_div_l; [exact Hb'|].
    assert (E : la / ub * b == la * (b / ub)) by (field; lra). rewrite E.
    assert (b / ub <= 1) by (apply Qle_shift_div_r; lra).
    assert (0 <= b / ub) by (apply Qdiv_nonneg; lra).
    nra.
  - apply Qle_shift_div_r; [exact Hb'|].
    assert (E : ua / lb * b == ua * (b / lb)) by (field; lra). rewrite E.
    assert (1 <= b / lb) by (apply Qle_shift_div_l; lra).
    nra.
Qed.

Lemma in_range_abs (l u x : Q) : 0 <= l -> in_range l u x -> Qabs x == x.
Proof. intros Hl [H _]. apply Qabs_pos. lra. Qed.

Lemma abs_le (x c : Q) : -c <= x -> x <= c -> Qabs x <= c.
Proof. intros H1 H2. apply Qabs_Qle_condition. now split. Qed.

Lemma abs_bounds (x c : Q) : Qabs x <= c -> -c <= x /\ x <= c.
Proof. intros H. now apply Qabs_Qle_condition. Qed.

Lemma divides_safely_above (l u x : Q) :
  1e-60 <= l -> in_range l u x -> Binary64.divides_safely x.
Proof.
  intros Hl [H1 H2]. unfold Binary64.divides_safely.
  assert (H0 : (0:Q) <= 1e-60) by (vm_compute; discriminate).
  revert Hl H0. generalize 1e-60. intros m Hl H0.
  rewrite Qabs_pos by lra. lra.
Qed.

Lemma squares_safely_below (x c : Q) :
  c <= 1e150 -> Qabs x <= c -> Binary64.squares_safely x.
Proof. unfold Binary64.squares_safely. intros Hc H. eapply Qle_trans; eauto. Qed.

End Intervals.

Section Magnitudes.

Lemma in_range_square (l u x : Q) :
  0 <= l -> in_range l u x -> in_range (l * l) (u * u) (x ^ 2).
Proof.
  intros Hl H. pose proof (in_range_mult _ _ _ _ _ _ Hl Hl H H) as [H1 H2].
  assert (E : x ^ 2 == x * x) by ring. split; rewrite E; assumption.
Qed.

Lemma in_range_const (c : Q) : in_range c c c.
Proof. split; apply Qle_refl. Qed.

Lemma in_range_pos (l u x : Q) : 0 < l -> in_range l u x -> 0 < x.
Proof. intros Hl [H _]. lra. Qed.

Lemma abs_of_in_range (l u x : Q) : 0 <= l -> in_range l u x -> Qabs x <= u.
Proof. intros Hl [H1 H2]. rewrite Qabs_pos by lra. exact H2. Qed.

Lemma abs_sub (x y c d : Q) : Qabs x <= c -> Qabs y <= d -> Qabs (x - y) <= c + d.
Proof.
  intros Hx Hy. apply abs_bounds in Hx, Hy. apply abs_le; lra.
Qed.

Lemma abs_mult (x y c d : Q) :
  Qabs x <= c -> Qabs y <= d -> Qabs (x * y) <= c * d.
Proof.
  intros Hx Hy. rewrite Qabs_Qmult.
  pose proof (Qabs_nonneg x). pose proof (Qabs_nonneg y).
  revert Hx Hy H H0. generalize (Qabs x) (Qabs y). intros a b. nra.
Qed.

End Magnitudes.

Section Range.

Variables (V_gs V_ds : Q) (material geometry : dict) (temperature : option Q).

Let T := Spec.kelvin (default 300 temperature).
Let L := get geometry "length" 1e-6.
Let t_ox := get geometry "oxide_thickness" 2e-9.
Let mu_300 := get material "electron_mobility_value" 1400.
Let mu_n := ClosedForm.mu_n temperature mu_300.
Let E_c := ClosedForm.E_c material temperature mu_300.
Let V_th_sc := ClosedForm.V_th_sc V_ds geometry temperature L.

Hypothesis Hrange : operating_range V_gs V_ds material geometry.

Lemma range_positivity : positivity_invariants material geometry.
Proof.
  destruct Hrange as (HL & HW & Ht & Hmu & He & Hv & _).
  unfold positivity_invariants.
  split_conj; eapply in_range_pos; eauto; vm_compute; reflexivity.
Qed.

Lemma range_basic_squares :
  Binary64.squares_safely V_ds
  /\ Binary64.squares_safely (V_gs - get geometry "V_th" 0.7).
Proof.
  destruct Hrange as (_ & _ & _ & _ & _ & _ & HVth & HVgs & HVds).
  split.
  - apply (squares_safely_below _ 1e12); [vm_compute; discriminate | exact HVds].
  - apply (squares_safely_below _ (1e12 + 1e12)); [vm_compute; discriminate|].
    now apply abs_sub.
Qed.

Lemma range_length : Binary64.divides_safely L.
Proof.
  destruct Hrange as (HL & _).
  apply (divides_safely_above 1e-12 1e12); [vm_compute; discriminate | exact HL].
Qed.

Hypothesis HT : in_range 1e-3 1e6 T.

Lemma range_micrometres : in_range (1e-12 * 1e6) (1e12 * 1e6) (L * 1e6).
Proof.
  destruct Hrange as (HL & _).
  apply in_range_mult; [vm_compute; discriminate | vm_compute; discriminate
                      | exact HL | apply in_range_const].
Qed.

Lemma range_ratio : in_range (300 / 1e6) (300 / 1e-3) (300 / T).
Proof.
  apply in_range_div; [vm_compute; discriminate | vm_compute; reflexivity
                     | apply in_range_const | exact HT].
Qed.

Lemma range_eta :
  in_range (0.1 / (1e12 * 1e6)) (0.1 / (1e-12 * 1e6)) (Spec.eta L).
Proof.
  unfold Spec.eta.
  apply in_range_div; [vm_compute; discriminate | vm_compute; reflexivity
                     | apply in_range_const | apply range_micrometres].
Qed.

Lemma range_effective_threshold :
  Qabs V_th_sc <= 1e12 + 0.002 * (1e6 + 300) + 0.1 / (1e-12 * 1e6) * 1e12.
Proof.
  destruct Hrange as (_ & _ & _ & _ & _ & _ & HVth & HVgs & HVds).
  unfold V_th_sc, ClosedForm.V_th_sc, Spec.V_th_eff, Spec.threshold.
  apply abs_sub; [apply abs_sub|].
  - exact HVth.
  - apply abs_mult; [vm_compute; discriminate|].
    apply abs_sub; [|vm_compute; discriminate].
    apply (abs_of_in_range 1e-3); [vm_compute; discriminate | exact HT].
  - apply abs_mult; [|exact HVds].
    eapply abs_of_in_range; [|apply range_eta]. vm_compute; discriminate.
Qed.

Lemma range_simple_squares :
  Binary64.squares_safely (300 / T)
  /\ Binary64.squares_safely (V_gs - V_th_sc).
Proof.
  destruct Hrange as (_ & _ & _ & _ & _ & _ & HVth & HVgs & HVds).
  split.
  - apply (squares_safely_below _ (300 / 1e-3)); [vm_compute; discriminate|].
    eapply abs_of_in_range; [|apply range_ratio]. vm_compute; discriminate.
  - eapply squares_safely_below;
      [|apply abs_sub; [exact HVgs | apply range_effective_threshold]].
    vm_compute; discriminate.
Qed.

Lemma range_simple_divisors :
  Binary64.divides_safely T
  /\ Binary64.divides_safely (L * 1e6)
  /\ Binary64.divides_safely t_ox.
Proof.
  destruct Hrange as (_ & _ & Ht & _).
  split; [|split].
  - apply (divides_safely_above 1e-3 1e6); [vm_compute; discriminate | exact HT].
  - eapply divides_safely_above; [|apply range_micrometres].
    vm_compute; discriminate.
  - apply (divides_safely_above 1e-12 1e12); [vm_compute; discriminate | exact Ht].
Qed.

Lemma range_mobility :
  in_range (1e-12 * (300 / 1e6 * (300 / 1e6)))
          (1e12 * (300 / 1e-3 * (300 / 1e-3))) mu_n.
Proof.
  destruct Hrange as (_ & _ & _ & Hmu & _).
  unfold mu_n, ClosedForm.mu_n, Spec.mobility.
  apply in_range_mult; [vm_compute; discriminate | vm_compute; discriminate
                      | exact Hmu |].
  apply in_range_square; [vm_compute; discriminate | apply range_ratio].
Qed.

Lemma range_critical_field :
  in_range (1e-12 * 1e-2 / (1e12 * (300 / 1e-3 * (300 / 1e-3))))
          (1e12 * 1e-2 / (1e-12 * (300 / 1e6 * (300 / 1e6)))) E_c.
Proof.
  destruct Hrange as (_ & _ & _ & _ & _ & Hv & _).
  unfold E_c, ClosedForm.E_c, Spec.critical_field.
  apply in_range_div; [vm_compute; discriminate | vm_compute; reflexivity
                     | | apply range_mobility].
  apply in_range_mult; [vm_compute; discriminate | vm_compute; discriminate
                      | exact Hv | apply in_range_const].
Qed.

Lemma range_critical_voltage :
  in_range (1e-12 * 1e-2 / (1e12 * (300 / 1e-3 * (300 / 1e-3))) * 1e-12)
          (1e12 * 1e-2 / (1e-12 * (300 / 1e6 * (300 / 1e6))) * 1e12)
          (E_c * L).
Proof.
  destruct Hrange as (HL & _).
  apply in_range_mult; [vm_compute; discriminate | vm_compute; discriminate
                      | apply range_critical_field | exact HL].
Qed.

Lemma range_vsat_divisors :
  Binary64.divides_safely mu_n
  /\ Binary64.divides_safely (E_c * L)
  /\ (0 <= V_ds -> 1 <= 1 + V_ds / (E_c * L))
  /\ (V_th_sc < V_gs -> 1 <= 1 + (V_gs - V_th_sc) / (E_c * L)).
Proof.
  assert (Hc : 0 < E_c * L).
  { eapply in_range_pos; [|apply range_critical_voltage].
    vm_compute; reflexivity. }
  split; [|split; [|split]].
  - eapply divides_safely_above; [|apply range_mobility].
    vm_compute; discriminate.
  - eapply divides_safely_above; [|apply range_critical_voltage].
    vm_compute; discriminate.
  - intros Hds. assert (0 <= V_ds / (E_c * L)) by (now apply Qdiv_nonneg). lra.
  - intros Hon.
    assert (0 <= (V_gs - V_th_sc) / (E_c * L)) by (apply Qdiv_nonneg; lra).
    lra.
Qed.

End Range.

Section Safety.

Variables (V_gs V_ds : Q) (material geometry : dict) (temperature : option Q).

Hypothesis Hpos : positivity_invariants material geometry.
Hypothesis HT : ~ Spec.kelvin (default 300 temperature) == 0.

(** With the positivity invariants and a nonzero Kelvin temperature the
    simple variant fails only on a missing entry. *)
Lemma simple_safe :
  let r := Simple.calculate_with_short_channel_effects
             V_gs V_ds material geometry temperature in
  arithmetic_safe r /\ (required_keys material geometry -> returns r).
Proof.
  intros r. destruct Hpos as (HL & HW & Ht & Hmu & He & Hv).
  assert (Hret : forall L' W' mu',
             geometry !! "length" = Some L' ->
             geometry !! "width" = Some W' ->
             material !! "electron_mobility_value" = Some mu' ->
             returns r).
  { intros L' W' mu' HL' HW' Hmu'. unfold r.
    rewrite (simple_eval V_gs V_ds _ _ _ _ _ _ HL' HW' Hmu'); [exact I|].
    unfold ClosedForm.simple_defined. split; [exact HT|].
    rewrite (get_Some _ _ _ _ HL') in HL.
    split; [lra | unfold ClosedForm.t_ox; lra]. }
  split.
  - destruct (simple_keys V_gs V_ds material geometry temperature)
      as [(L' & W' & mu' & HL' & HW' & Hmu') | [key Hkey]].
    + specialize (Hret _ _ _ HL' HW' Hmu'). unfold arithmetic_safe.
      intros Hr. rewrite Hr in Hret. exact Hret.
    + unfold arithmetic_safe, r. rewrite Hkey. discriminate.
  - intros ([L' HL'] & [W' HW'] & [mu' Hmu']). eauto.
Qed.

Hypothesis Hds :
  ~ V_ds == - (ClosedForm.E_c material temperature
                 (get material "electron_mobility_value" 1400)
               * get geometry "length" 1e-6).

(** The same for the velocity-saturation variant away from
    [V_ds = -E_c*L]. *)
Lemma vsat_safe :
  let r := VSat.calculate_with_short_channel_effects
             V_gs V_ds material geometry temperature in
  arithmetic_safe r /\ (required_keys material geometry -> returns r).
Proof.
  intros r. destruct Hpos as (HL & HW & Ht & Hmu & He & Hv).
  assert (Hret : forall L' W' mu',
             geometry !! "length" = Some L' ->
             geometry !! "width" = Some W' ->
             material !! "electron_mobility_value" = Some mu' ->
             returns r).
  { intros L' W' mu' HL' HW' Hmu'. unfold r.
    rewrite (vsat_eval V_gs V_ds _ _ _ _ _ _ HL' HW' Hmu'); [exact I|].
    rewrite (get_Some _ _ _ _ HL') in HL, Hds.
    rewrite (get_Some _ _ _ _ Hmu') in Hmu, Hds.
    now apply vsat_defined_of_positive. }
  split.
  - destruct (vsat_keys V_gs V_ds material geometry temperature)
      as [(L' & W' & mu' & HL' & HW' & Hmu') | [key Hkey]].
    + specialize (Hret _ _ _ HL' HW' Hmu'). unfold arithmetic_safe.
      intros Hr. rewrite Hr in Hret. exact Hret.
    + unfold arithmetic_safe, r. rewrite Hkey. discriminate.
  - intros ([L' HL'] & [W' HW'] & [mu' Hmu']). eauto.
Qed.

End Safety.

Import MaterialDatabase.

(** * The claims *)



(** C2. The extended evaluator feeds the temperature-corrected mobility
    into the current formulas without the factor 1e-4.  For Silicon on the
    one-micrometre device at 26.85 C (T = 300 K), [V_gs = 1.6]:
    - simple variant, [V_ds = 0.5] (linear, [V_gt = 0.95]): the current is
      the linear formula at the unconverted mobility, ten thousand times
      the value the formula gives at the converted mobility;
    - simple variant, [V_ds = 2] (saturation, [V_gt = 1.1]): likewise;
    - velocity-saturation variant, [V_ds = 0.5]: the current is the
      saturation formula at the unconverted mobility and critical field,
      not the one at the converted mobility. *)
Theorem C2_extended_mobility_is_not_converted :
  let C := Spec.C_ox 11.7 2e-9 in
  let W := 10e-6 in
  let L := 1e-6 in
  let lam := Spec.lambda L in
  let mu := Spec.mobility 1400 300 in
  let mu_SI := Spec.mobility_SI 1400 300 in
  (let r := Simple.calculate_with_short_channel_effects
              1.6 0.5 Silicon geometry_1um (Some 26.85) in
   let claimed := Spec.linear_current mu_SI C W L 0.95 0.5 in
   operating_region r = Some Linear
   /\ yields (diagnostic "effective_vth" r) (1.6 - 0.95)
   /\ yields (drain_current r) (Spec.linear_current mu C W L 0.95 0.5)
   /\ yields (drain_current r) (10000 * claimed)
   /\ ~ yields (drain_current r) claimed)
  /\
  (let r := Simple.calculate_with_short_channel_effects
              1.6 2 Silicon geometry_1um (Some 26.85) in
   let claimed := Spec.saturation_current mu_SI C W L lam 1.1 2 in
   operating_region r = Some Saturation
   /\ yields (diagnostic "effective_vth" r) (1.6 - 1.1)
   /\ yields (drain_current r) (Spec.saturation_current mu C W L lam 1.1 2)
   /\ yields (drain_current r) (10000 * claimed)
   /\ ~ yields (drain_current r) claimed)
  /\
  (let r := VSat.calculate_with_short_channel_effects
              1.6 0.5 Silicon geometry_1um (Some 26.85) in
   let E_c := Spec.critical_field 1e7 mu in
   let E_c_SI := Spec.critical_field 1e7 mu_SI in
   let claimed := Spec.vsat_saturation_current mu_SI C W L E_c_SI lam 0.95 0.5 in
   operating_region r = Some Saturation
   /\ yields (diagnostic "effective_vth" r) (1.6 - 0.95)
   /\ yields (drain_current r)
        (Spec.vsat_saturation_current mu C W L E_c lam 0.95 0.5)
   /\ ~ yields (drain_current r) claimed).
Proof.
  cbv zeta. split_conj; try (vm_compute; reflexivity);
    intros H; vm_compute in H; discriminate.
Qed.

(** C3. Leaving the temperature out is the call with 300, which the body
    then reads as degrees Celsius (T = 573.15 K), not the call with 27:
    on the dashboard's default device with Silicon, [V_gs = 1.5] and
    [V_ds = 0.5], the effective threshold is -0.3463 V by default and
    0.1997 V at 27 C. *)
Theorem C3_default_temperature_is_300 :
  (forall V_gs V_ds material geometry,
     Simple.calculate_with_short_channel_effects V_gs V_ds material geometry None
     = Simple.calculate_with_short_channel_effects
         V_gs V_ds material geometry (Some 300))
  /\ (forall V_gs V_ds material geometry,
     VSat.calculate_with_short_channel_effects V_gs V_ds material geometry None
     = VSat.calculate_with_short_channel_effects
         V_gs V_ds material geometry (Some 300))
  /\ Spec.kelvin 300 == 573.15
  /\ Spec.kelvin 27 == 300.15
  /\ yields (diagnostic "effective_vth"
       (Simple.calculate_with_short_channel_effects
          1.5 0.5 Silicon geometry_100nm None)) (-0.3463)
  /\ yields (diagnostic "effective_vth"
       (Simple.calculate_with_short_channel_effects
          1.5 0.5 Silicon geometry_100nm (Some 27))) 0.1997
  /\ yields (diagnostic "effective_vth"
       (VSat.calculate_with_short_channel_effects
          1.5 0.5 Silicon geometry_100nm None)) (-0.3463)
  /\ yields (diagnostic "effective_vth"
       (VSat.calculate_with_short_channel_effects
          1.5 0.5 Silicon geometry_100nm (Some 27))) 0.1997.
Proof.
  split; [reflexivity|]. split; [reflexivity|].
  split_conj; vm_compute; reflexivity.
Qed.

(** C4, as stated, fails: with the defaults and [V_gs = 3], [V_ds = 5] the
    evaluator does not return a saturation current within one percent of
    1.243e-3 A. *)
Lemma C4_claimed_current_refuted :
  ~ (exists I_d,
       Basic.calculate_drain_current 3 5 ∅ ∅ = Ok (I_d, Saturation)
       /\ approx I_d 1.243e-3).
Proof.
  intros [I_d [H Ha]]. vm_compute in H. injection H as <-.
  vm_compute in Ha. apply Ha. reflexivity.
Qed.

(** C4 (amended). With the defaults (mobility 1400, C_ox 3.45e-3, W 10 um,
    L 1 um, V_th 0.7), whether left out or given by the Silicon entry, the
    inputs [V_gs = 3], [V_ds = 5] give [V_ds_sat = 2.3], region Saturation
    and the drain current 0.5*(1400e-4)*3.45e-3*10*2.3^2 = 1.277535e-2 A
    (about 12.78 mA). *)
Theorem C4_example1_saturation_current :
  max (3 - 0.7) 0 == 2.3
  /\ (exists I_d,
        Basic.calculate_drain_current 3 5 ∅ ∅ = Ok (I_d, Saturation)
        /\ I_d == 0.5 * 1400e-4 * 3.45e-3 * 10 * 2.3 ^ 2
        /\ I_d == 1.277535e-2
        /\ approx I_d 1.278e-2)
  /\ Basic.calculate_drain_current 3 5 Silicon ∅
     = Basic.calculate_drain_current 3 5 ∅ ∅.
Proof.
  split; [vm_compute; reflexivity|]. split.
  - eexists. split; [vm_compute; reflexivity|].
    split_conj; try (vm_compute; reflexivity).
    vm_compute. discriminate.
  - vm_compute. reflexivity.
Qed.

(** C5, as stated, fails for the simple variant: in cut-off (Silicon,
    one-micrometre device, 27 C, both voltages zero) the reported
    velocity-saturation ratio is 0.8, not 0; in conduction
    ([V_gs = 1.6], [V_ds = 0.5], where [V_ds_sat = V_gt]) it is 0.8,
    not 1. *)
Lemma C5_simple_variant_reports_constant_ratio :
  (let r := Simple.calculate_with_short_channel_effects
              0 0 Silicon geometry_1um (Some 27) in
   operating_region r = Some Cut_off
   /\ yields (diagnostic "velocity_saturation_factor" r) 0.8
   /\ ~ yields (diagnostic "velocity_saturation_factor" r) 0)
  /\
  (let r := Simple.calculate_with_short_channel_effects
              1.6 0.5 Silicon geometry_1um (Some 27) in
   operating_region r = Some Linear
   /\ yields (diagnostic "velocity_saturation_factor" r) 0.8
   /\ ~ yields (diagnostic "velocity_saturation_factor" r) 1).
Proof.
  cbv zeta. split_conj; try (vm_compute; reflexivity);
    intros H; vm_compute in H; discriminate.
Qed.

(** C5 (amended). Whenever the extended evaluator returns, its diagnostics
    hold the effective threshold [V_th_eff] and the DIBL shift
    [V_th_eff - V_th0], in both variants.  The velocity-saturation ratio is
    [V_ds_sat / V_gt] when [V_gs > V_th_eff] and 0 otherwise in the
    velocity-saturation variant ([V_ds_sat] being the evaluator's own
    saturation voltage), and the constant 0.8 in the simple variant. *)
Theorem C5_diagnostics_of_the_extended_evaluator
    (V_gs V_ds : Q) (material geometry : dict) (temperature : option Q) :
  let V_th0 := get geometry "V_th" 0.7 in
  let T := Spec.kelvin (default 300 temperature) in
  let v_sat := get material "saturation_velocity" 1e7 in
  (let r := VSat.calculate_with_short_channel_effects
              V_gs V_ds material geometry temperature in
   returns r ->
   exists L mu_300,
     geometry !! "length" = Some L
     /\ material !! "electron_mobility_value" = Some mu_300
     /\ let V_th_eff := Spec.V_th_eff V_th0 T L V_ds in
        let V_gt := V_gs - V_th_eff in
        let E_c := Spec.critical_field v_sat (Spec.mobility mu_300 T) in
        let V_ds_sat := Spec.V_ds_sat E_c L V_gt in
        diagnostic "effective_vth" r = Some V_th_eff
        /\ diagnostic "dibl_effect" r = Some (V_th_eff - V_th0)
        /\ (V_th_eff < V_gs ->
            diagnostic "velocity_saturation_factor" r
              = Some (V_ds_sat / V_gt))
        /\ (V_gs <= V_th_eff ->
            diagnostic "velocity_saturation_factor" r = Some 0))
  /\
  (let r := Simple.calculate_with_short_channel_effects
              V_gs V_ds material geometry temperature in
   returns r ->
   exists L,
     geometry !! "length" = Some L
     /\ let V_th_eff := Spec.V_th_eff V_th0 T L V_ds in
        diagnostic "effective_vth" r = Some V_th_eff
        /\ diagnostic "dibl_effect" r = Some (V_th_eff - V_th0)
        /\ diagnostic "velocity_saturation_factor" r = Some 0.8).
Proof.
  intros V_th0 T v_sat. split; intros r Hr; subst r.
  - apply returns_Ok_inv in Hr as [res Hres].
    destruct (vsat_inv _ _ _ _ _ _ Hres) as (L & W & mu_300 & HL & HW & Hmu & Hdef).
    exists L, mu_300. split; [exact HL|]. split; [exact Hmu|].
    rewrite (vsat_eval _ _ _ _ _ _ _ _ HL HW Hmu Hdef).
    unfold diagnostic, ClosedForm.vsat_value. cbn [snd].
    change (Spec.V_th_eff V_th0 T L V_ds)
      with (ClosedForm.V_th_sc V_ds geometry temperature L).
    split; [reflexivity|]. split; [reflexivity|]. split.
    + intros Hon. apply Qlt_bool_iff in Hon. rewrite Hon. reflexivity.
    + intros Hoff. apply Qlt_bool_false in Hoff. rewrite Hoff. reflexivity.
  - apply returns_Ok_inv in Hr as [res Hres].
    destruct (simple_inv _ _ _ _ _ _ Hres) as (L & W & mu_300 & HL & HW & Hmu & Hdef).
    exists L. split; [exact HL|].
    rewrite (simple_eval _ _ _ _ _ _ _ _ HL HW Hmu Hdef).
    unfold diagnostic, ClosedForm.simple_value. cbn [snd].
    split; [reflexivity|]. split; reflexivity.
Qed.

(** C5 at a conducting input, both variants. *)
Lemma C5_witness :
  (let r := VSat.calculate_with_short_channel_effects
              1.6 0.5 Silicon geometry_1um (Some 26.85) in
   exists L mu_300,
     geometry_1um !! "length" = Some L
     /\ Silicon !! "electron_mobility_value" = Some mu_300
     /\ diagnostic "effective_vth" r
        = Some (Spec.V_th_eff 0.7 (Spec.kelvin 26.85) L 0.5))
  /\
  (let r := Simple.calculate_with_short_channel_effects
              1.6 0.5 Silicon geometry_1um (Some 26.85) in
   exists L,
     geometry_1um !! "length" = Some L
     /\ diagnostic "effective_vth" r
        = Some (Spec.V_th_eff 0.7 (Spec.kelvin 26.85) L 0.5)
     /\ diagnostic "velocity_saturation_factor" r = Some 0.8).
Proof.
  split; intros r.
  - destruct (proj1 (C5_diagnostics_of_the_extended_evaluator
                       1.6 0.5 Silicon geometry_1um (Some 26.85)))
      as (L & mu_300 & HL & Hmu & Hv & _).
    + vm_compute. exact I.
    + exists L, mu_300. split; [exact HL|]. split; [exact Hmu|]. exact Hv.
  - destruct (proj2 (C5_diagnostics_of_the_extended_evaluator
                       1.6 0.5 Silicon geometry_1um (Some 26.85)))
      as (L & HL & Hv & _ & Hf).
    + vm_compute. exact I.
    + exists L. split; [exact HL|]. split; [exact Hv | exact Hf].
Defined.





(** C8, as stated, fails.  Silicon on the one-micrometre device satisfies
    every positivity invariant, yet both extended variants divide by zero at
    -273.15 C (T = 0 K), and the velocity-saturation variant divides by zero
    at 26.85 C for [V_ds = -E_c*L = -1/14000] V, where the linear-region
    divisor [1 + V_ds/(E_c*L)] vanishes. *)
Lemma C8_division_by_zero_under_positivity :
  positivity_invariants Silicon geometry_1um
  /\ required_keys Silicon geometry_1um
  /\ Simple.calculate_with_short_channel_effects
       3 1 Silicon geometry_1um (Some (-273.15)) = Raise ZeroDivisionError
  /\ VSat.calculate_with_short_channel_effects
       3 1 Silicon geometry_1um (Some (-273.15)) = Raise ZeroDivisionError
  /\ VSat.calculate_with_short_channel_effects
       3 (- (1 # 14000)) Silicon geometry_1um (Some 26.85)
     = Raise ZeroDivisionError.
Proof.
  split; [unfold positivity_invariants; split_conj; vm_compute; reflexivity|].
  split.
  { unfold required_keys. split_conj; eexists; vm_compute; reflexivity. }
  split_conj; vm_compute; reflexivity.
Qed.

(** C8 (amended). Within the operating range (the positivity invariants of
    section 3 with each quantity in_range 1e-12 and 1e12, threshold and
    voltages at most 1e12 in magnitude) the basic evaluator returns.  With
    a Kelvin temperature in_range 1e-3 and 1e6 the simple extended variant
    raises no arithmetic exception, and with a non-negative drain voltage
    neither does the velocity-saturation variant; with the entries they
    require present, these calls return.  On these inputs every divisor is
    at least 1e-60 in magnitude, or at least 1, and every operand of [**]
    at most 1e150, so that neither rounding to zero nor [OverflowError]
    can occur in binary64. *)
Theorem C8_no_arithmetic_exception
    (V_gs V_ds : Q) (material geometry : dict) (temperature : option Q) :
  let T := Spec.kelvin (default 300 temperature) in
  let L := get geometry "length" 1e-6 in
  let t_ox := get geometry "oxide_thickness" 2e-9 in
  let V_th := get geometry "V_th" 0.7 in
  let mu_300 := get material "electron_mobility_value" 1400 in
  let mu_n := ClosedForm.mu_n temperature mu_300 in
  let E_c := ClosedForm.E_c material temperature mu_300 in
  let V_th_sc := ClosedForm.V_th_sc V_ds geometry temperature L in
  operating_range V_gs V_ds material geometry ->
  (returns (Basic.calculate_drain_current V_gs V_ds material geometry)
   /\ Binary64.divides_safely L
   /\ Binary64.squares_safely V_ds
   /\ Binary64.squares_safely (V_gs - V_th))
  /\ (in_range 1e-3 1e6 T ->
      let r := Simple.calculate_with_short_channel_effects
                 V_gs V_ds material geometry temperature in
      (arithmetic_safe r /\ (required_keys material geometry -> returns r))
      /\ Binary64.divides_safely T
      /\ Binary64.divides_safely (L * 1e6)
      /\ Binary64.divides_safely t_ox
      /\ Binary64.squares_safely (300 / T)
      /\ Binary64.squares_safely (V_gs - V_th_sc))
  /\ (in_range 1e-3 1e6 T -> 0 <= V_ds ->
      let r := VSat.calculate_with_short_channel_effects
                 V_gs V_ds material geometry temperature in
      (arithmetic_safe r /\ (required_keys material geometry -> returns r))
      /\ Binary64.divides_safely mu_n
      /\ Binary64.divides_safely (E_c * L)
      /\ (1 <= 1 + V_ds / (E_c * L))%Q
      /\ (V_th_sc < V_gs -> 1 <= 1 + (V_gs - V_th_sc) / (E_c * L))).
Proof.
  intros T L t_ox V_th mu_300 mu_n E_c V_th_sc Hrange.
  pose proof (range_positivity V_gs V_ds material geometry Hrange) as Hpos.
  assert (HT0 : in_range 1e-3 1e6 T -> ~ T == 0).
  { intros HT E.
    pose proof (in_range_pos 1e-3 1e6 T ltac:(vm_compute; reflexivity) HT)
      as Hp.
    rewrite E in Hp. discriminate. }
  split; [|split].
  - destruct Hpos as (HL & _).
    assert (HL0 : ~ get geometry "length" 1e-6 == 0)
      by (intros E; rewrite E in HL; discriminate).
    destruct (basic_profile V_gs V_ds material geometry HL0)
      as (I_d & reg & E & _).
    split; [rewrite E; exact I|].
    split; [exact (range_length V_gs V_ds material geometry Hrange)|].
    exact (range_basic_squares V_gs V_ds material geometry Hrange).
  - intros HT r.
    split; [exact (simple_safe V_gs V_ds material geometry temperature
                     Hpos (HT0 HT))|].
    destruct (range_simple_divisors V_gs V_ds material geometry temperature
                Hrange HT) as (D1 & D2 & D3).
    destruct (range_simple_squares V_gs V_ds material geometry temperature
                Hrange HT) as (S1 & S2).
    now split_conj.
  - intros HT Hds r.
    destruct (range_vsat_divisors V_gs V_ds material geometry temperature
                Hrange HT) as (D1 & D2 & D3 & D4).
    split; [|split_conj; [exact D1 | exact D2 | exact (D3 Hds) | exact D4]].
    apply (vsat_safe V_gs V_ds material geometry temperature Hpos (HT0 HT)).
    intros E.
    assert (Hc : 0 < E_c * L).
    { eapply in_range_pos;
        [|apply (range_critical_voltage V_gs V_ds material geometry
                   temperature Hrange HT)].
      vm_compute; reflexivity. }
    fold mu_300 E_c L in E. rewrite E in Hds. lra.
Qed.

(** C8 for Silicon on the one-micrometre device at 26.85 C. *)
Lemma C8_witness :
  returns (Basic.calculate_drain_current 3 1 Silicon geometry_1um)
  /\ returns (Simple.calculate_with_short_channel_effects
                3 1 Silicon geometry_1um (Some 26.85))
  /\ returns (VSat.calculate_with_short_channel_effects
                3 1 Silicon geometry_1um (Some 26.85)).
Proof.
  assert (Hrange : operating_range 3 1 Silicon geometry_1um).
  { unfold operating_range, in_range. split_conj; vm_compute; discriminate. }
  assert (HT : in_range 1e-3 1e6 (Spec.kelvin (default 300 (Some 26.85))))
    by (split; vm_compute; discriminate).
  assert (Hkeys : required_keys Silicon geometry_1um)
    by (unfold required_keys; split_conj; eexists; vm_compute; reflexivity).
  destruct (C8_no_arithmetic_exception 3 1 Silicon geometry_1um (Some 26.85)
              Hrange) as ((Hb & _) & Hs & Hv).
  split; [exact Hb|]. split.
  - apply (proj1 (Hs HT)). exact Hkeys.
  - assert (H0 : (0 <= 1)%Q) by discriminate.
    apply (proj1 (Hv HT H0)). exact Hkeys.
Defined.

(** C9. The breakdown-voltage estimate is the product of the breakdown
    field converted from MV/cm to V/cm (factor 1e6) and the thickness
    converted to cm (factor 1e-4 on the argument, which is therefore in
    micrometres); there is no case distinction.  For Silicon (0.3 MV/cm,
    also the default) and 100 nm = 0.1 um = 1e-5 cm it returns 3 V. *)
Theorem C9_breakdown_voltage_linear_scaling (material : dict) (thickness : Q) :
  Basic.calculate_breakdown_voltage material thickness
    == (get material "breakdown_field_value" 0.3 * 1e6) * (thickness * 1e-4)
  /\ 0.1 * 1e-4 == 1e-5
  /\ 0.3 * 1e6 * 1e-5 == 3
  /\ Basic.calculate_breakdown_voltage Silicon 0.1 == 3
  /\ Basic.calculate_breakdown_voltage ∅ 0.1 == 3.
Proof.
  split.
  - unfold Basic.calculate_breakdown_voltage. ring.
  - split_conj; vm_compute; reflexivity.
Qed.

(** C10. The result of the basic evaluator depends only on the voltages,
    the material's [electron_mobility_value] and the geometry's [C_ox],
    [width], [length] and [V_th]: two materials that agree on the mobility
    entry (and differ anywhere else), with geometries that agree on those
    four entries, give the same current and region. *)
Theorem C10_basic_evaluator_reads_only_mobility
    (V_gs V_ds : Q) (material1 material2 geometry1 geometry2 : dict) :
  material1 !! "electron_mobility_value"
    = material2 !! "electron_mobility_value" ->
  geometry1 !! "C_ox" = geometry2 !! "C_ox" ->
  geometry1 !! "width" = geometry2 !! "width" ->
  geometry1 !! "length" = geometry2 !! "length" ->
  geometry1 !! "V_th" = geometry2 !! "V_th" ->
  Basic.calculate_drain_current V_gs V_ds material1 geometry1
    = Basic.calculate_drain_current V_gs V_ds material2 geometry2.
Proof.
  intros Hmu HC HW HL HV. unfold Basic.calculate_drain_current, get.
  now rewrite Hmu, HC, HW, HL, HV.
Qed.

(** C10 for Silicon against a material that shares only its mobility. *)
Lemma C10_witness :
  Basic.calculate_drain_current 3 1 Silicon {[ "V_th" := 0.5 ]}
  = Basic.calculate_drain_current 3 1 Silicon_scrambled
      {[ "V_th" := 0.5; "oxide_thickness" := 2e-9 ]}.
Proof.
  apply C10_basic_evaluator_reads_only_mobility; vm_compute; reflexivity.
Defined.

(** * Further properties of the evaluators *)

(** ** The basic evaluator: failure, scaling, sign *)

Lemma basic_zero_length (V_gs V_ds : Q) (material geometry : dict) :
  get geometry "V_th" 0.7 < V_gs ->
  get geometry "length" 1e-6 == 0 ->
  Basic.calculate_drain_current V_gs V_ds material geometry
  = Raise ZeroDivisionError.
Proof.
  intros Hon HL. unfold Basic.calculate_drain_current.
  apply Qle_bool_false in Hon. rewrite Hon.
  rewrite (div_raise _ _ HL). now destruct (Qlt_bool _ _).
Qed.

(** X1. With the two operands of [**], [V_ds] and [V_gs - V_th], at most
    1e150 in magnitude, so that their squares are finite doubles, the basic
    evaluator fails only by dividing by a zero channel length, and only on
    the conducting path: it returns exactly when the device is cut off or
    the length is nonzero, and otherwise raises [ZeroDivisionError]. *)
Theorem X1_basic_evaluator_returns_iff
    (V_gs V_ds : Q) (material geometry : dict) :
  let L := get geometry "length" 1e-6 in
  let V_th := get geometry "V_th" 0.7 in
  let r := Basic.calculate_drain_current V_gs V_ds material geometry in
  Binary64.squares_safely V_ds ->
  Binary64.squares_safely (V_gs - V_th) ->
  (returns r <-> V_gs <= V_th \/ ~ L == 0)
  /\ (~ returns r -> r = Raise ZeroDivisionError)
  /\ Binary64.finite (V_ds ^ 2)
  /\ Binary64.finite ((V_gs - V_th) ^ 2).
Proof.
  intros L V_th r Hds Hgt.
  assert (Hcases : (V_gs <= V_th \/ ~ L == 0) /\ returns r
                   \/ (V_th < V_gs /\ L == 0) /\ r = Raise ZeroDivisionError).
  { destruct (Qlt_le_dec V_th V_gs) as [Hon | Hoff].
    - destruct (Qeq_dec L 0) as [HL | HL].
      + right. split; [now split|]. now apply basic_zero_length.
      + left. split; [now right|].
        destruct (basic_profile V_gs V_ds material geometry HL)
          as (I_d & reg & E & _).
        unfold r. rewrite E. exact I.
    - left. split; [now left|]. unfold r.
      rewrite (basic_cut_off V_gs V_ds material geometry Hoff). exact I. }
  split; [|split; [|split; now apply squares_safely_finite]].
  - destruct Hcases as [[Hc Hr] | [[Hon HL] Hr]]; [tauto|].
    rewrite Hr. simpl. split; [contradiction|].
    intros [Hoff | HL0]; [lra | contradiction].
  - destruct Hcases as [[Hc Hr] | [[Hon HL] Hr]]; [|intros _; exact Hr].
    intros Hn. contradiction.
Qed.

(** X1 with a zero length: cut off at [V_gs = 0.5], failing at [V_gs = 3]. *)
Lemma X1_witness :
  returns (Basic.calculate_drain_current 0.5 1 Silicon {[ "length" := 0 ]})
  /\ Basic.calculate_drain_current 3 1 Silicon {[ "length" := 0 ]}
     = Raise ZeroDivisionError.
Proof.
  split.
  - refine (proj2 (proj1 (X1_basic_evaluator_returns_iff 0.5 1 Silicon
                            {[ "length" := 0 ]} _ _)) _);
      [vm_compute; discriminate | vm_compute; discriminate |].
    left. vm_compute. discriminate.
  - refine (proj1 (proj2 (X1_basic_evaluator_returns_iff 3 1 Silicon
                            {[ "length" := 0 ]} _ _)) _);
      [vm_compute; discriminate | vm_compute; discriminate |].
    vm_compute. intros H. exact H.
Defined.

(** X2. Scaling law: multiplying the channel width by [c] multiplies the
    drain current by [c] and leaves the operating region unchanged. *)
Theorem X2_current_proportional_to_width
    (V_gs V_ds c : Q) (material geometry : dict) (I_d : Q) (reg : region) :
  Basic.calculate_drain_current V_gs V_ds material geometry = Ok (I_d, reg) ->
  exists I_d',
    Basic.calculate_drain_current V_gs V_ds material
      (<["width" := c * get geometry "width" 10e-6]> geometry)
    = Ok (I_d', reg)
    /\ I_d' == c * I_d.
Proof.
  intros H.
  set (geometry' := <["width" := c * get geometry "width" 10e-6]> geometry).
  assert (HW : get geometry' "width" 10e-6 = c * get geometry "width" 10e-6)
    by (unfold get, geometry'; now rewrite lookup_insert_eq).
  assert (Hother : forall key dflt, key <> "width" ->
             get geometry' key dflt = get geometry key dflt).
  { intros key dflt Hne. unfold get, geometry'.
    now rewrite lookup_insert_ne by congruence. }
  pose proof (Hother "length" 1e-6 ltac:(discriminate)) as HL.
  pose proof (Hother "V_th" 0.7 ltac:(discriminate)) as HV.
  pose proof (Hother "C_ox" 3.45e-3 ltac:(discriminate)) as HC.
  destruct (Qlt_le_dec (get geometry "V_th" 0.7) V_gs) as [Hon | Hoff].
  - assert (HL0 : ~ get geometry "length" 1e-6 == 0).
    { intros HL0. rewrite (basic_zero_length _ _ _ _ Hon HL0) in H.
      discriminate. }
    destruct (Qlt_le_dec V_ds (V_gs - get geometry "V_th" 0.7))
      as [Hlin | Hsat].
    + rewrite (basic_linear V_gs V_ds material geometry Hon Hlin HL0) in H.
      injection H as <- <-. eexists. split.
      * apply basic_linear; rewrite ?HV, ?HL; assumption.
      * rewrite HW, HV, HL, HC. field.
        split_conj; first [exact HL0 | discriminate].
    + rewrite (basic_saturation V_gs V_ds material geometry Hon Hsat HL0) in H.
      injection H as <- <-. eexists. split.
      * apply basic_saturation; rewrite ?HV, ?HL; assumption.
      * rewrite HW, HV, HL, HC. field.
        split_conj; first [exact HL0 | discriminate].
  - rewrite (basic_cut_off V_gs V_ds material geometry Hoff) in H.
    injection H as <- <-. eexists. split.
    + apply basic_cut_off. now rewrite HV.
    + ring.
Qed.

(** X2 for Silicon at twice the default width. *)
Lemma X2_witness :
  exists I_d',
    Basic.calculate_drain_current 3 1 Silicon
      (<["width" := 2 * get ∅ "width" 10e-6]> ∅) = Ok (I_d', Linear)
    /\ I_d' == 2 * (1400 * 1e-4 * 3.45e-3 * (10e-6 / 1e-6)
                    * ((3 - 0.7) * 1 - 0.5 * 1 ^ 2)).
Proof.
  refine (X2_current_proportional_to_width 3 1 2 Silicon ∅ _ Linear _).
  vm_compute. reflexivity.
Defined.



(** ** The extended evaluator: when it returns and how it fails *)

Section Outcomes.

Context {A B : Type}.

Lemma post_bind (m : result A) (k : A -> result B)
    (Q : A -> Prop) (R : B -> Prop) (E : exn -> Prop) :
  post m Q E -> (forall a, Q a -> post (k a) R E) -> post (bind m k) R E.
Proof. destruct m as [a|e]; simpl; auto. Qed.

Lemma post_weaken (m : result A) (Q Q' : A -> Prop) (E : exn -> Prop) :
  post m Q E -> (forall a, Q a -> Q' a) -> post m Q' E.
Proof. destruct m as [a|e]; simpl; auto. Qed.

End Outcomes.

Lemma post_div (x y : Q) (E : exn -> Prop) :
  E ZeroDivisionError -> post (div x y) (fun v => ~ y == 0 /\ v = x / y) E.
Proof.
  intros HE. unfold div. destruct (Qeq_bool y 0) eqn:Ey; simpl; [exact HE|].
  split; [|reflexivity]. intros Hy. apply Qeq_bool_iff in Hy. congruence.
Qed.

Lemma post_item (d : dict) (key : string) (E : exn -> Prop) :
  E (KeyError key) -> post (item d key) (fun v => d !! key = Some v) E.
Proof. intros HE. unfold item. now destruct (d !! key). Qed.

Lemma expected_zero_division : expected_failure ZeroDivisionError.
Proof. now left. Qed.

Lemma expected_key_length : expected_failure (KeyError "length").
Proof. right. now left. Qed.

Lemma expected_key_width : expected_failure (KeyError "width").
Proof. right. right. now left. Qed.

Lemma expected_key_mobility :
  expected_failure (KeyError "electron_mobility_value").
Proof. right. right. now right. Qed.

Lemma post_then {A B} (m : result A) (k : A -> result B)
    (R : B -> Prop) (E : exn -> Prop) :
  post m (fun _ => True) E -> (forall a, post (k a) R E) ->
  post (bind m k) R E.
Proof. intros Hm Hk. apply (post_bind m k (fun _ => True)); auto. Qed.

Lemma post_div_any (x y : Q) (E : exn -> Prop) :
  E ZeroDivisionError -> post (div x y) (fun _ => True) E.
Proof.
  intros HE. apply (post_weaken _ _ _ _ (post_div x y E HE)). trivial.
Qed.

Lemma post_item_any (d : dict) (key : string) (E : exn -> Prop) :
  E (KeyError key) -> post (item d key) (fun _ => True) E.
Proof.
  intros HE. apply (post_weaken _ _ _ _ (post_item d key E HE)). trivial.
Qed.

(** One step of a failure analysis: the first call of a sequence fails only
    as expected. *)
Ltac failure_step :=
  apply post_then;
  [ first [ apply post_div_any, expected_zero_division
          | apply post_item_any, expected_key_length
          | apply post_item_any, expected_key_width
          | apply post_item_any, expected_key_mobility
          | idtac ] | ].

(** X4. With the three operands of [**], [300/T], [V_ds] and
    [V_gs - V_th_sc], at most 1e150 in magnitude, the simple extended
    variant returns exactly when the entries [length], [width] and
    [electron_mobility_value] are present and the Kelvin temperature, the
    channel length and the oxide thickness are all nonzero, in every
    region: unlike the basic evaluator it divides by the length even when
    the device is cut off. *)
Theorem X4_simple_variant_returns_iff
    (V_gs V_ds : Q) (material geometry : dict) (temperature : option Q) :
  let T := Spec.kelvin (default 300 temperature) in
  let V_th_sc :=
    Spec.V_th_eff (get geometry "V_th" 0.7) T
      (get geometry "length" 1e-6) V_ds in
  Binary64.squares_safely (300 / T) ->
  Binary64.squares_safely V_ds ->
  Binary64.squares_safely (V_gs - V_th_sc) ->
  (returns (Simple.calculate_with_short_channel_effects
              V_gs V_ds material geometry temperature)
   <-> exists L W mu_300,
         geometry !! "length" = Some L
         /\ geometry !! "width" = Some W
         /\ material !! "electron_mobility_value" = Some mu_300
         /\ ~ T == 0
         /\ ~ L == 0
         /\ ~ get geometry "oxide_thickness" 2e-9 == 0)
  /\ Binary64.finite ((300 / T) ^ 2)
  /\ Binary64.finite (V_ds ^ 2)
  /\ Binary64.finite ((V_gs - V_th_sc) ^ 2).
Proof.
  intros T V_th_sc HT Hds Hgt.
  split; [|split_conj; now apply squares_safely_finite].
  split.
  - intros Hr. apply returns_Ok_inv in Hr as [res Hres].
    exact (simple_inv _ _ _ _ _ _ Hres).
  - intros (L & W & mu_300 & HL & HW & Hmu & Hdef).
    rewrite (simple_eval V_gs V_ds _ _ _ _ _ _ HL HW Hmu Hdef). exact I.
Qed.

(** X4 in cut-off: Silicon on the one-micrometre device returns at 27 C,
    and the same call with a zero length does not. *)
Lemma X4_witness :
  returns (Simple.calculate_with_short_channel_effects
             0 0 Silicon geometry_1um (Some 27))
  /\ ~ returns (Simple.calculate_with_short_channel_effects
                  0 0 Silicon (<["length" := 0]> geometry_1um) (Some 27)).
Proof.
  split.
  - refine (proj2 (proj1 (X4_simple_variant_returns_iff
                            0 0 Silicon geometry_1um (Some 27) _ _ _)) _);
      [vm_compute; discriminate | vm_compute; discriminate
      | vm_compute; discriminate |].
    exists 1e-6, 10e-6, 1400.
    split_conj; try (vm_compute; reflexivity); vm_compute; discriminate.
  - intros Hr.
    refine (_ (proj1 (proj1 (X4_simple_variant_returns_iff
                               0 0 Silicon (<["length" := 0]> geometry_1um)
                               (Some 27) _ _ _)) Hr));
      [|vm_compute; discriminate | vm_compute; discriminate
       | vm_compute; discriminate].
    intros (L & W & mu_300 & HL & _ & _ & _ & HL0 & _).
    vm_compute in HL. injection HL as <-. apply HL0. reflexivity.
Defined.

(** X5. A missing entry is reported before anything else is computed, in
    the order [length], [width], [electron_mobility_value], by both
    variants of the extended evaluator, whatever the other inputs are. *)
Theorem X5_missing_entry_raises_KeyError
    (V_gs V_ds : Q) (material geometry : dict) (temperature : option Q) :
  let rs := Simple.calculate_with_short_channel_effects
              V_gs V_ds material geometry temperature in
  let rv := VSat.calculate_with_short_channel_effects
              V_gs V_ds material geometry temperature in
  (geometry !! "length" = None ->
     rs = Raise (KeyError "length") /\ rv = Raise (KeyError "length"))
  /\ (is_Some (geometry !! "length") -> geometry !! "width" = None ->
     rs = Raise (KeyError "width") /\ rv = Raise (KeyError "width"))
  /\ (is_Some (geometry !! "length") -> is_Some (geometry !! "width") ->
      material !! "electron_mobility_value" = None ->
     rs = Raise (KeyError "electron_mobility_value")
     /\ rv = Raise (KeyError "electron_mobility_value")).
Proof.
  intros rs rv. unfold rs, rv,
    Simple.calculate_with_short_channel_effects,
    VSat.calculate_with_short_channel_effects,
    Simple._temperature_dependent_mobility,
    VSat._temperature_dependent_mobility, item.
  split; [|split].
  - intros ->. now split.
  - intros [L ->] ->. now split.
  - intros [L ->] [W ->] ->. now split.
Qed.

(** X5 for a geometry without entries and for a material without mobility. *)
Lemma X5_witness :
  VSat.calculate_with_short_channel_effects 3 1 Silicon ∅ (Some (-273.15))
  = Raise (KeyError "length")
  /\ Simple.calculate_with_short_channel_effects 3 1 ∅ geometry_1um None
     = Raise (KeyError "electron_mobility_value").
Proof.
  split.
  - refine (proj2 (proj1 (X5_missing_entry_raises_KeyError
                            3 1 Silicon ∅ (Some (-273.15))) _)).
    reflexivity.
  - refine (proj1 (proj2 (proj2 (X5_missing_entry_raises_KeyError
                                   3 1 ∅ geometry_1um None)) _ _ _)).
    + exists 1e-6. reflexivity.
    + exists 10e-6. reflexivity.
    + reflexivity.
Defined.

(** X6. With the three operands of [**], [300/T], [V_ds] and
    [V_gs - V_th_sc], at most 1e150 in magnitude, so that no square
    overflows, the extended evaluator fails only by a division by zero or
    by one of its three required entries missing.  In particular the
    velocity-saturation variant never reads its local [V_ds_sat] unbound:
    the final [V_gs > V_th_sc] test succeeds only on the path that set
    it. *)
Theorem X6_extended_evaluator_failures
    (V_gs V_ds : Q) (material geometry : dict) (temperature : option Q)
    (e : exn) :
  let T := Spec.kelvin (default 300 temperature) in
  let V_th_sc :=
    Spec.V_th_eff (get geometry "V_th" 0.7) T
      (get geometry "length" 1e-6) V_ds in
  Binary64.squares_safely (300 / T) ->
  Binary64.squares_safely V_ds ->
  Binary64.squares_safely (V_gs - V_th_sc) ->
  (VSat.calculate_with_short_channel_effects
     V_gs V_ds material geometry temperature = Raise e ->
   expected_failure e)
  /\ (Simple.calculate_with_short_channel_effects
        V_gs V_ds material geometry temperature = Raise e ->
      expected_failure e)
  /\ Binary64.finite ((300 / T) ^ 2)
  /\ Binary64.finite (V_ds ^ 2)
  /\ Binary64.finite ((V_gs - V_th_sc) ^ 2).
Proof.
  intros T V_th_sc HT Hds Hgt.
  cut ((VSat.calculate_with_short_channel_effects
          V_gs V_ds material geometry temperature = Raise e ->
        expected_failure e)
       /\ (Simple.calculate_with_short_channel_effects
             V_gs V_ds material geometry temperature = Raise e ->
           expected_failure e)).
  { intros [Hv Hs]. split_conj; try assumption;
      now apply squares_safely_finite. }
  clear T V_th_sc HT Hds Hgt.
  assert (Hpost : forall (A : Type) (m : result A),
             post m (fun _ => True) expected_failure ->
             m = Raise e -> expected_failure e).
  { intros A m Hm ->. exact Hm. }
  split; apply Hpost.
  - unfold VSat.calculate_with_short_channel_effects,
      VSat._temperature_dependent_mobility, VSat._dibl_effect,
      VSat._channel_length_modulation.
    failure_step. intros L. failure_step. intros W.
    failure_step. { failure_step. intros mu. failure_step. intros r. exact I. }
    intros mu_n.
    failure_step. { failure_step. intros eta. exact I. }
    intros V_th_sc.
    failure_step. intros lam. failure_step. intros C_ox.
    failure_step. intros E_c.
    eapply (post_bind _ _
              (fun res => Qle_bool V_gs V_th_sc = false -> is_Some (snd res))).
    { destruct (Qle_bool V_gs V_th_sc) eqn:Ecut; [simpl; discriminate|].
      failure_step. intros g_c. failure_step. intros V_ds_sat.
      destruct (Qlt_bool V_ds V_ds_sat).
      - failure_step. intros b. failure_step. intros d_c.
        failure_step. intros I_d. simpl. eauto.
      - failure_step. intros b. failure_step. intros g_c'.
        failure_step. intros I_d_sat. simpl. eauto. }
    intros [[I_d reg] V_ds_sat] Hsat. simpl in Hsat.
    apply post_then; [|intros factor; exact I].
    destruct (Qlt_bool V_th_sc V_gs) eqn:Eon; [|exact I].
    apply Qlt_bool_iff in Eon.
    destruct Hsat as [s ->]; [now apply Qle_bool_false|].
    apply post_div_any, expected_zero_division.
  - unfold Simple.calculate_with_short_channel_effects,
      Simple._temperature_dependent_mobility, Simple._dibl_effect,
      Simple._channel_length_modulation.
    failure_step. intros L. failure_step. intros W.
    failure_step. { failure_step. intros mu. failure_step. intros r. exact I. }
    intros mu_n.
    failure_step. { failure_step. intros eta. exact I. }
    intros V_th_sc.
    failure_step. intros lam. failure_step. intros C_ox.
    apply post_then; [|intros [I_d reg]; exact I].
    destruct (Qle_bool V_gs V_th_sc); [exact I|].
    destruct (Qlt_bool V_ds (V_gs - V_th_sc));
      failure_step; intros W_L; exact I.
Qed.

(** X6 at absolute zero, where the mobility model divides by zero. *)
Lemma X6_witness : expected_failure ZeroDivisionError.
Proof.
  refine (proj1 (X6_extended_evaluator_failures
                   3 1 Silicon geometry_1um (Some (-273.15))
                   ZeroDivisionError _ _ _) _);
    [vm_compute; discriminate | vm_compute; discriminate
    | vm_compute; discriminate |].
  vm_compute. reflexivity.
Defined.

(** ** The two variants of the extended evaluator side by side *)

Lemma vsat_defined_simple_defined
    (V_gs V_ds : Q) (material geometry : dict) (temperature : option Q)
    (L mu_300 : Q) :
  ClosedForm.vsat_defined V_gs V_ds material geometry temperature L mu_300 ->
  ClosedForm.simple_defined geometry temperature L.
Proof. intros (HT & HL & Ht & _). now repeat split. Qed.



Section VelocitySaturation.
Import ClosedForm.

Variables (V_gs V_ds : Q) (material geometry : dict) (temperature : option Q).
Variables (L mu_300 : Q).

Hypothesis HLpos : 0 < L.
Hypothesis Hmupos : 0 < mu_300.
Hypothesis Hvpos : 0 < get material "saturation_velocity" 1e7.
Hypothesis HT : ~ T temperature == 0.

Lemma critical_voltage_pos : 0 < E_c material temperature mu_300 * L.
Proof.
  pose proof (critical_field_pos material temperature mu_300 Hmupos HT Hvpos).
  nra.
Qed.

(** In conduction the saturation voltage lies strictly between 0 and the
    gate overdrive. *)
Lemma saturation_voltage_bounds :
  0 < V_gt V_gs V_ds geometry temperature L ->
  0 < V_ds_sat V_gs V_ds material geometry temperature L mu_300
  /\ V_ds_sat V_gs V_ds material geometry temperature L mu_300
     < V_gt V_gs V_ds geometry temperature L.
Proof.
  intros Hon. pose proof critical_voltage_pos as Hc.
  unfold V_ds_sat, Spec.V_ds_sat.
  set (g := V_gt V_gs V_ds geometry temperature L) in *.
  set (c := E_c material temperature mu_300 * L) in *.
  assert (Hq : 0 < g / c) by (now apply Qdiv_pos).
  split.
  - apply Qdiv_pos; lra.
  - apply Qlt_shift_div_r; [lra | nra].
Qed.

End VelocitySaturation.



(** X9. Wherever the velocity-saturation variant is in its linear region at
    a non-negative drain voltage, the simple variant is in its linear region
    too and returns at least as much current: velocity saturation only
    lowers the linear-region current. *)
Theorem X9_velocity_saturation_lowers_linear_current
    (V_gs V_ds : Q) (material geometry : dict) (temperature : option Q)
    (L W mu_300 : Q) :
  let rs := Simple.calculate_with_short_channel_effects
              V_gs V_ds material geometry temperature in
  let rv := VSat.calculate_with_short_channel_effects
              V_gs V_ds material geometry temperature in
  geometry !! "length" = Some L ->
  geometry !! "width" = Some W ->
  material !! "electron_mobility_value" = Some mu_300 ->
  0 < L -> 0 <= W -> 0 < get geometry "oxide_thickness" 2e-9 ->
  0 < mu_300 -> 0 <= get material "dielectric_constant" 3.9 ->
  0 < get material "saturation_velocity" 1e7 ->
  0 <= V_ds ->
  operating_region rv = Some Linear ->
  operating_region rs = Some Linear
  /\ exists I_v I_s,
       drain_current rv = Some I_v /\ drain_current rs = Some I_s
       /\ 0 <= I_v /\ I_v <= I_s.
Proof.
  intros rs rv HL HW Hmu HLpos HWpos Ht Hmupos He Hv Hds Hlin.
  assert (Hr : returns rv) by (unfold operating_region in Hlin; now destruct rv).
  apply returns_Ok_inv in Hr as [res Hres].
  destruct (vsat_inv _ _ _ _ _ _ Hres)
    as (L' & W' & mu' & HL' & HW' & Hmu' & Hdef).
  assert (L' = L) by congruence. assert (W' = W) by congruence.
  assert (mu' = mu_300) by congruence. subst L' W' mu'.
  pose proof (vsat_defined_simple_defined _ _ _ _ _ _ _ Hdef) as Hsdef.
  assert (HT : ~ ClosedForm.T temperature == 0) by (apply Hdef).
  pose proof (critical_voltage_pos material temperature L mu_300
                HLpos Hmupos Hv HT) as Hc.
  unfold rs, rv in *.
  rewrite (vsat_eval V_gs V_ds _ _ _ _ _ _ HL HW Hmu Hdef) in Hlin |- *.
  rewrite (simple_eval V_gs V_ds _ _ _ _ _ _ HL HW Hmu Hsdef).
  unfold ClosedForm.simple_value, ClosedForm.vsat_value,
    operating_region, drain_current in *.
  cbn [fst snd] in *.
  destruct (Qle_bool V_gs (ClosedForm.V_th_sc V_ds geometry temperature L))
    eqn:Ecut; [discriminate|].
  destruct (Qlt_bool V_ds
              (ClosedForm.V_ds_sat V_gs V_ds material geometry temperature
                 L mu_300)) eqn:Esat; [|discriminate].
  apply Qle_bool_false in Ecut. apply Qlt_bool_iff in Esat.
  assert (Hgt : 0 < ClosedForm.V_gt V_gs V_ds geometry temperature L)
    by (unfold ClosedForm.V_gt; lra).
  destruct (saturation_voltage_bounds V_gs V_ds material geometry temperature
              L mu_300 HLpos Hmupos Hv HT Hgt) as [Hs0 Hs1].
  assert (Elin : Qlt_bool V_ds (ClosedForm.V_gt V_gs V_ds geometry temperature L)
                 = true) by (apply Qlt_bool_iff; lra).
  rewrite Elin. cbn [fst snd]. split; [reflexivity|].
  eexists _, _. split; [reflexivity|]. split; [reflexivity|].
  pose proof (gain_nonneg material geometry temperature L W mu_300
                (Qlt_le_weak _ _ Hmupos) He Ht HWpos HLpos) as Hk.
  unfold Spec.linear_current.
  assert (Hlt : V_ds < ClosedForm.V_gt V_gs V_ds geometry temperature L) by lra.
  clear Esat Elin Hs0 Hs1 Hlin Hdef Hsdef Hres.
  set (g := ClosedForm.V_gt V_gs V_ds geometry temperature L) in *.
  set (c := ClosedForm.E_c material temperature mu_300 * L) in *.
  set (k := ClosedForm.mu_n temperature mu_300
            * ClosedForm.C_ox material geometry * (W / L)) in *.
  assert (Hq : 0 <= V_ds / c) by (now apply Qdiv_nonneg).
  assert (He0 : 0 <= g * V_ds - 0.5 * V_ds ^ 2) by nra.
  assert (Hke : 0 <= k * (g * V_ds - 0.5 * V_ds ^ 2))
    by (now apply Qmult_le_0_compat).
  assert (Eq : ClosedForm.mu_n temperature mu_300
               * ClosedForm.C_ox material geometry * W / L
               * (g * V_ds - 0.5 * V_ds ^ 2) / (1 + V_ds / c)
               == k * (g * V_ds - 0.5 * V_ds ^ 2) / (1 + V_ds / c)).
  { unfold k. field. split_conj; lra. }
  rewrite Eq. clearbody k g c.
  revert Hke. generalize (k * (g * V_ds - 0.5 * V_ds ^ 2)). intros I Hke.
  split.
  - apply Qdiv_nonneg; lra.
  - apply Qle_shift_div_r; [lra | nra].
Qed.

(** X9 for Silicon on the one-micrometre device, ten microvolts across the
    channel. *)
Lemma X9_witness :
  operating_region
    (Simple.calculate_with_short_channel_effects
       1.6 0.00001 Silicon geometry_1um (Some 26.85))
  = Some Linear.
Proof.
  refine (proj1 (X9_velocity_saturation_lowers_linear_current
                   1.6 0.00001 Silicon geometry_1um (Some 26.85)
                   1e-6 10e-6 1400 _ _ _ _ _ _ _ _ _ _ _));
    vm_compute; (reflexivity || discriminate).
Defined.

(** ** Threshold and mobility corrections *)

Lemma diagnostic_returns
    (key : string) (r : result (Q * region * dict)) (v : Q) :
  diagnostic key r = Some v -> returns r.
Proof. destruct r; [intros _; exact I | discriminate]. Qed.

Lemma simple_effective_vth
    (V_gs V_ds : Q) (material geometry : dict) (temperature : option Q)
    (L v : Q) :
  geometry !! "length" = Some L ->
  diagnostic "effective_vth"
    (Simple.calculate_with_short_channel_effects
       V_gs V_ds material geometry temperature) = Some v ->
  ~ L == 0
  /\ v = get geometry "V_th" 0.7
         - 0.002 * (default 300 temperature + 273.15 - 300)
         - 0.1 / (L * 1e6) * V_ds.
Proof.
  intros HL Hv. pose proof (diagnostic_returns _ _ _ Hv) as Hr.
  apply returns_Ok_inv in Hr as [res Hres].
  destruct (simple_inv _ _ _ _ _ _ Hres)
    as (L' & W & mu_300 & HL' & HW & Hmu & Hdef).
  assert (L' = L) by congruence. subst L'.
  rewrite (simple_eval _ _ _ _ _ _ _ _ HL HW Hmu Hdef) in Hv.
  unfold diagnostic, ClosedForm.simple_value in Hv. cbn [snd] in Hv.
  rewrite lookup_insert_eq in Hv. injection Hv as <-.
  split; [apply Hdef | reflexivity].
Qed.

(** X10. The effective threshold the extended evaluator reports never
    rises when the device gets hotter, the channel shorter, or the
    (non-negative) drain voltage higher; the gate voltage and the material
    play no part in it. *)
Theorem X10_effective_threshold_falls
    (V_gs V_gs' V_ds V_ds' : Q) (material material' geometry geometry' : dict)
    (t t' L L' v v' : Q) :
  geometry !! "length" = Some L ->
  geometry' !! "length" = Some L' ->
  get geometry' "V_th" 0.7 = get geometry "V_th" 0.7 ->
  0 < L' -> L' <= L -> 0 <= V_ds -> V_ds <= V_ds' -> t <= t' ->
  diagnostic "effective_vth"
    (Simple.calculate_with_short_channel_effects
       V_gs V_ds material geometry (Some t)) = Some v ->
  diagnostic "effective_vth"
    (Simple.calculate_with_short_channel_effects
       V_gs' V_ds' material' geometry' (Some t')) = Some v' ->
  v' <= v.
Proof.
  intros HL HL' HV HL0 HLL Hds Hds' Ht Hv Hv'.
  destruct (simple_effective_vth _ _ _ _ _ _ _ HL Hv) as [_ ->].
  destruct (simple_effective_vth _ _ _ _ _ _ _ HL' Hv') as [_ ->].
  rewrite HV. cbn [default from_option id].
  assert (HLpos : 0 < L) by lra.
  pose proof (eta_pos L HLpos) as He0. unfold Spec.eta in He0.
  assert (He : 0.1 / (L * 1e6) <= 0.1 / (L' * 1e6)).
  { plain_literals.
    apply Qle_shift_div_l; [lra|].
    assert (E : 0.1 / (L * 1000000) * (L' * 1000000)
                == 0.1 * (L' / L)) by (field; lra).
    rewrite E.
    assert (L' / L <= 1) by (apply Qle_shift_div_r; lra).
    lra. }
  revert He He0. generalize (0.1 / (L * 1e6)) (0.1 / (L' * 1e6)).
  intros e e' He He0.
  generalize (get geometry "V_th" 0.7). intros V0.
  assert (0 <= e' * (V_ds' - V_ds)) by (apply Qmult_le_0_compat; lra).
  assert (0 <= (e' - e) * V_ds) by (apply Qmult_le_0_compat; lra).
  lra.
Qed.

(** X10 between the one-micrometre device at 26.85 C, 0.5 V and the
    100 nm device at 85 C, 1 V. *)
Lemma X10_witness :
  exists v v',
    diagnostic "effective_vth"
      (Simple.calculate_with_short_channel_effects
         1.6 0.5 Silicon geometry_1um (Some 26.85)) = Some v
    /\ diagnostic "effective_vth"
         (Simple.calculate_with_short_channel_effects
            0 1 GalliumNitride geometry_100nm (Some 85)) = Some v'
    /\ v' <= v.
Proof.
  exists (0.7 - 0.002 * (26.85 + 273.15 - 300) - 0.1 / (1e-6 * 1e6) * 0.5),
         (0.7 - 0.002 * (85 + 273.15 - 300) - 0.1 / (1e-7 * 1e6) * 1).
  split; [vm_compute; reflexivity|]. split; [vm_compute; reflexivity|].
  refine (X10_effective_threshold_falls
            1.6 0 0.5 1 Silicon GalliumNitride geometry_1um geometry_100nm
            26.85 85 1e-6 1e-7 _ _ _ _ _ _ _ _ _ _ _ _);
    vm_compute; (reflexivity || discriminate).
Defined.

(** X11. For a non-negative reference mobility and Kelvin temperatures
    [0 < T <= T'] with [300/T] at most 1e150, so that its square is a
    finite double, the mobility helper returns at both temperatures a
    non-negative mobility that does not increase with the temperature. *)
Theorem X11_mobility_falls_with_temperature
    (material : dict) (mu_300 T T' : Q) :
  material !! "electron_mobility_value" = Some mu_300 ->
  0 <= mu_300 -> 0 < T -> T <= T' ->
  Binary64.squares_safely (300 / T) ->
  (exists mu mu',
     Simple._temperature_dependent_mobility material T = Ok mu
     /\ Simple._temperature_dependent_mobility material T' = Ok mu'
     /\ 0 <= mu' /\ mu' <= mu)
  /\ Binary64.finite ((300 / T) ^ 2)
  /\ Binary64.finite ((300 / T') ^ 2).
Proof.
  intros Hmu Hmu0 HT HTT Hsafe.
  assert (Hr' : 0 < 300 / T') by (apply Qdiv_pos; lra).
  assert (Hrr : 300 / T' <= 300 / T).
  { apply Qle_shift_div_l; [lra|].
    assert (E : 300 / T' * T == 300 * (T / T')) by (field; lra).
    rewrite E.
    assert (T / T' <= 1) by (apply Qle_shift_div_r; lra).
    lra. }
  split; [|split; apply squares_safely_finite; [exact Hsafe|]].
  - unfold Simple._temperature_dependent_mobility.
    rewrite (item_Some _ _ _ Hmu). cbn [bind].
    rewrite (div_ok 300 T), (div_ok 300 T') by lra. cbn [bind].
    eexists _, _. split; [reflexivity|]. split; [reflexivity|].
    revert Hr' Hrr. generalize (300 / T) (300 / T'). intros r r' Hr' Hrr.
    assert (r' ^ 2 <= r ^ 2) by nra. assert (0 <= r' ^ 2) by nra.
    split; nra.
  - unfold Binary64.squares_safely in *.
    rewrite Qabs_pos by lra.
    rewrite Qabs_pos in Hsafe by lra.
    eapply Qle_trans; [exact Hrr | exact Hsafe].
Qed.

(** X11 for Silicon between 300 K and 400 K. *)
Lemma X11_witness :
  exists mu mu',
    Simple._temperature_dependent_mobility Silicon 300 = Ok mu
    /\ Simple._temperature_dependent_mobility Silicon 400 = Ok mu'
    /\ 0 <= mu' /\ mu' <= mu.
Proof.
  refine (proj1 (X11_mobility_falls_with_temperature
                   Silicon 1400 300 400 _ _ _ _ _));
    vm_compute; (reflexivity || discriminate).
Defined.

(** ** Quantum corrections of the dashboard *)

Ltac nanometre_literals :=
  plain_literals;
  change 0.3e-9 with 0.0000000003 in *;
  change 3e-9 with 0.000000003 in *;
  change 1e-9 with 0.000000001 in *.

Lemma quantum_effects_eval (material : dict) (t_ox E_field : Q) :
  ~ t_ox + 0.3e-9 == 0 ->
  Simple.calculate_quantum_effects material t_ox E_field
  = Ok {[ "tunneling_probability" :=
            (if Qlt_bool t_ox 3e-9 then 1e-6 else 1e-9);
          "quantum_capacitance" :=
            get material "dielectric_constant" 3.9 * Simple.epsilon_0
            / (t_ox + 0.3e-9) ]}.
Proof.
  intros Ht. unfold Simple.calculate_quantum_effects.
  now rewrite (div_ok _ _ Ht).
Qed.

Lemma Qdiv_antitone (a x y : Q) : 0 <= a -> 0 < x -> x <= y -> a / y <= a / x.
Proof.
  intros Ha Hx Hxy. apply Qle_shift_div_l; [exact Hx|].
  assert (E : a / y * x == a * (x / y)) by (field; lra). rewrite E.
  assert (x / y <= 1) by (apply Qle_shift_div_r; lra).
  assert (0 <= x / y) by (apply Qdiv_nonneg; lra).
  nra.
Qed.

(** X12. For a positive oxide thickness and a positive dielectric constant
    the quantum correction returns, and the capacitance it reports is
    positive and strictly below the oxide capacitance the evaluators use
    for the same material and thickness. *)
Theorem X12_quantum_capacitance_below_oxide_capacitance
    (material : dict) (t_ox E_field : Q) :
  0 < t_ox -> 0 < get material "dielectric_constant" 3.9 ->
  exists d C_q C_ox,
    Simple.calculate_quantum_effects material t_ox E_field = Ok d
    /\ d !! "quantum_capacitance" = Some C_q
    /\ div (get material "dielectric_constant" 3.9 * Simple.epsilon_0) t_ox
       = Ok C_ox
    /\ 0 < C_q /\ C_q < C_ox.
Proof.
  intros Ht He.
  assert (Hq : 0 < t_ox + 0.3e-9) by (nanometre_literals; lra).
  rewrite quantum_effects_eval by lra. rewrite (div_ok _ t_ox) by lra.
  eexists _, _, _. split; [reflexivity|].
  split; [rewrite lookup_insert_ne by discriminate;
          now rewrite lookup_singleton_eq|].
  split; [reflexivity|].
  assert (Hn : 0 < get material "dielectric_constant" 3.9 * Simple.epsilon_0).
  { unfold Simple.epsilon_0. plain_literals. lra. }
  assert (Hut : t_ox < t_ox + 0.3e-9) by (nanometre_literals; lra).
  revert Hn Hq Hut.
  generalize (get material "dielectric_constant" 3.9 * Simple.epsilon_0)
             (t_ox + 0.3e-9).
  intros a u Ha Hu Hut. split; [now apply Qdiv_pos|].
  apply Qlt_shift_div_l; [exact Ht|].
  assert (E : a / u * t_ox == a * (t_ox / u)) by (field; lra). rewrite E.
  assert (t_ox / u < 1) by (apply Qlt_shift_div_r; lra).
  nra.
Qed.

(** X12 for Silicon at the dashboard's 2 nm oxide. *)
Lemma X12_witness :
  exists d C_q C_ox,
    Simple.calculate_quantum_effects Silicon 2e-9 1e8 = Ok d
    /\ d !! "quantum_capacitance" = Some C_q
    /\ div (get Silicon "dielectric_constant" 3.9 * Simple.epsilon_0) 2e-9
       = Ok C_ox
    /\ 0 < C_q /\ C_q < C_ox.
Proof.
  refine (X12_quantum_capacitance_below_oxide_capacitance
            Silicon 2e-9 1e8 _ _); vm_compute; reflexivity.
Defined.

(** X13. A thicker oxide never raises what the quantum correction reports:
    neither the tunnelling probability nor, for a non-negative dielectric
    constant, the quantum capacitance; the field argument plays no part. *)
Theorem X13_quantum_effects_fall_with_thickness
    (material : dict) (t_ox t_ox' E_field E_field' : Q) :
  0 < t_ox -> t_ox <= t_ox' -> 0 <= get material "dielectric_constant" 3.9 ->
  exists d d' p p' C C',
    Simple.calculate_quantum_effects material t_ox E_field = Ok d
    /\ Simple.calculate_quantum_effects material t_ox' E_field' = Ok d'
    /\ d !! "tunneling_probability" = Some p
    /\ d' !! "tunneling_probability" = Some p'
    /\ d !! "quantum_capacitance" = Some C
    /\ d' !! "quantum_capacitance" = Some C'
    /\ p' <= p /\ C' <= C.
Proof.
  intros Ht Htt He.
  assert (Hq : 0 < t_ox + 0.3e-9) by (nanometre_literals; lra).
  assert (Hq' : t_ox + 0.3e-9 <= t_ox' + 0.3e-9) by lra.
  rewrite !quantum_effects_eval by lra.
  eexists _, _, _, _, _, _.
  split; [reflexivity|]. split; [reflexivity|].
  split; [now rewrite lookup_insert_eq|].
  split; [now rewrite lookup_insert_eq|].
  split; [rewrite lookup_insert_ne by discriminate;
          now rewrite lookup_singleton_eq|].
  split; [rewrite lookup_insert_ne by discriminate;
          now rewrite lookup_singleton_eq|].
  split.
  - destruct (Qlt_bool t_ox' 3e-9) eqn:E'; destruct (Qlt_bool t_ox 3e-9) eqn:E;
      try discriminate.
    apply Qlt_bool_iff in E'. apply Qlt_bool_false in E. lra.
  - apply Qdiv_antitone; [|exact Hq|exact Hq'].
    unfold Simple.epsilon_0. plain_literals.
    apply Qmult_le_0_compat; [exact He | discriminate].
Qed.

(** X13 for Silicon between a 2 nm and a 5 nm oxide. *)
Lemma X13_witness :
  exists d d' p p' C C',
    Simple.calculate_quantum_effects Silicon 2e-9 1e8 = Ok d
    /\ Simple.calculate_quantum_effects Silicon 5e-9 0 = Ok d'
    /\ d !! "tunneling_probability" = Some p
    /\ d' !! "tunneling_probability" = Some p'
    /\ d !! "quantum_capacitance" = Some C
    /\ d' !! "quantum_capacitance" = Some C'
    /\ p' <= p /\ C' <= C.
Proof.
  refine (X13_quantum_effects_fall_with_thickness
            Silicon 2e-9 5e-9 1e8 0 _ _ _); vm_compute;
    (reflexivity || discriminate).
Defined.

(** ** The chart of the I-V characteristics *)

Section Linspace.

Variables (start stop : Q) (div : nat).

Let step : Q := (stop - start) / inject_Z (Z.of_nat (S div)).

Lemma map_lookup {A B} (f : A -> B) (l : list A) (i : nat) :
  map f l !! i = option_map f (l !! i).
Proof.
  revert i. induction l as [|a l IH]; intros [|i]; simpl; auto.
Qed.

Lemma linspace_length (num : nat) :
  length (Numpy.linspace start stop num) = num.
Proof.
  destruct num as [|[|n]]; simpl; try reflexivity.
  rewrite length_app, length_map, length_seq. simpl. lia.
Qed.

Lemma linspace_lookup (i : nat) (v : Q) :
  Numpy.linspace start stop (S (S div)) !! i = Some v ->
  ((i < S div)%nat /\ v = inject_Z (Z.of_nat i) * step + start)
  \/ (i = S div /\ v = stop).
Proof.
  unfold Numpy.linspace. fold step. intros H.
  destruct (Nat.lt_ge_cases i (S div)) as [Hlt | Hge].
  - left. split; [exact Hlt|].
    rewrite lookup_app_l in H by (rewrite length_map, length_seq; exact Hlt).
    rewrite map_lookup, lookup_seq_lt in H by exact Hlt.
    simpl in H. now injection H as <-.
  - right.
    rewrite lookup_app_r in H by (rewrite length_map, length_seq; exact Hge).
    rewrite length_map, length_seq in H.
    destruct (i - S div)%nat as [|k] eqn:Ek; simpl in H; [|discriminate].
    injection H as <-. split; [lia | reflexivity].
Qed.

Hypothesis Hle : start <= stop.

Lemma step_nonneg : 0 <= step.
Proof.
  unfold step. apply Qdiv_nonneg; [lra|].
  change 0 with (inject_Z 0). rewrite <- Zlt_Qlt. lia.
Qed.

Lemma linspace_inner (i : nat) :
  (i <= S div)%nat ->
  start <= inject_Z (Z.of_nat i) * step + start
  /\ inject_Z (Z.of_nat i) * step + start <= stop.
Proof.
  intros Hi. pose proof step_nonneg as Hs.
  assert (H0 : 0 <= inject_Z (Z.of_nat i))
    by (change 0 with (inject_Z 0); rewrite <- Zle_Qle; lia).
  assert (Hn : inject_Z (Z.of_nat i) <= inject_Z (Z.of_nat (S div)))
    by (rewrite <- Zle_Qle; lia).
  assert (Hd : 0 < inject_Z (Z.of_nat (S div)))
    by (change 0 with (inject_Z 0); rewrite <- Zlt_Qlt; lia).
  assert (E : inject_Z (Z.of_nat (S div)) * step == stop - start)
    by (unfold step; field; lra).
  revert H0 Hn Hd E Hs.
  generalize (inject_Z (Z.of_nat i)) (inject_Z (Z.of_nat (S div))) step.
  intros a b s H0 Hn Hd E Hs.
  assert (0 <= a * s) by (now apply Qmult_le_0_compat).
  assert (0 <= (b - a) * s) by (apply Qmult_le_0_compat; lra).
  split; lra.
Qed.

(** The samples lie between the end points and never decrease. *)
Lemma linspace_bounds (i : nat) (v : Q) :
  Numpy.linspace start stop (S (S div)) !! i = Some v ->
  start <= v /\ v <= stop.
Proof.
  intros H. destruct (linspace_lookup _ _ H) as [[Hi ->] | [_ ->]].
  - apply linspace_inner. lia.
  - lra.
Qed.

Lemma linspace_sorted (i j : nat) (vi vj : Q) :
  (i <= j)%nat ->
  Numpy.linspace start stop (S (S div)) !! i = Some vi ->
  Numpy.linspace start stop (S (S div)) !! j = Some vj ->
  vi <= vj.
Proof.
  intros Hij Hi Hj.
  destruct (linspace_lookup _ _ Hj) as [[Hj' ->] | [Hj' ->]].
  - destruct (linspace_lookup _ _ Hi) as [[Hi' ->] | [Hi' ->]]; [|lia].
    pose proof step_nonneg as Hs.
    assert (Hn : inject_Z (Z.of_nat i) <= inject_Z (Z.of_nat j))
      by (rewrite <- Zle_Qle; lia).
    revert Hn Hs.
    generalize (inject_Z (Z.of_nat i)) (inject_Z (Z.of_nat j)) step.
    intros a b s Hn Hs.
    assert (0 <= (b - a) * s) by (apply Qmult_le_0_compat; lra).
    lra.
  - apply (linspace_bounds _ _ Hi).
Qed.

End Linspace.

(** Without DIBL the profile rises for every gate overdrive. *)
Lemma profile_mono_without_dibl (a x1 x2 : Q) :
  0 <= x1 -> x1 <= x2 -> SquareLaw.profile a 0 x1 <= SquareLaw.profile a 0 x2.
Proof.
  intros H0 H12. destruct (Qlt_le_dec 0 a) as [Ha | Ha].
  - apply profile_mono; [discriminate | lra | exact H0 | exact H12].
  - rewrite !profile_cut_off by (unfold SquareLaw.overdrive; lra). lra.
Qed.

Section Curve.
Import VisualizationEngine.

Variables (V_gs : Q) (material_data geometry : dict).

(** One sample of a curve: the body of the inner loop. *)
Let sample (V_ds : Q) : Q :=
  match Basic.calculate_drain_current V_gs V_ds material_data geometry with
  | Ok (I_d, _) => I_d * 1000
  | Raise _ => 0
  end.

Lemma I_d_values_lookup (i : nat) (v : Q) :
  I_d_values V_gs material_data geometry !! i = Some v ->
  exists V_ds, V_ds_range !! i = Some V_ds /\ v = sample V_ds.
Proof.
  unfold I_d_values. rewrite map_lookup.
  destruct (V_ds_range !! i) as [V_ds|]; [|discriminate].
  intros H. injection H as <-. now exists V_ds.
Qed.

Lemma V_ds_range_sorted (i j : nat) (vi vj : Q) :
  (i <= j)%nat -> V_ds_range !! i = Some vi -> V_ds_range !! j = Some vj ->
  0 <= vi /\ vi <= vj.
Proof.
  intros Hij Hi Hj. unfold V_ds_range in *.
  change 50%nat with (S (S 48)) in *.
  split.
  - apply (linspace_bounds 0 10 48 ltac:(discriminate) _ _ Hi).
  - apply (linspace_sorted 0 10 48 ltac:(discriminate) _ _ _ _ Hij Hi Hj).
Qed.

Hypothesis Hmu : 0 <= get material_data "electron_mobility_value" 1400.
Hypothesis HC : 0 <= get geometry "C_ox" 3.45e-3.
Hypothesis HW : 0 <= get geometry "width" 10e-6.
Hypothesis HL : 0 < get geometry "length" 1e-6.

Lemma sample_mono (x1 x2 : Q) :
  0 <= x1 -> x1 <= x2 -> 0 <= sample x1 /\ sample x1 <= sample x2.
Proof.
  intros H0 H12. unfold sample.
  assert (HL0 : ~ get geometry "length" 1e-6 == 0)
    by (intros E; rewrite E in HL; discriminate).
  destruct (basic_profile V_gs x1 material_data geometry HL0)
    as (I1 & reg1 & -> & P1).
  destruct (basic_profile V_gs x2 material_data geometry HL0)
    as (I2 & reg2 & -> & P2).
  assert (Hk : 0 <= get material_data "electron_mobility_value" 1400 * 1e-4
                    * get geometry "C_ox" 3.45e-3
                    * (get geometry "width" 10e-6
                       / get geometry "length" 1e-6)).
  { pose proof (Qdiv_nonneg _ _ HW HL). plain_literals.
    apply Qmult_le_0_compat; [apply Qmult_le_0_compat|]; lra. }
  assert (Hp1 : 0 <= SquareLaw.profile (V_gs - get geometry "V_th" 0.7) 0 x1)
    by (apply profile_nonneg; [discriminate | exact H0]).
  assert (Hp : SquareLaw.profile (V_gs - get geometry "V_th" 0.7) 0 x1
               <= SquareLaw.profile (V_gs - get geometry "V_th" 0.7) 0 x2)
    by (now apply profile_mono_without_dibl).
  assert (H1 : 0 <= I1) by (rewrite P1; now apply Qmult_le_0_compat).
  assert (H2 : I1 <= I2) by (exact (gain_monotone _ _ _ _ _ Hk Hp P1 P2)).
  clear - H1 H2. split; lra.
Qed.

Lemma curve_never_falls (i j : nat) (yi yj : Q) :
  (i <= j)%nat ->
  I_d_values V_gs material_data geometry !! i = Some yi ->
  I_d_values V_gs material_data geometry !! j = Some yj ->
  0 <= yi /\ yi <= yj.
Proof.
  intros Hij Hi Hj.
  destruct (I_d_values_lookup _ _ Hi) as (xi & Hxi & ->).
  destruct (I_d_values_lookup _ _ Hj) as (xj & Hxj & ->).
  destruct (V_ds_range_sorted _ _ _ _ Hij Hxi Hxj).
  now apply sample_mono.
Qed.

End Curve.

Lemma trace_of_chart
    (materials_data : list (string * dict)) (geometry : dict)
    (tr : VisualizationEngine.trace) :
  In tr (VisualizationEngine.create_iv_characteristics materials_data geometry)
  -> exists material_name material_data V_gs,
       In (material_name, material_data) materials_data
       /\ In V_gs VisualizationEngine.V_gs_values
       /\ VisualizationEngine.x tr = VisualizationEngine.V_ds_range
       /\ VisualizationEngine.y tr
          = VisualizationEngine.I_d_values
              (inject_Z V_gs) material_data geometry
       /\ VisualizationEngine.name tr
          = material_name ++ " V_gs=" ++ pretty V_gs ++ "V"
       /\ VisualizationEngine.line_dash tr
          = if (V_gs =? 5)%Z then "dash" else "solid".
Proof.
  unfold VisualizationEngine.create_iv_characteristics.
  intros H. apply in_flat_map in H as ([material_name material_data] & Hm & H).
  apply in_map_iff in H as (V_gs & <- & HV).
  exists material_name, material_data, V_gs. now repeat split.
Qed.

(** X14. On the chart of the I-V characteristics no curve goes below zero
    and no curve falls from one sample to a later one, whenever the
    mobilities of the charted materials, the oxide capacitance and the
    width are non-negative and the channel length is positive. *)
Theorem X14_iv_curves_never_fall
    (materials_data : list (string * dict)) (geometry : dict)
    (tr : VisualizationEngine.trace) (i j : nat) (yi yj : Q) :
  Forall (fun item => 0 <= get (snd item) "electron_mobility_value" 1400)
         materials_data ->
  0 <= get geometry "C_ox" 3.45e-3 ->
  0 <= get geometry "width" 10e-6 ->
  0 < get geometry "length" 1e-6 ->
  In tr (VisualizationEngine.create_iv_characteristics materials_data geometry)
  -> (i <= j)%nat ->
  VisualizationEngine.y tr !! i = Some yi ->
  VisualizationEngine.y tr !! j = Some yj ->
  0 <= yi /\ yi <= yj.
Proof.
  intros Hmus HC HW HL Htr Hij Hi Hj.
  destruct (trace_of_chart _ _ _ Htr)
    as (material_name & material_data & V_gs & Hm & _ & _ & Hy & _).
  rewrite Hy in Hi, Hj.
  rewrite List.Forall_forall in Hmus. specialize (Hmus _ Hm). cbn [snd] in Hmus.
  exact (curve_never_falls _ _ _ Hmus HC HW HL _ _ _ _ Hij Hi Hj).
Qed.

(** X14 for the Silicon curve at [V_gs = 2] on the one-micrometre device,
    fourth and eighth sample. *)
Lemma X14_witness :
  let tr := VisualizationEngine.Scatter
              VisualizationEngine.V_ds_range
              (VisualizationEngine.I_d_values 2 Silicon geometry_1um)
              "Si V_gs=2V" "solid" in
  exists yi yj,
    In tr (VisualizationEngine.create_iv_characteristics
             [("Si", Silicon)] geometry_1um)
    /\ VisualizationEngine.y tr !! 3%nat = Some yi
    /\ VisualizationEngine.y tr !! 7%nat = Some yj
    /\ 0 <= yi /\ yi <= yj.
Proof.
  intros tr.
  exists (nth 3 (VisualizationEngine.y tr) 0),
         (nth 7 (VisualizationEngine.y tr) 0).
  assert (Htr : In tr (VisualizationEngine.create_iv_characteristics
                         [("Si", Silicon)] geometry_1um))
    by (left; vm_compute; reflexivity).
  assert (Hi : VisualizationEngine.y tr !! 3%nat
               = Some (nth 3 (VisualizationEngine.y tr) 0))
    by (vm_compute; reflexivity).
  assert (Hj : VisualizationEngine.y tr !! 7%nat
               = Some (nth 7 (VisualizationEngine.y tr) 0))
    by (vm_compute; reflexivity).
  split; [exact Htr|]. split; [exact Hi|]. split; [exact Hj|].
  refine (X14_iv_curves_never_fall
            [("Si", Silicon)] geometry_1um tr 3 7 _ _ _ _ _ _ Htr _ Hi Hj).
  - constructor; [vm_compute; discriminate | constructor].
  - vm_compute; discriminate.
  - vm_compute; discriminate.
  - vm_compute; reflexivity.
  - lia.
Defined.

Section FlatCurve.
Import VisualizationEngine.

Variables (V_gs : Q) (material_data geometry : dict).

Hypothesis HL : get geometry "length" 1e-6 == 0.

Lemma flat_sample (V_ds : Q) :
  match Basic.calculate_drain_current V_gs V_ds material_data geometry with
  | Ok (I_d, _) => I_d * 1000
  | Raise _ => 0
  end == 0.
Proof.
  destruct (Qlt_le_dec (get geometry "V_th" 0.7) V_gs) as [Hon | Hoff].
  - now rewrite (basic_zero_length V_gs V_ds material_data geometry Hon HL).
  - now rewrite (basic_cut_off V_gs V_ds material_data geometry Hoff).
Qed.

Lemma flat_curve :
  Forall (fun v => v == 0) (I_d_values V_gs material_data geometry).
Proof.
  unfold I_d_values. apply List.Forall_forall. intros v Hv.
  apply in_map_iff in Hv as (V_ds & <- & _). apply flat_sample.
Qed.

End FlatCurve.

(** X15. With a zero channel length the chart is drawn all the same: the
    division by zero of the evaluator is swallowed, and every curve has its
    50 samples, all of them zero. *)
Theorem X15_zero_length_chart_is_flat
    (materials_data : list (string * dict)) (geometry : dict)
    (tr : VisualizationEngine.trace) :
  get geometry "length" 1e-6 == 0 ->
  In tr (VisualizationEngine.create_iv_characteristics materials_data geometry)
  -> length (VisualizationEngine.y tr) = 50%nat
     /\ Forall (fun v => v == 0) (VisualizationEngine.y tr).
Proof.
  intros HL Htr.
  destruct (trace_of_chart _ _ _ Htr)
    as (material_name & material_data & V_gs & _ & _ & _ & -> & _).
  split; [|now apply flat_curve].
  unfold VisualizationEngine.I_d_values, VisualizationEngine.V_ds_range.
  now rewrite length_map, linspace_length.
Qed.

(** X15 for Silicon on a device of length zero. *)
Lemma X15_witness :
  let tr := VisualizationEngine.Scatter
              VisualizationEngine.V_ds_range
              (VisualizationEngine.I_d_values 2 Silicon {[ "length" := 0 ]})
              "Si V_gs=2V" "solid" in
  length (VisualizationEngine.y tr) = 50%nat
  /\ Forall (fun v => v == 0) (VisualizationEngine.y tr).
Proof.
  intros tr.
  refine (X15_zero_length_chart_is_flat
            [("Si", Silicon)] {[ "length" := 0 ]} tr _ _).
  - vm_compute; reflexivity.
  - left; vm_compute; reflexivity.
Defined.


(** ** The layer builder *)

Section Builder.
Import MOSFETBuilder.

Variable explain : layer -> string.

Lemma explained_init : explained __init__.
Proof. constructor. Qed.

Lemma explained_perform (self : builder) (a : action) :
  explained self -> explained (perform explain self a).
Proof.
  unfold explained. intros H. destruct a as [t m th p | i |]; simpl.
  - apply Forall_app. split.
    + eapply Forall_impl; [exact H|]. intros l Hl. simpl in Hl.
      apply lookup_insert_is_Some'. now right.
    + constructor; [|constructor]. simpl.
      apply lookup_insert_is_Some'. now left.
  - destruct (decide (i < length (layers self))%nat); [|exact H].
    simpl. now apply Forall_delete.
  - constructor.
Qed.

Lemma explained_foldl (actions : list action) (self : builder) :
  explained self -> explained (foldl (perform explain) self actions).
Proof.
  revert self. induction actions as [|a actions IH]; intros self H; simpl.
  - exact H.
  - apply IH. now apply explained_perform.
Qed.

Lemma shown_explanations_of_explained
    (properties : gmap string string) (stack : list layer) :
  Forall (fun layer => is_Some (properties !! layer_type layer)) stack ->
  exists texts,
    shown_explanations_of properties stack = Ok texts
    /\ length texts = length stack.
Proof.
  induction 1 as [|l stack [text Hl] _ (texts & IH & Hlen)]; simpl.
  - now exists [].
  - unfold getitem. rewrite Hl, IH. simpl.
    exists (text :: texts). simpl. now rewrite Hlen.
Qed.

End Builder.

(** X17. Whatever layers are added and removed and however often the stack
    is cleared, the builder page finds an explanation for every layer it
    shows: looking up [layer_properties] by the layer's type never raises
    [KeyError], and one text is shown per layer. *)
Theorem X17_every_shown_layer_has_an_explanation
    (explain : MOSFETBuilder.layer -> string)
    (actions : list MOSFETBuilder.action) :
  let self := MOSFETBuilder.session explain actions in
  exists texts,
    MOSFETBuilder.shown_explanations self = Ok texts
    /\ length texts = length (MOSFETBuilder.layers self).
Proof.
  intros self. unfold MOSFETBuilder.shown_explanations.
  rewrite <- (length_reverse (MOSFETBuilder.layers self)).
  apply shown_explanations_of_explained, Forall_reverse.
  apply (explained_foldl explain actions), explained_init.
Qed.

Section LatestExplanation.
Import MOSFETBuilder.

Variable explain : layer -> string.

Lemma kept_explanation (t : string) (rest : list action) (self : builder)
    (text : string) :
  Forall (keeps_explanation t) rest ->
  layer_properties self !! t = Some text ->
  layer_properties (foldl (perform explain) self rest) !! t = Some text.
Proof.
  intros Hrest. revert self.
  induction Hrest as [|a rest Ha _ IH]; intros self Hself; simpl;
    [exact Hself|].
  apply IH. destruct a as [t' m th p | i |]; simpl in *.
  - now rewrite lookup_insert_ne.
  - now destruct (decide (i < length (layers self))%nat).
  - contradiction.
Qed.

End LatestExplanation.

(** X18. The explanation shown for a layer is the one generated for the
    layer of its type that was added last, not its own: after a layer is
    added, and as long as the stack is not cleared and no other layer of
    that type is added, every layer of that type, older ones included, is
    shown with the text of the added layer, even when that layer itself
    has been removed again. *)
Theorem X18_layers_of_a_type_share_the_latest_explanation
    (explain : MOSFETBuilder.layer -> string)
    (self : MOSFETBuilder.builder) (layer_type material : string)
    (thickness : Q) (properties : gmap string value)
    (rest : list MOSFETBuilder.action) :
  let added := MOSFETBuilder.Layer layer_type material thickness properties in
  let self' :=
    foldl (MOSFETBuilder.perform explain)
          (MOSFETBuilder.add_layer explain self layer_type material thickness
             (Some properties)) rest in
  Forall (MOSFETBuilder.keeps_explanation layer_type) rest ->
  forall layer,
    MOSFETBuilder.layer_type layer = layer_type ->
    getitem (MOSFETBuilder.layer_properties self')
            (MOSFETBuilder.layer_type layer)
    = Ok (explain added).
Proof.
  intros added self' Hrest layer ->. unfold getitem, self'.
  rewrite (kept_explanation explain _ rest _ (explain added) Hrest);
    [reflexivity|].
  simpl. now rewrite lookup_insert_eq.
Qed.

(** X18: an aluminium gate is added, then a copper gate, and the copper
    gate is removed again; the aluminium gate is shown with the text of the
    copper gate. *)
Lemma X18_witness :
  let self :=
    MOSFETBuilder.session MOSFETBuilder.layer_material
      [MOSFETBuilder.AddLayer "gate_metal" "Aluminum" 100 ∅;
       MOSFETBuilder.AddLayer "gate_metal" "Copper" 50 ∅;
       MOSFETBuilder.RemoveLayer 0] in
  map MOSFETBuilder.layer_material (MOSFETBuilder.layers self) = ["Aluminum"]
  /\ getitem (MOSFETBuilder.layer_properties self) "gate_metal" = Ok "Copper".
Proof.
  intros self. split; [reflexivity|].
  refine (X18_layers_of_a_type_share_the_latest_explanation
            MOSFETBuilder.layer_material
            (MOSFETBuilder.session MOSFETBuilder.layer_material
               [MOSFETBuilder.AddLayer "gate_metal" "Aluminum" 100 ∅])
            "gate_metal" "Copper" 50 ∅ [MOSFETBuilder.RemoveLayer 0] _
            (MOSFETBuilder.Layer "gate_metal" "Aluminum" 100 ∅) _).
  - constructor; [exact I | constructor].
  - reflexivity.
Defined.

Section CrossSection.
Import MOSFETBuilder.

Lemma layers_svg_length (y h : Q) (stack : list layer) :
  length (layers_svg y h stack) = length stack.
Proof.
  revert y. induction stack as [|l stack IH]; intros y; simpl;
    [reflexivity | now rewrite IH].
Qed.

Lemma layers_svg_lookup (y h : Q) (stack : list layer) (i : nat) (rc : rect) :
  layers_svg y h stack !! i = Some rc ->
  exists layer,
    stack !! i = Some layer
    /\ rect_type rc = layer_type layer
    /\ rect_material rc = layer_material layer
    /\ rect_height rc = h
    /\ rect_y rc == y + inject_Z (Z.of_nat i) * h.
Proof.
  revert y i. induction stack as [|l stack IH]; intros y i H; simpl in H;
    [discriminate|].
  destruct i as [|i]; simpl in H.
  - injection H as <-. exists l. simpl. repeat split. ring.
  - destruct (IH _ _ H) as (layer & Hl & Ht & Hm & Hh & Hy).
    exists layer. repeat split; try assumption.
    rewrite Hy, Nat2Z.inj_succ, <- Z.add_1_r, inject_Z_plus. ring.
Qed.

End CrossSection.

(** X19. The cross-section drawing is produced for every builder: the
    division by the number of layers is guarded by the empty-stack test.
    For a stack of [n > 0] layers it holds one rectangle per layer in stack
    order, all of height [200/n], stacked without gap or overlap from
    [y = 50] down to [y = 250]. *)
Theorem X19_cross_section_tiles_the_frame (self : MOSFETBuilder.builder) :
  let n := length (MOSFETBuilder.layers self) in
  exists drawing,
    MOSFETBuilder.get_cross_section_svg self = Ok drawing
    /\ (n = 0%nat -> drawing = None)
    /\ ((0 < n)%nat ->
        exists rects,
          drawing = Some rects
          /\ length rects = n
          /\ forall i rc,
               rects !! i = Some rc ->
               (exists layer,
                  MOSFETBuilder.layers self !! i = Some layer
                  /\ MOSFETBuilder.rect_type rc
                     = MOSFETBuilder.layer_type layer
                  /\ MOSFETBuilder.rect_material rc
                     = MOSFETBuilder.layer_material layer)
               /\ MOSFETBuilder.rect_height rc * inject_Z (Z.of_nat n) == 200
               /\ MOSFETBuilder.rect_y rc
                  == 50 + inject_Z (Z.of_nat i) * MOSFETBuilder.rect_height rc
               /\ 50 <= MOSFETBuilder.rect_y rc
               /\ MOSFETBuilder.rect_y rc + MOSFETBuilder.rect_height rc
                  <= 250).
Proof.
  intros n. unfold MOSFETBuilder.get_cross_section_svg.
  destruct (MOSFETBuilder.layers self) as [|l stack] eqn:E.
  - exists None. split; [reflexivity|]. split; [reflexivity|].
    unfold n. simpl. lia.
  - set (stack' := l :: stack) in *.
    assert (Hn : 0 < inject_Z (Z.of_nat n)).
    { change 0 with (inject_Z 0). rewrite <- Zlt_Qlt. unfold n. simpl. lia. }
    assert (Hn0 : ~ inject_Z (Z.of_nat n) == 0)
      by (intros E0; rewrite E0 in Hn; discriminate).
    fold n. rewrite (div_ok _ _ Hn0). cbn [bind].
    eexists. split; [reflexivity|]. split; [unfold n; simpl; lia|].
    intros _. eexists. split; [reflexivity|].
    split; [apply layers_svg_length|].
    intros i rc Hrc.
    pose proof (lookup_lt_Some _ _ _ Hrc) as Hi.
    rewrite layers_svg_length in Hi. fold n in Hi.
    destruct (layers_svg_lookup _ _ _ _ _ Hrc)
      as (layer & Hl & Ht & Hm & Hh & Hy).
    split; [now exists layer|].
    rewrite Hh.
    assert (Eh : 200 / inject_Z (Z.of_nat n) * inject_Z (Z.of_nat n) == 200)
      by (field; exact Hn0).
    assert (Hi0 : 0 <= inject_Z (Z.of_nat i))
      by (change 0 with (inject_Z 0); rewrite <- Zle_Qle; lia).
    assert (Hin : inject_Z (Z.of_nat i) + 1 <= inject_Z (Z.of_nat n)).
    { change 1 with (inject_Z 1). rewrite <- inject_Z_plus, <- Zle_Qle. lia. }
    assert (Hh0 : 0 < 200 / inject_Z (Z.of_nat n))
      by (apply Qdiv_pos; [reflexivity | exact Hn]).
    revert Eh Hi0 Hin Hh0 Hy. clear.
    generalize (200 / inject_Z (Z.of_nat n)). intros h.
    generalize (inject_Z (Z.of_nat n)) (inject_Z (Z.of_nat i))
               (MOSFETBuilder.rect_y rc).
    intros m k y Eh Hi0 Hin Hh0 Hy.
    split; [exact Eh|]. split; [exact Hy|].
    assert (0 <= k * h) by (apply Qmult_le_0_compat; lra).
    assert (0 <= (m - (k + 1)) * h) by (apply Qmult_le_0_compat; lra).
    split; lra.
Qed.

(** ** The application simulators *)

(** Look a key up in a literal table, the key being known or known to
    differ from the entries. *)
Ltac lookup_literal :=
  repeat first
    [ rewrite lookup_insert_eq
    | rewrite lookup_insert_ne by (congruence || discriminate)
    | rewrite lookup_singleton_eq
    | rewrite lookup_singleton_ne by (congruence || discriminate)
    | rewrite lookup_empty ].

(** The cases of a material name: one of the three of the tables, or
    another one. *)
Ltac material_cases material :=
  destruct (decide (material = "Silicon (Si)")) as [->|?];
  [|destruct (decide (material = "Gallium Nitride (GaN)")) as [->|?];
    [|destruct (decide (material = "Silicon Carbide (SiC)")) as [->|?]]].

Lemma by_material_unknown {V} (Si GaN SiC : V) (material : string) :
  material <> "Silicon (Si)" -> material <> "Gallium Nitride (GaN)" ->
  material <> "Silicon Carbide (SiC)" ->
  by_material Si GaN SiC !! material = None.
Proof. intros. unfold by_material. now lookup_literal. Qed.

Section BasicApplications.
Import ApplicationSimulator.

Lemma efficiency_bounds (material app_type : string) :
  40 <= _calculate_efficiency material app_type
  /\ _calculate_efficiency material app_type <= 95.
Proof.
  unfold _calculate_efficiency. cbv zeta.
  material_cases material; lookup_literal; cbn [default from_option id];
    (destruct (decide (app_type = "Power Electronics")) as [->|?];
     [|destruct (decide (app_type = "RF Applications")) as [->|?];
       [|destruct (decide (app_type = "Digital Circuits")) as [->|?]]]);
    lookup_literal; cbn [default from_option id]; split; discriminate.
Qed.

Lemma power_loss_bounds (material : string) :
  0.5 <= _calculate_power_loss material /\ _calculate_power_loss material <= 2.
Proof.
  unfold _calculate_power_loss. cbv zeta.
  material_cases material; lookup_literal; cbn [default from_option id];
    split; discriminate.
Qed.

Lemma switching_speed_bounds (material : string) :
  1e6 <= _calculate_switching_speed material
  /\ _calculate_switching_speed material <= 5e6.
Proof.
  unfold _calculate_switching_speed. cbv zeta.
  material_cases material; lookup_literal; cbn [default from_option id];
    split; vm_compute; discriminate.
Qed.

Lemma thermal_rise_bounds (material : string) :
  10 <= _calculate_thermal_rise material
  /\ _calculate_thermal_rise material <= 25.
Proof.
  unfold _calculate_thermal_rise. cbv zeta.
  material_cases material; lookup_literal; cbn [default from_option id];
    split; discriminate.
Qed.

Lemma applications_unknown (application_name : string) :
  ~ In application_name
      ["Buck Converter"; "RF Power Amplifier"; "CMOS Inverter"] ->
  _load_applications !! application_name = None.
Proof.
  intros H. unfold _load_applications. simpl in H.
  assert (application_name <> "Buck Converter") by (intros ->; tauto).
  assert (application_name <> "RF Power Amplifier") by (intros ->; tauto).
  assert (application_name <> "CMOS Inverter") by (intros ->; tauto).
  now lookup_literal.
Qed.

Lemma applications_known (application_name : string) :
  In application_name
     ["Buck Converter"; "RF Power Amplifier"; "CMOS Inverter"] ->
  is_Some (_load_applications !! application_name).
Proof.
  simpl. intros [<- | [<- | [<- | []]]]; unfold _load_applications;
    lookup_literal; eauto.
Qed.

End BasicApplications.

(** X20. The basic application simulator checks the application name
    first: an unknown name raises [KeyError] with that name, a known name
    without a [channel_material] raises [KeyError 'channel_material'], and
    otherwise the call returns for every material name, unknown ones
    included, with an efficiency between 40 and 95, a power loss between
    0.5 and 2, a switching speed between 1e6 and 5e6 and a thermal rise
    between 10 and 25. *)
Theorem X20_application_simulation_outcome
    (analysis : string -> ApplicationSimulator.application -> dict -> string)
    (mosfet_params : gmap string string) (application_name : string) :
  let names := ["Buck Converter"; "RF Power Amplifier"; "CMOS Inverter"] in
  let r := ApplicationSimulator.simulate_application
             analysis mosfet_params application_name in
  (~ In application_name names -> r = Raise (KeyError application_name))
  /\ (In application_name names ->
      mosfet_params !! "channel_material" = None ->
      r = Raise (KeyError "channel_material"))
  /\ (In application_name names ->
      is_Some (mosfet_params !! "channel_material") ->
      exists results text efficiency power_loss switching_speed thermal_rise,
        r = Ok (results, text)
        /\ results !! "efficiency" = Some efficiency
        /\ results !! "power_loss" = Some power_loss
        /\ results !! "switching_speed" = Some switching_speed
        /\ results !! "thermal_rise" = Some thermal_rise
        /\ (40 <= efficiency /\ efficiency <= 95)
        /\ (0.5 <= power_loss /\ power_loss <= 2)
        /\ (1e6 <= switching_speed /\ switching_speed <= 5e6)
        /\ (10 <= thermal_rise /\ thermal_rise <= 25)).
Proof.
  intros names r. unfold r, ApplicationSimulator.simulate_application, getitem.
  split; [|split].
  - intros Hn. now rewrite (applications_unknown _ Hn).
  - intros Hn Hm. destruct (applications_known _ Hn) as [app ->].
    cbn [bind]. now rewrite Hm.
  - intros Hn [material Hm]. destruct (applications_known _ Hn) as [app ->].
    cbn [bind]. rewrite Hm. cbn [bind].
    eexists _, _, _, _, _, _. split; [reflexivity|].
    split; [now lookup_literal|]. split; [now lookup_literal|].
    split; [now lookup_literal|]. split; [now lookup_literal|].
    split; [apply efficiency_bounds|]. split; [apply power_loss_bounds|].
    split; [apply switching_speed_bounds | apply thermal_rise_bounds].
Qed.

(** X20 for a buck converter with a material that is in no table. *)
Lemma X20_witness :
  exists results text,
    ApplicationSimulator.simulate_application
      (fun material _ _ => material)
      {[ "channel_material" := "Diamond" ]} "Buck Converter"
    = Ok (results, text)
    /\ results !! "efficiency" = Some 80.
Proof.
  destruct (proj2 (proj2 (X20_application_simulation_outcome
                            (fun material _ _ => material)
                            {[ "channel_material" := "Diamond" ]}
                            "Buck Converter")))
    as (results & text & _ & _ & _ & _ & Hr & _).
  - left. reflexivity.
  - eexists. reflexivity.
  - exists results, text. split; [exact Hr|].
    injection Hr as <- _. reflexivity.
Defined.

Lemma advanced_applications_unknown (application_name : string) :
  ~ In application_name
      ["Electric Vehicle Motor Drive"; "5G Base Station PA";
       "Server CPU Power Delivery"; "Solar Microinverter"] ->
  _load_advanced_applications !! application_name = None.
Proof.
  intros H. unfold _load_advanced_applications. simpl in H.
  assert (application_name <> "Electric Vehicle Motor Drive")
    by (intros ->; tauto).
  assert (application_name <> "5G Base Station PA") by (intros ->; tauto).
  assert (application_name <> "Server CPU Power Delivery")
    by (intros ->; tauto).
  assert (application_name <> "Solar Microinverter") by (intros ->; tauto).
  now lookup_literal.
Qed.

Lemma GaN_SiC_else_unknown {V} (material : string) (a b c : V) :
  material <> "Gallium Nitride (GaN)" -> material <> "Silicon Carbide (SiC)" ->
  AppEnhancedApplications.AdvancedApplicationSimulator.GaN_SiC_else
    material a b c = c.
Proof.
  intros H1 H2.
  unfold AppEnhancedApplications.AdvancedApplicationSimulator.GaN_SiC_else.
  apply String.eqb_neq in H1, H2. now rewrite H1, H2.
Qed.

(** X21. The advanced application simulator (either copy) returns exactly
    for its four applications when a [channel_material] is given; an
    unknown application raises [KeyError] before the dispatch is reached,
    so the general-application branch is dead code and no result ever has
    a [performance] entry. *)
Theorem X21_general_application_is_unreachable
    (mosfet_params : gmap string string) (application_name : string)
    (operating_conditions : gmap string value) :
  let names := ["Electric Vehicle Motor Drive"; "5G Base Station PA";
                "Server CPU Power Delivery"; "Solar Microinverter"] in
  let rm := AdvancedApplications.AdvancedApplicationSimulator
              .simulate_advanced_application
              mosfet_params application_name operating_conditions in
  let ra := AppEnhancedApplications.AdvancedApplicationSimulator
              .simulate_advanced_application
              mosfet_params application_name operating_conditions in
  (~ In application_name names ->
   rm = Raise (KeyError application_name)
   /\ ra = Raise (KeyError application_name))
  /\ (In application_name names ->
      mosfet_params !! "channel_material" = None ->
      rm = Raise (KeyError "channel_material")
      /\ ra = Raise (KeyError "channel_material"))
  /\ (In application_name names ->
      is_Some (mosfet_params !! "channel_material") ->
      exists dm da,
        rm = Ok dm /\ ra = Ok da
        /\ dm !! "performance" = None /\ da !! "performance" = None
        /\ is_Some (dm !! "key_advantage") /\ is_Some (da !! "key_advantage")).
Proof.
  intros names rm ra.
  unfold rm, ra,
    AdvancedApplications.AdvancedApplicationSimulator
      .simulate_advanced_application,
    AppEnhancedApplications.AdvancedApplicationSimulator
      .simulate_advanced_application,
    AdvancedApplications.AdvancedApplicationSimulator.applications,
    AppEnhancedApplications.AdvancedApplicationSimulator.applications,
    getitem.
  split; [|split].
  - intros Hn. now rewrite (advanced_applications_unknown _ Hn).
  - intros Hn Hm. simpl in Hn.
    destruct Hn as [<- | [<- | [<- | [<- | []]]]];
      unfold _load_advanced_applications; lookup_literal; cbn [bind];
      now rewrite Hm.
  - intros Hn [material Hm]. simpl in Hn.
    destruct Hn as [<- | [<- | [<- | [<- | []]]]];
      unfold _load_advanced_applications; lookup_literal; cbn [bind];
      rewrite Hm; cbn [bind String.eqb Ascii.eqb Bool.eqb];
      eexists _, _; (split; [reflexivity|]); (split; [reflexivity|]);
      (split; [now lookup_literal|]); (split; [now lookup_literal|]);
      split; lookup_literal; eauto.
Qed.

(** X21 for an application that is not in the table. *)
Lemma X21_witness :
  AppEnhancedApplications.AdvancedApplicationSimulator
    .simulate_advanced_application
    {[ "channel_material" := "Silicon (Si)" ]} "Wireless Charger" ∅
  = Raise (KeyError "Wireless Charger").
Proof.
  refine (proj2 (proj1 (X21_general_application_is_unreachable
                          {[ "channel_material" := "Silicon (Si)" ]}
                          "Wireless Charger" ∅) _)).
  simpl. intros [H | [H | [H | [H | []]]]]; discriminate.
Defined.

(** Evaluate the tables of both copies at a material that is in none. *)
Ltac unknown_material :=
  unfold ModuleSimulator._simulate_ev_drive,
    ModuleSimulator._simulate_5g_pa,
    ModuleSimulator._simulate_cpu_vrm,
    ModuleSimulator._simulate_solar_inverter,
    DashboardSimulator._simulate_ev_drive,
    DashboardSimulator._simulate_5g_pa,
    DashboardSimulator._simulate_cpu_vrm,
    DashboardSimulator._simulate_solar_inverter,
    ModuleSimulator._calculate_system_weight,
    ModuleSimulator._calculate_cooling_needs,
    ModuleSimulator._calculate_system_cost,
    ModuleSimulator._calculate_linearity,
    ModuleSimulator._calculate_thermal_stability,
    ModuleSimulator._calculate_power_density,
    ModuleSimulator._calculate_lifetime,
    ModuleSimulator._get_ev_advantage,
    ModuleSimulator._get_rf_advantage,
    ModuleSimulator._get_vrm_advantage,
    ModuleSimulator._get_solar_advantage;
  cbv zeta;
  rewrite ?by_material_unknown by assumption;
  rewrite ?GaN_SiC_else_unknown by assumption.

(** What two result dicts share once the advantage text and the cost class
    are set aside. *)
Lemma copies_agree (material : string) (conditions : gmap string value) :
  let same (dm da : gmap string value) :=
    delete "key_advantage" (delete "cost_analysis" dm)
    = delete "key_advantage" (delete "cost_analysis" da) in
  same (ModuleSimulator._simulate_ev_drive material conditions)
       (DashboardSimulator._simulate_ev_drive material conditions)
  /\ same (ModuleSimulator._simulate_5g_pa material conditions)
          (DashboardSimulator._simulate_5g_pa material conditions)
  /\ same (ModuleSimulator._simulate_cpu_vrm material conditions)
          (DashboardSimulator._simulate_cpu_vrm material conditions)
  /\ same (ModuleSimulator._simulate_solar_inverter material conditions)
          (DashboardSimulator._simulate_solar_inverter material conditions).
Proof.
  intros same. unfold same.
  material_cases material; [| | |unknown_material];
    split_conj; vm_compute; reflexivity.
Qed.

Lemma copies_cost_known (material : string) (conditions : gmap string value) :
  In material
     ["Silicon (Si)"; "Gallium Nitride (GaN)"; "Silicon Carbide (SiC)"] ->
  let same_cost (dm da : gmap string value) :=
    dm !! "cost_analysis" = da !! "cost_analysis" in
  same_cost (ModuleSimulator._simulate_ev_drive material conditions)
            (DashboardSimulator._simulate_ev_drive material conditions)
  /\ same_cost (ModuleSimulator._simulate_5g_pa material conditions)
               (DashboardSimulator._simulate_5g_pa material conditions)
  /\ same_cost (ModuleSimulator._simulate_cpu_vrm material conditions)
               (DashboardSimulator._simulate_cpu_vrm material conditions)
  /\ same_cost (ModuleSimulator._simulate_solar_inverter material conditions)
               (DashboardSimulator._simulate_solar_inverter material
                  conditions).
Proof.
  intros H same_cost. unfold same_cost. simpl in H.
  destruct H as [<- | [<- | [<- | []]]]; split_conj; vm_compute; reflexivity.
Qed.

Lemma copies_cost_unknown (material : string) (conditions : gmap string value) :
  ~ In material
      ["Silicon (Si)"; "Gallium Nitride (GaN)"; "Silicon Carbide (SiC)"] ->
  let differ (dm da : gmap string value) :=
    dm !! "cost_analysis" = Some (Str "Medium")
    /\ da !! "cost_analysis" = Some (Str "Low") in
  differ (ModuleSimulator._simulate_ev_drive material conditions)
         (DashboardSimulator._simulate_ev_drive material conditions)
  /\ differ (ModuleSimulator._simulate_cpu_vrm material conditions)
            (DashboardSimulator._simulate_cpu_vrm material conditions)
  /\ differ (ModuleSimulator._simulate_solar_inverter material conditions)
            (DashboardSimulator._simulate_solar_inverter material conditions).
Proof.
  intros H differ. unfold differ. simpl in H.
  assert (material <> "Silicon (Si)") by (intros ->; tauto).
  assert (material <> "Gallium Nitride (GaN)") by (intros ->; tauto).
  assert (material <> "Silicon Carbide (SiC)") by (intros ->; tauto).
  unknown_material. split_conj; vm_compute; reflexivity.
Qed.

(** X22. The dashboard's copy of the advanced application simulator and the
    module's return the same results up to two entries: the advantage text,
    and the cost class of a material that is in no table, which the module
    calls Medium and the dashboard Low.  Every other entry agrees for every
    application and every material, and so does the cost class of the three
    known materials. *)
Theorem X22_copies_agree_up_to_advantage_and_cost
    (mosfet_params : gmap string string) (application_name material : string)
    (operating_conditions : gmap string value) :
  let names := ["Electric Vehicle Motor Drive"; "5G Base Station PA";
                "Server CPU Power Delivery"; "Solar Microinverter"] in
  let materials :=
    ["Silicon (Si)"; "Gallium Nitride (GaN)"; "Silicon Carbide (SiC)"] in
  In application_name names ->
  mosfet_params !! "channel_material" = Some material ->
  exists dm da,
    AdvancedApplications.AdvancedApplicationSimulator
      .simulate_advanced_application
      mosfet_params application_name operating_conditions = Ok dm
    /\ AppEnhancedApplications.AdvancedApplicationSimulator
         .simulate_advanced_application
         mosfet_params application_name operating_conditions = Ok da
    /\ delete "key_advantage" (delete "cost_analysis" dm)
       = delete "key_advantage" (delete "cost_analysis" da)
    /\ (In material materials ->
        dm !! "cost_analysis" = da !! "cost_analysis")
    /\ (~ In material materials ->
        application_name <> "5G Base Station PA" ->
        dm !! "cost_analysis" = Some (Str "Medium")
        /\ da !! "cost_analysis" = Some (Str "Low")).
Proof.
  intros names materials Hn Hm.
  pose proof (copies_agree material operating_conditions)
    as (Hev & Hpa & Hvrm & Hsol).
  unfold ModuleSimulator.simulate_advanced_application,
    DashboardSimulator.simulate_advanced_application,
    ModuleSimulator.applications, DashboardSimulator.applications, getitem.
  simpl in Hn.
  destruct Hn as [<- | [<- | [<- | [<- | []]]]];
    unfold _load_advanced_applications; lookup_literal; cbn [bind];
    rewrite Hm; cbn [bind String.eqb Ascii.eqb Bool.eqb];
    eexists _, _; (split; [reflexivity|]); (split; [reflexivity|]);
    (split; [assumption|]); split.
  all: try (intros Hk;
            destruct (copies_cost_known material operating_conditions Hk)
              as (? & ? & ? & ?); assumption).
  all: intros Hu Hpa';
    destruct (copies_cost_unknown material operating_conditions Hu)
      as (? & ? & ?); try assumption; congruence.
Qed.

(** X22 for the EV drive with a material that is in no table. *)
Lemma X22_witness :
  exists dm da,
    AdvancedApplications.AdvancedApplicationSimulator
      .simulate_advanced_application
      {[ "channel_material" := "Diamond" ]} "Electric Vehicle Motor Drive" ∅
    = Ok dm
    /\ AppEnhancedApplications.AdvancedApplicationSimulator
         .simulate_advanced_application
         {[ "channel_material" := "Diamond" ]} "Electric Vehicle Motor Drive" ∅
       = Ok da
    /\ dm !! "cost_analysis" = Some (Str "Medium")
    /\ da !! "cost_analysis" = Some (Str "Low").
Proof.
  destruct (X22_copies_agree_up_to_advantage_and_cost
              {[ "channel_material" := "Diamond" ]}
              "Electric Vehicle Motor Drive" "Diamond" ∅)
    as (dm & da & Hm & Ha & _ & _ & Hcost).
  - left. reflexivity.
  - reflexivity.
  - exists dm, da. split; [exact Hm|]. split; [exact Ha|].
    apply Hcost; [|discriminate].
    simpl. intros [H | [H | [H | []]]]; discriminate.
Defined.

(** ** The radar chart *)

Section Radar.
Import VisualizationEngine.

Lemma unit_interval (v scale : Q) :
  0 < scale -> 0 <= v -> v <= scale -> 0 <= v / scale /\ v / scale <= 1.
Proof.
  intros Hs H0 H1. split.
  - now apply Qdiv_nonneg.
  - apply Qle_shift_div_r; [exact Hs | lra].
Qed.

Lemma radar_chart_cons (material_name : string) (properties : dict)
    (rest : list (string * dict)) (traces : list polar_trace) :
  create_material_radar_chart ((material_name, properties) :: rest)
  = Ok traces ->
  exists a b c d traces',
    properties !! "bandgap_value" = Some a
    /\ properties !! "electron_mobility_value" = Some b
    /\ properties !! "thermal_conductivity_value" = Some c
    /\ properties !! "breakdown_field_value" = Some d
    /\ create_material_radar_chart rest = Ok traces'
    /\ traces
       = {| r := [a / 3.5; b / 2000; c / 500; d / 3.5; a / 3.5];
            theta := categories ++ ["Bandgap"];
            polar_name := material_name |} :: traces'.
Proof.
  cbn [create_material_radar_chart]. unfold item.
  destruct (properties !! "bandgap_value") as [a|]; [|discriminate].
  destruct (properties !! "electron_mobility_value") as [b|]; [|discriminate].
  destruct (properties !! "thermal_conductivity_value") as [c|];
    [|discriminate].
  destruct (properties !! "breakdown_field_value") as [d|]; [|discriminate].
  cbn [bind].
  destruct (create_material_radar_chart rest) as [traces'|e]; [|discriminate].
  cbn [bind]. intros H. injection H as <-.
  exists a, b, c, d, traces'. now repeat split.
Qed.

End Radar.

(** X23. When the radar chart is drawn, it has one polygon per material,
    in the order of the materials, each closed by repeating its first
    point; and if the four properties of every material lie between 0 and
    the scale they are divided by (3.5 eV, 2000 cm2/Vs, 500 W/mK,
    3.5 MV/cm), the chart is drawn and every point lies on the displayed
    axis, between 0 and 1. *)
Theorem X23_radar_polygons_closed_and_on_the_axis
    (materials_data : list (string * dict)) :
  let chart := VisualizationEngine.create_material_radar_chart materials_data in
  (forall traces,
     chart = Ok traces ->
     map VisualizationEngine.polar_name traces = map fst materials_data
     /\ Forall (fun tr =>
                  exists a b c d,
                    VisualizationEngine.r tr = [a; b; c; d; a]
                    /\ length (VisualizationEngine.theta tr) = 5%nat)
               traces)
  /\ (Forall (fun item => VisualizationEngine.within_radar_scale (snd item))
             materials_data ->
      exists traces,
        chart = Ok traces
        /\ Forall (fun tr =>
                     Forall (fun v => 0 <= v /\ v <= 1)
                            (VisualizationEngine.r tr))
                  traces).
Proof.
  intros chart. unfold chart. split.
  - induction materials_data as [|[material_name properties] rest IH];
      intros traces H.
    + injection H as <-. split; [reflexivity | constructor].
    + destruct (radar_chart_cons _ _ _ _ H)
        as (a & b & c & d & traces' & _ & _ & _ & _ & Hrest & ->).
      destruct (IH _ Hrest) as [Hnames Hclosed].
      split; [cbn; now rewrite Hnames|].
      constructor; [|exact Hclosed]. now eexists _, _, _, _.
  - induction 1 as [|[material_name properties] rest Hscale _ (traces & IH & Hin)].
    + exists []. split; [reflexivity | constructor].
    + unfold VisualizationEngine.within_radar_scale,
        VisualizationEngine.radar_scale in Hscale. cbn [snd fst] in Hscale.
      apply Forall_cons in Hscale as [(a & Ha & Ha0 & Ha1) Hscale].
      apply Forall_cons in Hscale as [(b & Hb & Hb0 & Hb1) Hscale].
      apply Forall_cons in Hscale as [(c & Hc & Hc0 & Hc1) Hscale].
      apply Forall_cons in Hscale as [(d & Hd & Hd0 & Hd1) _].
      cbn [fst snd] in *.
      cbn [VisualizationEngine.create_material_radar_chart].
      rewrite (item_Some _ _ _ Ha), (item_Some _ _ _ Hb),
        (item_Some _ _ _ Hc), (item_Some _ _ _ Hd), IH.
      cbn [bind]. eexists. split; [reflexivity|].
      constructor; [|exact Hin]. cbn.
      pose proof (unit_interval a 3.5 ltac:(reflexivity) Ha0 Ha1).
      pose proof (unit_interval b 2000 ltac:(reflexivity) Hb0 Hb1).
      pose proof (unit_interval c 500 ltac:(reflexivity) Hc0 Hc1).
      pose proof (unit_interval d 3.5 ltac:(reflexivity) Hd0 Hd1).
      repeat constructor; tauto.
Qed.

(** X23 for the three materials of the database: each lies within the
    scale, so the chart is drawn with every point on the axis. *)
Lemma X23_witness :
  exists traces,
    VisualizationEngine.create_material_radar_chart
      Dashboard.MATERIAL_PROPERTIES = Ok traces
    /\ Forall (fun tr =>
                 Forall (fun v => 0 <= v /\ v <= 1) (VisualizationEngine.r tr))
              traces.
Proof.
  refine (proj2 (X23_radar_polygons_closed_and_on_the_axis
                   Dashboard.MATERIAL_PROPERTIES) _).
  repeat constructor; cbn [snd fst];
    eexists; (split; [reflexivity|]); split; discriminate.
Defined.

(** ** The pages of the dashboard *)

Section SimulatorPage.
Import Dashboard.

Variables (gate_length gate_width : Q).

Lemma simulator_geometry_length :
  get (simulator_geometry gate_length gate_width) "length" 1e-6
  = gate_length * 1e-6.
Proof. apply get_Some. unfold simulator_geometry. now lookup_literal. Qed.

Lemma simulator_geometry_width :
  get (simulator_geometry gate_length gate_width) "width" 10e-6
  = gate_width * 1e-6.
Proof. apply get_Some. unfold simulator_geometry. now lookup_literal. Qed.

Lemma simulator_geometry_C_ox :
  get (simulator_geometry gate_length gate_width) "C_ox" 3.45e-3 = 3.45e-3.
Proof. apply get_Some. unfold simulator_geometry. now lookup_literal. Qed.

Lemma simulator_geometry_V_th :
  get (simulator_geometry gate_length gate_width) "V_th" 0.7 = 0.7.
Proof. apply get_Some. unfold simulator_geometry. now lookup_literal. Qed.

End SimulatorPage.

(** Under the invariants the basic evaluator returns a non-negative
    current at a non-negative drain voltage. *)
Lemma basic_returns_nonneg (V_gs V_ds : Q) (material geometry : dict) :
  0 <= get material "electron_mobility_value" 1400 ->
  0 <= get geometry "C_ox" 3.45e-3 ->
  0 <= get geometry "width" 10e-6 ->
  0 < get geometry "length" 1e-6 ->
  0 <= V_ds ->
  exists I_d reg,
    Basic.calculate_drain_current V_gs V_ds material geometry = Ok (I_d, reg)
    /\ 0 <= I_d.
Proof.
  intros Hmu HC HW HL Hds.
  assert (HL0 : ~ get geometry "length" 1e-6 == 0)
    by (intros E; rewrite E in HL; discriminate).
  destruct (basic_profile V_gs V_ds material geometry HL0)
    as (I_d & reg & E & P).
  exists I_d, reg. split; [exact E|]. rewrite P.
  apply Qmult_le_0_compat.
  - pose proof (Qdiv_nonneg _ _ HW HL). plain_literals.
    apply Qmult_le_0_compat; [apply Qmult_le_0_compat|]; lra.
  - apply profile_nonneg; [discriminate | exact Hds].
Qed.

(** X24. With every slider of the basic simulator page inside its range
    and a non-negative mobility, the page computes its four metrics without
    a calculation error, each of them non-negative, and no curve of its
    comparison chart goes below zero or falls. *)
Theorem X24_simulator_page_within_its_sliders
    (material : dict) (V_gs V_ds gate_length gate_width : Q) :
  Dashboard.simulator_sliders V_gs V_ds gate_length gate_width ->
  0 <= get material "electron_mobility_value" 1400 ->
  (exists m,
     Dashboard.show_simulator material V_gs V_ds gate_length gate_width = Ok m
     /\ 0 <= Dashboard.metric_drain_current m
     /\ 0 <= Dashboard.metric_power m
     /\ 0 <= Dashboard.metric_current_density m)
  /\ (forall materials_data tr i j yi yj,
        Forall (fun item => 0 <= get (snd item) "electron_mobility_value" 1400)
               materials_data ->
        In tr (VisualizationEngine.create_iv_characteristics materials_data
                 (Dashboard.simulator_geometry gate_length gate_width)) ->
        (i <= j)%nat ->
        VisualizationEngine.y tr !! i = Some yi ->
        VisualizationEngine.y tr !! j = Some yj ->
        0 <= yi /\ yi <= yj).
Proof.
  intros (HVgs & HVds & HL & HW) Hmu.
  set (geometry := Dashboard.simulator_geometry gate_length gate_width).
  assert (GL : 0 < get geometry "length" 1e-6).
  { unfold geometry. rewrite simulator_geometry_length. plain_literals. lra. }
  assert (GW : 0 <= get geometry "width" 10e-6).
  { unfold geometry. rewrite simulator_geometry_width. plain_literals. lra. }
  assert (GC : 0 <= get geometry "C_ox" 3.45e-3).
  { unfold geometry. rewrite simulator_geometry_C_ox. discriminate. }
  split.
  - destruct (basic_returns_nonneg V_gs V_ds material geometry
                Hmu GC GW GL (proj1 HVds)) as (I_d & reg & E & HI).
    unfold Dashboard.show_simulator. fold geometry. rewrite E. cbn [bind].
    assert (HW0 : ~ gate_width == 0) by lra.
    rewrite (div_ok _ _ HW0). cbn [bind].
    eexists. split; [reflexivity|]. cbn.
    split; [lra|]. split; [apply Qmult_le_0_compat; lra|].
    apply Qdiv_nonneg; lra.
  - intros materials_data tr i j yi yj Hmus Htr Hij Hi Hj.
    destruct (trace_of_chart _ _ _ Htr)
      as (material_name & material_data & V & Hm & _ & _ & Hy & _).
    rewrite Hy in Hi, Hj.
    rewrite List.Forall_forall in Hmus. specialize (Hmus _ Hm).
    cbn [snd] in Hmus.
    exact (curve_never_falls _ _ _ Hmus GC GW GL _ _ _ _ Hij Hi Hj).
Qed.

(** X24 at the defaults of the page: Silicon, 3 V, 5 V, 1 um by 10 um. *)
Lemma X24_witness :
  exists m,
    Dashboard.show_simulator Silicon 3 5 1 10 = Ok m
    /\ 0 <= Dashboard.metric_drain_current m
    /\ 0 <= Dashboard.metric_power m
    /\ 0 <= Dashboard.metric_current_density m.
Proof.
  refine (proj1 (X24_simulator_page_within_its_sliders Silicon 3 5 1 10 _ _)).
  - unfold Dashboard.simulator_sliders. split_conj; discriminate.
  - vm_compute. discriminate.
Defined.

Section AdvancedPage.
Import Dashboard.

Variables (gate_length oxide_thickness : Q).

Lemma advanced_geometry_length :
  advanced_geometry gate_length oxide_thickness !! "length"
  = Some (gate_length * 1e-9).
Proof. unfold advanced_geometry. now lookup_literal. Qed.

Lemma advanced_geometry_width :
  advanced_geometry gate_length oxide_thickness !! "width" = Some 1e-6.
Proof. unfold advanced_geometry. now lookup_literal. Qed.

Lemma advanced_geometry_oxide :
  advanced_geometry gate_length oxide_thickness !! "oxide_thickness"
  = Some (oxide_thickness * 1e-9).
Proof. unfold advanced_geometry. now lookup_literal. Qed.

End AdvancedPage.

Ltac nanometres :=
  nanometre_literals;
  change 1e-9 with 0.000000001 in *.

(** X25. With every slider of the advanced-physics page inside its range
    and a material that has a mobility, the extended evaluator and the
    quantum correction called by the page both return: no temperature of
    the slider reaches absolute zero and no length or thickness is zero.
    The tunnelling probability shown is 1e-6 exactly when the oxide slider
    is below 3 nm, and for a non-negative mobility and dielectric constant
    the drain current shown is not negative. *)
Theorem X25_advanced_page_within_its_sliders
    (material : dict)
    (V_gs V_ds gate_length oxide_thickness temperature : Q) :
  Dashboard.advanced_sliders
    V_gs V_ds gate_length oxide_thickness temperature ->
  is_Some (material !! "electron_mobility_value") ->
  exists I_d reg effects quantum_effects,
    Dashboard.show_advanced_physics
      material V_gs V_ds gate_length oxide_thickness temperature
    = Ok (I_d, reg, effects, quantum_effects)
    /\ quantum_effects !! "tunneling_probability"
       = Some (if Qlt_bool oxide_thickness 3 then 1e-6 else 1e-9)
    /\ (0 <= get material "electron_mobility_value" 0 ->
        0 <= get material "dielectric_constant" 3.9 ->
        0 <= I_d).
Proof.
  intros (HVgs & HVds & HL & Hox & HT) [mu_300 Hmu].
  set (geometry := Dashboard.advanced_geometry gate_length oxide_thickness).
  pose proof (advanced_geometry_length gate_length oxide_thickness) as GL.
  pose proof (advanced_geometry_width gate_length oxide_thickness) as GW.
  pose proof (advanced_geometry_oxide gate_length oxide_thickness) as Gox.
  fold geometry in GL, GW, Gox.
  assert (Lpos : 0 < gate_length * 1e-9) by (nanometres; lra).
  assert (tpos : 0 < oxide_thickness * 1e-9) by (nanometres; lra).
  assert (Gt : get geometry "oxide_thickness" 2e-9 = oxide_thickness * 1e-9)
    by (now apply get_Some).
  assert (Hdef : ClosedForm.simple_defined
                   geometry (Some temperature) (gate_length * 1e-9)).
  { unfold ClosedForm.simple_defined, ClosedForm.T, ClosedForm.t_ox,
      Spec.kelvin. cbn [default from_option id]. rewrite Gt.
    split; [lra|]. split; lra. }
  destruct (simple_profile V_gs V_ds material geometry (Some temperature)
              _ _ _ GL GW Hmu Hdef) as (I_d & reg & effects & E & P).
  unfold Dashboard.show_advanced_physics. fold geometry.
  rewrite E. cbn [bind]. rewrite (item_Some _ _ _ Gox). cbn [bind].
  rewrite (div_ok V_gs (oxide_thickness * 1e-9)) by lra. cbn [bind].
  rewrite quantum_effects_eval by (nanometres; lra). cbn [bind].
  exists I_d, reg. eexists _, _. split; [reflexivity|]. split.
  - rewrite lookup_insert_eq. f_equal.
    destruct (Qlt_bool oxide_thickness 3) eqn:E3.
    + apply Qlt_bool_iff in E3.
      assert (H : Qlt_bool (oxide_thickness * 1e-9) 3e-9 = true)
        by (apply Qlt_bool_iff; nanometres; lra).
      now rewrite H.
    + apply Qlt_bool_false in E3.
      assert (H : Qlt_bool (oxide_thickness * 1e-9) 3e-9 = false)
        by (apply Qlt_bool_false; nanometres; lra).
      now rewrite H.
  - intros Hmu0 He. rewrite (get_Some _ _ _ _ Hmu) in Hmu0. rewrite P.
    apply Qmult_le_0_compat.
    + apply gain_nonneg;
        [exact Hmu0 | exact He | exact tpos | discriminate | exact Lpos].
    + apply profile_nonneg; [|lra].
      apply Qlt_le_weak, eta_pos. exact Lpos.
Qed.

(** X25 at the defaults of the page: Silicon, 1.5 V, 2 V, 100 nm, 2 nm,
    25 C. *)
Lemma X25_witness :
  exists I_d reg effects quantum_effects,
    Dashboard.show_advanced_physics Silicon 1.5 2 100 2 25
    = Ok (I_d, reg, effects, quantum_effects)
    /\ quantum_effects !! "tunneling_probability" = Some 1e-6
    /\ (0 <= get Silicon "electron_mobility_value" 0 ->
        0 <= get Silicon "dielectric_constant" 3.9 ->
        0 <= I_d).
Proof.
  refine (X25_advanced_page_within_its_sliders Silicon 1.5 2 100 2 25 _ _).
  - unfold Dashboard.advanced_sliders. split_conj; discriminate.
  - eexists. reflexivity.
Defined.

Section ApplicationsPage.

Variable analysis : string -> ApplicationSimulator.application -> dict -> string.

Lemma simulate_known_application (application material : string) :
  In application ["Buck Converter"; "RF Power Amplifier"; "CMOS Inverter"] ->
  exists results text efficiency,
    ApplicationSimulator.simulate_application analysis
      {[ "channel_material" := material ]} application = Ok (results, text)
    /\ results !! "efficiency" = Some efficiency
    /\ 40 <= efficiency /\ efficiency <= 95.
Proof.
  intros Hn. unfold ApplicationSimulator.simulate_application, getitem.
  destruct (applications_known _ Hn) as [app ->]. cbn [bind].
  rewrite lookup_singleton_eq. cbn [bind].
  eexists _, _, _. split; [reflexivity|]. split; [now lookup_literal|].
  apply efficiency_bounds.
Qed.

Lemma run_simulation_known (application : string) (materials : list string) :
  In application ["Buck Converter"; "RF Power Amplifier"; "CMOS Inverter"] ->
  exists app_results efficiencies,
    Dashboard.run_simulation analysis application materials = Ok app_results
    /\ map VisualizationEngine.entry_material app_results = materials
    /\ VisualizationEngine.efficiencies_of app_results = Ok efficiencies
    /\ length efficiencies = length materials
    /\ Forall (fun e => 40 <= e /\ e <= 95) efficiencies.
Proof.
  intros Hn.
  induction materials as [|material rest (app_results & effs & IH & Hm & He & Hlen & Hb)].
  - exists [], []. repeat split; constructor.
  - destruct (simulate_known_application application material Hn)
      as (results & text & efficiency & E & Hr & Hbounds).
    cbn [Dashboard.run_simulation]. rewrite E, IH. cbn [bind].
    eexists _, (efficiency :: effs). split; [reflexivity|].
    split; [cbn; now rewrite Hm|]. split.
    + cbn [VisualizationEngine.efficiencies_of
             VisualizationEngine.entry_results].
      rewrite (item_Some _ _ _ Hr), He. reflexivity.
    + split; [cbn; now rewrite Hlen|]. now constructor.
Qed.

End ApplicationsPage.

(** X26. On the basic applications page every run succeeds: for each of
    the three applications and any selection of materials, each simulation
    returns, the bar chart finds an efficiency in every result, its bars
    are the selected materials in their order, and every bar lies between
    40 and 95 percent. *)
Theorem X26_applications_page_draws_every_selection
    (analysis : string -> ApplicationSimulator.application -> dict -> string)
    (application : string) (materials_to_compare : list string) :
  In application ["Buck Converter"; "RF Power Amplifier"; "CMOS Inverter"] ->
  exists efficiencies,
    Dashboard.show_applications analysis application materials_to_compare
    = Ok (materials_to_compare, efficiencies)
    /\ length efficiencies = length materials_to_compare
    /\ Forall (fun e => 40 <= e /\ e <= 95) efficiencies.
Proof.
  intros Hn.
  destruct (run_simulation_known analysis application materials_to_compare Hn)
    as (app_results & efficiencies & E & Hm & He & Hlen & Hb).
  exists efficiencies. split; [|now split].
  unfold Dashboard.show_applications,
    VisualizationEngine.create_application_comparison.
  rewrite E. cbn [bind]. rewrite He. cbn [bind]. now rewrite Hm.
Qed.

(** X26 for the buck converter at the default selection of the page. *)
Lemma X26_witness :
  exists efficiencies,
    Dashboard.show_applications (fun material _ _ => material)
      "Buck Converter" ["Silicon (Si)"; "Gallium Nitride (GaN)"]
    = Ok (["Silicon (Si)"; "Gallium Nitride (GaN)"], efficiencies)
    /\ length efficiencies = 2%nat
    /\ Forall (fun e => 40 <= e /\ e <= 95) efficiencies.
Proof.
  refine (X26_applications_page_draws_every_selection
            (fun material _ _ => material) "Buck Converter"
            ["Silicon (Si)"; "Gallium Nitride (GaN)"] _).
  left. reflexivity.
Defined.

